(** * libgpuarray: the array-level BLAS entry points

    A shallow embedding of [src/gpuarray_array_blas.c]: the five entry
    points [GpuArray_rdot], [GpuArray_rgemv], [GpuArray_rgemm],
    [GpuArray_rger] and [GpuArray_rgemmBatch_3d] validate their operands,
    copy the inputs a kernel cannot take as they are, resolve order,
    transpose flags and leading dimensions, and call the backend.

    The entry points are run against a [backend]: the results of the
    collaborators the file calls but does not define (the strided copy,
    the BLAS setup, the kernels, the host allocator).  A run yields the
    value returned and the ordered trace of what was done: messages left
    on the context's error slot, copies, kernel calls, releases. *)

From Stdlib Require Import ZArith List String Bool Lia.
Import ListNotations.
Open Scope string_scope.
Open Scope Z_scope.

(** ** Constants of the headers *)

(** Modelled from the spec: the element-type tags of [gpuarray/types.h]
    (the header is not among the sources).  The three precisions the
    kernels exist for, and every other tag. *)
Inductive ga_typecode : Type :=
| GA_HALF
| GA_FLOAT
| GA_DOUBLE
| GA_OTHER (tag : Z).

Definition typecode_eqb (s t : ga_typecode) : bool :=
  match s, t with
  | GA_HALF, GA_HALF | GA_FLOAT, GA_FLOAT | GA_DOUBLE, GA_DOUBLE => true
  | GA_OTHER a, GA_OTHER b => a =? b
  | _, _ => false
  end.

(** Modelled from the spec: [gpuarray_get_elsize] of the type table (not
    among the sources), on the three tags the entry points let through;
    no entry point reads the size of another tag. *)
Definition gpuarray_get_elsize (t : ga_typecode) : Z :=
  match t with
  | GA_HALF => 2
  | GA_FLOAT => 4
  | GA_DOUBLE => 8
  | GA_OTHER _ => 0
  end.

(** Modelled from the spec: the status codes of [gpuarray/error.h] (the
    header is not among the sources), in the order of the enumeration. *)
Inductive ga_error : Type :=
| GA_NO_ERROR
| GA_MEMORY_ERROR
| GA_VALUE_ERROR
| GA_IMPL_ERROR
| GA_INVALID_ERROR
| GA_UNSUPPORTED_ERROR
| GA_SYS_ERROR
| GA_RUN_ERROR
| GA_DEVSUP_ERROR
| GA_READONLY_ERROR
| GA_WRITEONLY_ERROR
| GA_BLAS_ERROR
| GA_UNALIGNED_ERROR
| GA_COPY_ERROR
| GA_NODEV_ERROR
| GA_MISC_ERROR
| GA_COMM_ERROR
| GA_XLARGE_ERROR.

Definition is_no_error (e : ga_error) : bool :=
  match e with GA_NO_ERROR => true | _ => false end.

Definition is_devsup (e : ga_error) : bool :=
  match e with GA_DEVSUP_ERROR => true | _ => false end.

(** Modelled from the spec: the enumerations of [gpuarray/buffer_blas.h]
    and [gpuarray/array.h] (not among the sources) that the file names. *)
Inductive cb_order : Type := cb_c | cb_fortran.

Inductive cb_transpose : Type := cb_no_trans | cb_trans | cb_conj_trans.

Inductive ga_order : Type := GA_ANY_ORDER | GA_C_ORDER | GA_F_ORDER.

Definition cb_order_eqb (o p : cb_order) : bool :=
  match o, p with
  | cb_c, cb_c | cb_fortran, cb_fortran => true
  | _, _ => false
  end.

Definition is_no_trans (t : cb_transpose) : bool :=
  match t with cb_no_trans => true | _ => false end.

(** Modelled from the spec: the flag masks of [gpuarray/array.h] (not
    among the sources): the two precomputed contiguity bits and the
    alignment bit of a view. *)
Definition GA_C_CONTIGUOUS : Z := 1.
Definition GA_F_CONTIGUOUS : Z := 2.
Definition GA_ALIGNED : Z := 256.

(** ** The array view *)

(** [size_t] is 64 bits wide; a signed stride that meets a [size_t] in an
    expression is converted to it. *)
Definition to_size_t (z : Z) : Z := z mod 2 ^ 64.

Record GpuArray : Type := mkGpuArray {
  data : Z;                (* the buffer handle *)
  dimensions : list Z;
  strides : list Z;        (* signed, in bytes *)
  offset : Z;              (* in bytes *)
  nd : Z;
  flags : Z;
  typecode : ga_typecode
}.

(** [a->dimensions[i]] and [a->strides[i]]; the entry points index them
    below the rank they have just checked. *)
Definition dim (a : GpuArray) (i : nat) : Z := nth i (dimensions a) 0.
Definition stride (a : GpuArray) (i : nat) : Z := nth i (strides a) 0.

(** [a->flags & mask], as a C condition. *)
Definition has_flags (a : GpuArray) (mask : Z) : bool :=
  negb (Z.land (flags a) mask =? 0).

Definition GpuArray_CHKFLAGS (a : GpuArray) (mask : Z) : bool :=
  Z.land (flags a) mask =? mask.

Definition GpuArray_ISONESEGMENT (a : GpuArray) : bool :=
  has_flags a (Z.lor GA_C_CONTIGUOUS GA_F_CONTIGUOUS).

Definition GpuArray_IS_C_CONTIGUOUS (a : GpuArray) : bool :=
  GpuArray_CHKFLAGS a GA_C_CONTIGUOUS.

Definition GpuArray_ITEMSIZE (a : GpuArray) : Z :=
  gpuarray_get_elsize (typecode a).

Definition supported (t : ga_typecode) : bool :=
  match t with
  | GA_HALF | GA_FLOAT | GA_DOUBLE => true
  | GA_OTHER _ => false
  end.

(** [!(X->flags & GA_ALIGNED) || !(Y->flags & GA_ALIGNED) || ...] *)
Definition unaligned3 (a b c : GpuArray) : bool :=
  negb (has_flags a GA_ALIGNED) || negb (has_flags b GA_ALIGNED)
  || negb (has_flags c GA_ALIGNED).

(** ** Kernel calls and the trace of a run *)

(** The three families of kernels: the [h], [s] and [d] entry points. *)
Inductive precision : Type := Half | Single | Double.

(** A [double] argument as the kernel receives it: cast to [float] for
    the half and single kernels, passed on as it is for the double ones.
    The value is carried by name only; nothing computes with it. *)
Inductive scalar : Type :=
| as_float (d : Z)
| as_double (d : Z).

Definition cast_for (p : precision) (d : Z) : scalar :=
  match p with
  | Double => as_double d
  | Half | Single => as_float d
  end.

(** The operand slots of the entry points. *)
Inductive slot : Type := opX | opY | opZ | opA | opB | opC.

Definition slot_eqb (s t : slot) : bool :=
  match s, t with
  | opX, opX | opY, opY | opZ, opZ | opA, opA | opB, opB | opC, opC => true
  | _, _ => false
  end.

(** The six host arrays of the pointer-array fallback. *)
Inductive host_array : Type :=
| A_datas | B_datas | C_datas | A_offsets | B_offsets | C_offsets.

(** A call of a backend kernel, with its arguments in the order of the
    C call.  A host array is [None] when its pointer is [NULL]. *)
Inductive kernel_call : Type :=
| gpublas_dot (p : precision) (N : Z)
    (X offX incX : Z) (Y offY incY : Z) (Zd offZ : Z)
| gpublas_gemv (p : precision) (o : cb_order) (transA : cb_transpose)
    (M N : Z) (alpha : scalar) (A offA lda : Z)
    (X offX incX : Z) (beta : scalar) (Y offY incY : Z)
| gpublas_gemm (p : precision) (o : cb_order) (transA transB : cb_transpose)
    (M N K : Z) (alpha : scalar) (A offA lda : Z) (B offB ldb : Z)
    (beta : scalar) (C offC ldc : Z)
| gpublas_ger (p : precision) (o : cb_order) (M N : Z) (alpha : scalar)
    (X offX incX : Z) (Y offY incY : Z) (A offA lda : Z)
| gpublas_gemm3D (p : precision) (o : cb_order) (transA transB : cb_transpose)
    (M N K : Z) (alpha : scalar)
    (A offA lda strideA : Z) (B offB ldb strideB : Z)
    (beta : scalar) (C offC ldc strideC : Z) (batchCount : Z) (fl : Z)
| gpublas_gemmBatch (p : precision) (o : cb_order)
    (transA transB : cb_transpose) (M N K : Z) (alpha : scalar)
    (Ad : option (list Z)) (offA : option (list Z)) (lda : Z)
    (Bd : option (list Z)) (offB : option (list Z)) (ldb : Z)
    (beta : scalar)
    (Cd : option (list Z)) (offC : option (list Z)) (ldc : Z)
    (batchCount : Z) (fl : Z).

(** What a run does, in order. *)
Inductive event : Type :=
| EvError (code : ga_error) (msg : string) (args : list Z)
    (* error_set / error_fmt / error_sys on ctx->err *)
| EvCopy (s : slot) (src : GpuArray) (ord : ga_order) (res : ga_error)
    (* GpuArray_copy(&copy, src, ord) *)
| EvSetup (ctx : Z) (res : ga_error)
| EvKernel (k : kernel_call) (res : ga_error)
| EvMalloc (h : host_array) (ok : bool)
| EvFree (h : host_array)
| EvClear (s : slot).
    (* GpuArray_clear(&copy) *)

(** How a run ends: the status returned, or a store through a [NULL]
    host array. *)
Inductive outcome : Type :=
| Return (e : ga_error)
| Fault.

Record run : Type := Run { ret : outcome; trace : list event }.

(** The collaborators, by what they answer. *)
Record backend : Type := mkBackend {
  GpuArray_copy : slot -> GpuArray -> ga_order -> ga_error * GpuArray;
  gpublas_setup : Z -> ga_error;
  gpublas : kernel_call -> ga_error;
  malloc : host_array -> bool
}.

(** [e] happens, then [r]. *)
Definition emit (e : event) (r : run) : run :=
  Run (ret r) (e :: trace r).

(** [return error_set(ctx->err, code, msg)], [return error_fmt(...)]. *)
Definition error_set (code : ga_error) (msg : string) : run :=
  Run (Return code) [EvError code msg []].

Definition error_fmt (code : ga_error) (msg : string) (args : list Z) : run :=
  Run (Return code) [EvError code msg args].

(** A pointer [Xp] that is [X] or [&copyX]. *)
Inductive gaptr : Type :=
| arg (a : GpuArray)
| scratch (a : GpuArray).

Definition deref (p : gaptr) : GpuArray :=
  match p with arg a | scratch a => a end.

(** [if (Xp == &copyX) GpuArray_clear(&copyX);] *)
Definition clear_if_scratch (s : slot) (p : gaptr) (r : run) : run :=
  match p with
  | scratch _ => emit (EvClear s) r
  | arg _ => r
  end.

(** The [switch] on the type tag: the kernel family, or no case. *)
Definition precision_of (t : ga_typecode) : option precision :=
  match t with
  | GA_HALF => Some Half
  | GA_FLOAT => Some Single
  | GA_DOUBLE => Some Double
  | GA_OTHER _ => None
  end.

(** The messages the entry points leave on the context, by name. *)
Definition msg_Copy_required_for_Y : string :=
  "Copy required for Y".
Definition msg_Copy_required_for_X : string :=
  "Copy required for X".
Definition msg_Inconsistent_dtypes : string :=
  "Inconsistent dtypes".
Definition msg_Data_type_not_supported : string :=
  "Data type not supported".
Definition msg_rdot_ranks : string :=
  "Wrong number of dimensions: X->nd = %u (expected 1), Y->nd = %u (expected 1), Z->nd = %u (expected 0)".
Definition msg_One_of_the_inputs_is_unaligned : string :=
  "One of the inputs is unaligned".
Definition msg_rdot_shapes : string :=
  "Shape mismatch: X->dimensions[0] = %d != Y->dimensions[0] = %d".
Definition msg_Negative_strides_for_Y : string :=
  "Negative strides for Y".
Definition msg_Noncontiguous_A : string :=
  "Noncontiguous A".
Definition msg_Copy_required_for_A : string :=
  "Copy required for A".
Definition msg_Unsupported_dtype : string :=
  "Unsupported dtype".
Definition msg_rgemv_ranks : string :=
  "Wrong number of dimensions: A->nd = %u (expected 2), X->nd = %u (expected 1), Y->nd = %u (expected 1)".
Definition msg_Unaligned_inputs : string :=
  "Unaligned inputs".
Definition msg_Inconsistent_shapes : string :=
  "Inconsistent shapes".
Definition msg_Noncontiguous_B : string :=
  "Noncontiguous B".
Definition msg_Noncontiguous_C : string :=
  "Noncontiguous C".
Definition msg_Need_copy_for_B : string :=
  "Need copy for B".
Definition msg_Need_copy_for_A : string :=
  "Need copy for A".
Definition msg_rgemm_ranks : string :=
  "Wrong number of dimensions: A->nd = %u (expected 2), B->nd = %u (expected 2), C->nd = %u (expected 2)".
Definition msg_mismatched_shapes : string :=
  "mismatched shapes".
Definition msg_Need_copy_for_Y : string :=
  "Need copy for Y".
Definition msg_Need_copy_for_X : string :=
  "Need copy for X".
Definition msg_rger_ranks : string :=
  "Wrong number of dimensions: X->nd = %u (expected 1), Y->nd = %u (expected 1), A->nd = %u (expected 2)".
Definition msg_Incompatible_shapes : string :=
  "Incompatible shapes".
Definition msg_malloc : string :=
  "malloc".
Definition msg_Invalid_internal_result_for_B : string :=
  "Invalid internal result for B".
Definition msg_Invalid_internal_result_for_A : string :=
  "Invalid internal result for A".
Definition msg_Noncontiguous_last_2d_C : string :=
  "Noncontiguous last 2d C".
Definition msg_Invalid_internal_result_for_C : string :=
  "Invalid internal result for C".
Definition msg_rgemmBatch_ranks : string :=
  "Wrong number of dimensions: A->nd = %u (expected 3), B->nd = %u (expected 3), C->nd = %u (expected 3)".
Definition msg_Unaligned_input : string :=
  "Unaligned input".
Definition msg_Mismatched_first_dimension : string :=
  "Mismatched first dimension".
Definition msg_Mismatched_shape : string :=
  "Mismatched shape".

(** ** The entry points *)

Section EntryPoints.

Variable W : backend.

(** [err = GpuArray_copy(&copy, a, ord);] and what follows it. *)
Definition copy_then (s : slot) (a : GpuArray) (ord : ga_order)
    (k : ga_error -> GpuArray -> run) : run :=
  let '(err, c) := GpuArray_copy W s a ord in
  emit (EvCopy s a ord err) (k err c).

(** [err = gpublas_setup(ctx); if (err != GA_NO_ERROR) goto cleanup;] *)
Definition setup_then (ctx : Z) (cleanup : ga_error -> run) (k : run) : run :=
  let err := gpublas_setup W ctx in
  emit (EvSetup ctx err) (if is_no_error err then k else cleanup err).

(** [err = gpublas_...(...);] and what follows it. *)
Definition call_then (c : kernel_call) (k : ga_error -> run) : run :=
  let err := gpublas W c in
  emit (EvKernel c err) (k err).

(** The label [cleanup] of the four two-copy entry points. *)
Definition cleanup (s1 : slot) (p1 : gaptr) (s2 : slot) (p2 : gaptr)
    (err : ga_error) : run :=
  clear_if_scratch s1 p1 (clear_if_scratch s2 p2 (Run (Return err) [])).

(** *** [GpuArray_rdot] *)

Definition rdot_switch (n elsize : Z) (Xp Yp : gaptr) (Zp : GpuArray) : run :=
  let x := deref Xp in
  let y := deref Yp in
  match precision_of (typecode x) with
  | Some p =>
      call_then
        (gpublas_dot p n
           (data x) (offset x / elsize) (to_size_t (stride x 0) / elsize)
           (data y) (offset y / elsize) (to_size_t (stride y 0) / elsize)
           (data Zp) (offset Zp / elsize))
        (cleanup opX Xp opY Yp)
  | None => cleanup opX Xp opY Yp GA_NO_ERROR
  end.

Definition rdot_setup (ctx n elsize : Z) (Xp Yp : gaptr) (Zp : GpuArray)
    : run :=
  setup_then ctx (cleanup opX Xp opY Yp) (rdot_switch n elsize Xp Yp Zp).

Definition rdot_copyY (ctx n elsize : Z) (Xp : gaptr) (Y Zp : GpuArray)
    (nocopy : bool) : run :=
  if stride Y 0 <? 0 then
    if nocopy then error_set GA_COPY_ERROR msg_Copy_required_for_Y
    else
      copy_then opY Y GA_ANY_ORDER (fun err copyY =>
        if is_no_error err then rdot_setup ctx n elsize Xp (scratch copyY) Zp
        else cleanup opX Xp opY (arg Y) err)
  else rdot_setup ctx n elsize Xp (arg Y) Zp.

Definition rdot_copyX (ctx n elsize : Z) (X Y Zp : GpuArray) (nocopy : bool)
    : run :=
  if stride X 0 <? 0 then
    if nocopy then error_set GA_COPY_ERROR msg_Copy_required_for_X
    else
      copy_then opX X GA_ANY_ORDER (fun err copyX =>
        if is_no_error err
        then rdot_copyY ctx n elsize (scratch copyX) Y Zp nocopy
        else cleanup opX (arg X) opY (arg Y) err)
  else rdot_copyY ctx n elsize (arg X) Y Zp nocopy.

(** The dtype test of [GpuArray_rdot] calls [error_set] and drops its
    value: the message is left on the context and the call goes on. *)
Definition rdot_dtypes (X Y Zp : GpuArray) (r : run) : run :=
  if negb (typecode_eqb (typecode X) (typecode Y))
     || negb (typecode_eqb (typecode X) (typecode Zp))
  then emit (EvError GA_VALUE_ERROR msg_Inconsistent_dtypes []) r
  else r.

Definition GpuArray_rdot (X Y Zp : GpuArray) (nocopy : bool) : run :=
  if negb (supported (typecode X)) then
    error_set GA_INVALID_ERROR msg_Data_type_not_supported
  else if negb (nd X =? 1) || negb (nd Y =? 1) || negb (nd Zp =? 0) then
    error_fmt GA_VALUE_ERROR
      msg_rdot_ranks
      [nd X; nd Y; nd Zp]
  else
    rdot_dtypes X Y Zp
      (let n := dim X 0 in
       if unaligned3 X Y Zp then
         error_set GA_UNALIGNED_ERROR msg_One_of_the_inputs_is_unaligned
       else if negb (dim X 0 =? dim Y 0) then
         error_fmt GA_VALUE_ERROR
           msg_rdot_shapes
           [dim X 0; dim Y 0]
       else
         rdot_copyX (data X) n (gpuarray_get_elsize (typecode X))
           X Y Zp nocopy).

(** *** [GpuArray_rgemv] *)

Definition rgemv_switch (transA : cb_transpose) (alpha beta : Z)
    (o : cb_order) (m n lda elsize : Z) (Ap Xp : gaptr) (Yp : GpuArray)
    : run :=
  let a := deref Ap in
  let x := deref Xp in
  match precision_of (typecode a) with
  | Some p =>
      call_then
        (gpublas_gemv p o transA m n (cast_for p alpha)
           (data a) (offset a / elsize) lda
           (data x) (offset x / elsize) (to_size_t (stride x 0) / elsize)
           (cast_for p beta)
           (data Yp) (offset Yp / elsize) (to_size_t (stride Yp 0) / elsize))
        (cleanup opA Ap opX Xp)
  | None => cleanup opA Ap opX Xp GA_NO_ERROR
  end.

(** From the test of [Y]'s stride to the kernel. *)
Definition rgemv_resolve (transA : cb_transpose) (alpha beta : Z)
    (ctx m n elsize : Z) (Ap Xp : gaptr) (Y : GpuArray) : run :=
  if stride Y 0 <? 0 then
    emit (EvError GA_VALUE_ERROR msg_Negative_strides_for_Y [])
      (cleanup opA Ap opX Xp GA_VALUE_ERROR)
  else if has_flags (deref Ap) GA_F_CONTIGUOUS then
    setup_then ctx (cleanup opA Ap opX Xp)
      (rgemv_switch transA alpha beta cb_fortran m n (dim (deref Ap) 0)
         elsize Ap Xp Y)
  else if has_flags (deref Ap) GA_C_CONTIGUOUS then
    setup_then ctx (cleanup opA Ap opX Xp)
      (rgemv_switch transA alpha beta cb_c m n (dim (deref Ap) 1)
         elsize Ap Xp Y)
  else
    emit (EvError GA_VALUE_ERROR msg_Noncontiguous_A [])
      (cleanup opA Ap opX Xp GA_VALUE_ERROR).

Definition rgemv_copyX (transA : cb_transpose) (alpha beta : Z)
    (ctx m n elsize : Z) (Ap : gaptr) (X Y : GpuArray) (nocopy : bool)
    : run :=
  if stride X 0 <? 0 then
    if nocopy then error_set GA_COPY_ERROR msg_Copy_required_for_X
    else
      copy_then opX X GA_ANY_ORDER (fun err copyX =>
        if is_no_error err
        then rgemv_resolve transA alpha beta ctx m n elsize Ap
               (scratch copyX) Y
        else cleanup opA Ap opX (arg X) err)
  else rgemv_resolve transA alpha beta ctx m n elsize Ap (arg X) Y.

Definition rgemv_copyA (transA : cb_transpose) (alpha beta : Z)
    (ctx m n elsize : Z) (A X Y : GpuArray) (nocopy : bool) : run :=
  if negb (GpuArray_ISONESEGMENT A) then
    if nocopy then error_set GA_COPY_ERROR msg_Copy_required_for_A
    else
      copy_then opA A GA_F_ORDER (fun err copyA =>
        if is_no_error err
        then rgemv_copyX transA alpha beta ctx m n elsize (scratch copyA)
               X Y nocopy
        else cleanup opA (arg A) opX (arg X) err)
  else rgemv_copyX transA alpha beta ctx m n elsize (arg A) X Y nocopy.

Definition GpuArray_rgemv (transA : cb_transpose) (alpha : Z)
    (A X : GpuArray) (beta : Z) (Y : GpuArray) (nocopy : bool) : run :=
  if negb (supported (typecode A)) then
    error_set GA_INVALID_ERROR msg_Unsupported_dtype
  else if negb (nd A =? 2) || negb (nd X =? 1) || negb (nd Y =? 1) then
    error_fmt GA_VALUE_ERROR
      msg_rgemv_ranks
      [nd A; nd X; nd Y]
  else if negb (typecode_eqb (typecode X) (typecode A))
          || negb (typecode_eqb (typecode Y) (typecode A)) then
    error_set GA_VALUE_ERROR msg_Inconsistent_dtypes
  else if unaligned3 A X Y then
    error_set GA_UNALIGNED_ERROR msg_Unaligned_inputs
  else
    let m := if is_no_trans transA then dim A 0 else dim A 1 in
    let n := if is_no_trans transA then dim A 1 else dim A 0 in
    if negb (dim Y 0 =? m) || negb (dim X 0 =? n) then
      error_set GA_VALUE_ERROR msg_Inconsistent_shapes
    else
      rgemv_copyA transA alpha beta (data A) (dim A 0) (dim A 1)
        (gpuarray_get_elsize (typecode A)) A X Y nocopy.

(** *** [GpuArray_rgemm] *)

(** [if (t == cb_no_trans) t = cb_trans; else t = cb_no_trans;] *)
Definition flip (t : cb_transpose) : cb_transpose :=
  if is_no_trans t then cb_trans else cb_no_trans.

Definition rgemm_switch (o : cb_order) (transA transB : cb_transpose)
    (alpha beta : Z) (m n k lda ldb ldc elsize : Z) (Ap Bp : gaptr)
    (Cp : GpuArray) : run :=
  let a := deref Ap in
  let b := deref Bp in
  match precision_of (typecode a) with
  | Some p =>
      call_then
        (gpublas_gemm p o transA transB m n k (cast_for p alpha)
           (data a) (offset a / elsize) lda
           (data b) (offset b / elsize) ldb
           (cast_for p beta)
           (data Cp) (offset Cp / elsize) ldc)
        (cleanup opA Ap opB Bp)
  | None => cleanup opA Ap opB Bp GA_NO_ERROR
  end.

(** The order of [B] against [o], then setup and kernel. *)
Definition rgemm_resolveB (o : cb_order) (transA transB : cb_transpose)
    (alpha beta : Z) (m n k lda ldc elsize : Z) (Ap Bp : gaptr)
    (Cp : GpuArray) : run :=
  let go (ldb : Z) (transB' : cb_transpose) : run :=
    setup_then (data (deref Ap)) (cleanup opA Ap opB Bp)
      (rgemm_switch o transA transB' alpha beta m n k lda ldb ldc elsize
         Ap Bp Cp) in
  if has_flags (deref Bp) GA_F_CONTIGUOUS then
    go (dim (deref Bp) 0)
       (if cb_order_eqb o cb_c then flip transB else transB)
  else if has_flags (deref Bp) GA_C_CONTIGUOUS then
    go (dim (deref Bp) 1)
       (if cb_order_eqb o cb_fortran then flip transB else transB)
  else
    emit (EvError GA_VALUE_ERROR msg_Noncontiguous_B [])
      (cleanup opA Ap opB Bp GA_VALUE_ERROR).

Definition rgemm_resolveA (o : cb_order) (transA transB : cb_transpose)
    (alpha beta : Z) (m n k ldc elsize : Z) (Ap Bp : gaptr) (Cp : GpuArray)
    : run :=
  if has_flags (deref Ap) GA_F_CONTIGUOUS then
    rgemm_resolveB o (if cb_order_eqb o cb_c then flip transA else transA)
      transB alpha beta m n k (dim (deref Ap) 0) ldc elsize Ap Bp Cp
  else if has_flags (deref Ap) GA_C_CONTIGUOUS then
    rgemm_resolveB o
      (if cb_order_eqb o cb_fortran then flip transA else transA)
      transB alpha beta m n k (dim (deref Ap) 1) ldc elsize Ap Bp Cp
  else
    emit (EvError GA_VALUE_ERROR msg_Noncontiguous_A [])
      (cleanup opA Ap opB Bp GA_VALUE_ERROR).

(** From the test of [C] to the kernel. *)
Definition rgemm_resolve (transA transB : cb_transpose) (alpha beta : Z)
    (m n k elsize : Z) (Ap Bp : gaptr) (C : GpuArray) : run :=
  if negb (GpuArray_ISONESEGMENT C) then
    emit (EvError GA_VALUE_ERROR msg_Noncontiguous_C [])
      (cleanup opA Ap opB Bp GA_VALUE_ERROR)
  else if has_flags C GA_F_CONTIGUOUS then
    rgemm_resolveA cb_fortran transA transB alpha beta m n k (dim C 0)
      elsize Ap Bp C
  else if has_flags C GA_C_CONTIGUOUS then
    rgemm_resolveA cb_c transA transB alpha beta m n k (dim C 1)
      elsize Ap Bp C
  else
    emit (EvError GA_VALUE_ERROR msg_Noncontiguous_C [])
      (cleanup opA Ap opB Bp GA_VALUE_ERROR).

Definition rgemm_copyB (transA transB : cb_transpose) (alpha beta : Z)
    (m n k elsize : Z) (Ap : gaptr) (B C : GpuArray) (nocopy : bool) : run :=
  if negb (GpuArray_ISONESEGMENT B) then
    if nocopy then error_set GA_COPY_ERROR msg_Need_copy_for_B
    else
      copy_then opB B GA_F_ORDER (fun err copyB =>
        if is_no_error err
        then rgemm_resolve transA transB alpha beta m n k elsize Ap
               (scratch copyB) C
        else cleanup opA Ap opB (arg B) err)
  else rgemm_resolve transA transB alpha beta m n k elsize Ap (arg B) C.

Definition rgemm_copyA (transA transB : cb_transpose) (alpha beta : Z)
    (m n k elsize : Z) (A B C : GpuArray) (nocopy : bool) : run :=
  if negb (GpuArray_ISONESEGMENT A) then
    if nocopy then error_set GA_COPY_ERROR msg_Need_copy_for_A
    else
      copy_then opA A GA_F_ORDER (fun err copyA =>
        if is_no_error err
        then rgemm_copyB transA transB alpha beta m n k elsize
               (scratch copyA) B C nocopy
        else cleanup opA (arg A) opB (arg B) err)
  else rgemm_copyB transA transB alpha beta m n k elsize (arg A) B C nocopy.

Definition GpuArray_rgemm (transA transB : cb_transpose) (alpha : Z)
    (A B : GpuArray) (beta : Z) (C : GpuArray) (nocopy : bool) : run :=
  if negb (supported (typecode A)) then
    error_set GA_INVALID_ERROR msg_Unsupported_dtype
  else if negb (nd A =? 2) || negb (nd B =? 2) || negb (nd C =? 2) then
    error_fmt GA_VALUE_ERROR
      msg_rgemm_ranks
      [nd A; nd B; nd C]
  else if negb (typecode_eqb (typecode B) (typecode A))
          || negb (typecode_eqb (typecode C) (typecode A)) then
    error_set GA_VALUE_ERROR msg_Inconsistent_dtypes
  else if unaligned3 A B C then
    error_set GA_UNALIGNED_ERROR msg_Unaligned_inputs
  else
    let m := if is_no_trans transA then dim A 0 else dim A 1 in
    let k := if is_no_trans transA then dim A 1 else dim A 0 in
    let n := if is_no_trans transB then dim B 1 else dim B 0 in
    if negb ((if is_no_trans transB then dim B 0 else dim B 1) =? k) then
      error_set GA_VALUE_ERROR msg_mismatched_shapes
    else if negb (dim C 0 =? m) || negb (dim C 1 =? n) then
      error_set GA_VALUE_ERROR msg_mismatched_shapes
    else
      rgemm_copyA transA transB alpha beta m n k
        (gpuarray_get_elsize (typecode A)) A B C nocopy.

(** *** [GpuArray_rger] *)

Definition rger_switch (alpha : Z) (o : cb_order) (m n lda elsize : Z)
    (Xp Yp : gaptr) (Ap : GpuArray) : run :=
  let x := deref Xp in
  let y := deref Yp in
  match precision_of (typecode x) with
  | Some p =>
      call_then
        (gpublas_ger p o m n (cast_for p alpha)
           (data x) (offset x / elsize) (to_size_t (stride x 0) / elsize)
           (data y) (offset y / elsize) (to_size_t (stride y 0) / elsize)
           (data Ap) (offset Ap / elsize) lda)
        (cleanup opX Xp opY Yp)
  | None => cleanup opX Xp opY Yp GA_NO_ERROR
  end.

(** From the test of [A] to the kernel. *)
Definition rger_resolve (alpha : Z) (m n elsize : Z) (Xp Yp : gaptr)
    (A : GpuArray) : run :=
  let go (o : cb_order) (lda : Z) : run :=
    setup_then (data (deref Xp)) (cleanup opX Xp opY Yp)
      (rger_switch alpha o m n lda elsize Xp Yp A) in
  if negb (GpuArray_ISONESEGMENT A) then
    emit (EvError GA_VALUE_ERROR msg_Noncontiguous_A [])
      (cleanup opX Xp opY Yp GA_VALUE_ERROR)
  else if has_flags A GA_F_CONTIGUOUS then go cb_fortran (dim A 0)
  else if has_flags A GA_C_CONTIGUOUS then go cb_c (dim A 1)
  else
    emit (EvError GA_VALUE_ERROR msg_Noncontiguous_A [])
      (cleanup opX Xp opY Yp GA_VALUE_ERROR).

Definition rger_copyY (alpha : Z) (m n elsize : Z) (Xp : gaptr)
    (Y A : GpuArray) (nocopy : bool) : run :=
  if stride Y 0 <? 0 then
    if nocopy then error_set GA_COPY_ERROR msg_Need_copy_for_Y
    else
      copy_then opY Y GA_ANY_ORDER (fun err copyY =>
        if is_no_error err
        then rger_resolve alpha m n elsize Xp (scratch copyY) A
        else cleanup opX Xp opY (arg Y) err)
  else rger_resolve alpha m n elsize Xp (arg Y) A.

Definition rger_copyX (alpha : Z) (m n elsize : Z) (X Y A : GpuArray)
    (nocopy : bool) : run :=
  if stride X 0 <? 0 then
    if nocopy then error_set GA_COPY_ERROR msg_Need_copy_for_X
    else
      copy_then opX X GA_ANY_ORDER (fun err copyX =>
        if is_no_error err
        then rger_copyY alpha m n elsize (scratch copyX) Y A nocopy
        else cleanup opX (arg X) opY (arg Y) err)
  else rger_copyY alpha m n elsize (arg X) Y A nocopy.

Definition GpuArray_rger (alpha : Z) (X Y A : GpuArray) (nocopy : bool)
    : run :=
  if negb (supported (typecode X)) then
    error_set GA_INVALID_ERROR msg_Unsupported_dtype
  else if negb (nd X =? 1) || negb (nd Y =? 1) || negb (nd A =? 2) then
    error_fmt GA_VALUE_ERROR
      msg_rger_ranks
      [nd X; nd Y; nd A]
  else if negb (typecode_eqb (typecode Y) (typecode X))
          || negb (typecode_eqb (typecode A) (typecode X)) then
    error_set GA_VALUE_ERROR msg_Inconsistent_dtypes
  else if unaligned3 X Y A then
    error_set GA_UNALIGNED_ERROR msg_Unaligned_inputs
  else
    let m := dim X 0 in
    let n := dim Y 0 in
    if negb (dim A 0 =? m) || negb (dim A 1 =? n) then
      error_set GA_VALUE_ERROR msg_Incompatible_shapes
    else
      rger_copyX alpha m n (gpuarray_get_elsize (typecode X)) X Y A nocopy.

(** *** [GpuArray_rgemmBatch_3d] *)

(** The layout of the last two dimensions: 1 for C order, 2 for Fortran
    order, 0 for neither. *)
Definition is_last_2d_contiguous (a : GpuArray) : Z :=
  let size := GpuArray_ITEMSIZE a in
  if GpuArray_IS_C_CONTIGUOUS a then 1
  else if (stride a (Z.to_nat (nd a - 2)) <=? 0)
          || (stride a (Z.to_nat (nd a - 1)) <=? 0) then 0
  else if stride a (Z.to_nat (nd a - 2)) =? size then 2
  else if stride a (Z.to_nat (nd a - 1)) =? size then 1
  else 0.

(** [a->dimensions[2] > 1 ? a->strides[2] / elsize : a->dimensions[1]] and
    its row-major twin. *)
Definition ld_fortran (a : GpuArray) (elsize : Z) : Z :=
  if 1 <? dim a 2 then to_size_t (stride a 2) / elsize else dim a 1.

Definition ld_c (a : GpuArray) (elsize : Z) : Z :=
  if 1 <? dim a 1 then to_size_t (stride a 1) / elsize else dim a 2.

(** The indices [0 .. count-1] of the fill loop. *)
Definition batch_indices (count : Z) : list Z :=
  map Z.of_nat (seq 0 (Z.to_nat count)).

(** A host array after the fill loop: [None] for a [NULL] pointer. *)
Definition filled (ok : bool) (count : Z) (f : Z -> Z) : option (list Z) :=
  if ok then Some (map f (batch_indices count)) else None.

(** The labels [old_cleanup] and [cleanup]. *)
Definition old_cleanup (Ap Bp : gaptr) (err : ga_error) : run :=
  emit (EvFree A_datas) (emit (EvFree B_datas) (emit (EvFree C_datas)
  (emit (EvFree A_offsets) (emit (EvFree B_offsets) (emit (EvFree C_offsets)
  (cleanup opA Ap opB Bp err)))))).

(** The body of [if (err == GA_DEVSUP_ERROR)]. *)
Definition rgemmBatch_fallback (o : cb_order) (transA transB : cb_transpose)
    (alpha beta : Z) (m n k lda ldb ldc elsize batchCount : Z)
    (Ap Bp : gaptr) (C : GpuArray) : run :=
  let a := deref Ap in
  let b := deref Bp in
  let ad := malloc W A_datas in
  let bd := malloc W B_datas in
  let cd := malloc W C_datas in
  let ao := malloc W A_offsets in
  let bo := malloc W B_offsets in
  let co := malloc W C_offsets in
  emit (EvMalloc A_datas ad) (emit (EvMalloc B_datas bd)
  (emit (EvMalloc C_datas cd) (emit (EvMalloc A_offsets ao)
  (emit (EvMalloc B_offsets bo) (emit (EvMalloc C_offsets co)
  (if negb ad || negb bd || negb cd || negb ao || negb bo || co then
     emit (EvError GA_SYS_ERROR msg_malloc [])
       (old_cleanup Ap Bp GA_SYS_ERROR)
   else if (0 <? batchCount) && negb (ad && bd && cd && ao && bo && co) then
     Run Fault []
   else
     match precision_of (typecode C) with
     | Some p =>
         call_then
           (gpublas_gemmBatch p o transA transB m n k (cast_for p alpha)
              (filled ad batchCount (fun _ => data a))
              (filled ao batchCount (fun i =>
                 to_size_t (offset a + i * stride a 0) / elsize))
              lda
              (filled bd batchCount (fun _ => data b))
              (filled bo batchCount (fun i =>
                 to_size_t (offset b + i * stride b 0) / elsize))
              ldb
              (cast_for p beta)
              (filled cd batchCount (fun _ => data C))
              (filled co batchCount (fun i =>
                 to_size_t (offset C + i * stride C 0) / elsize))
              ldc batchCount 0)
           (old_cleanup Ap Bp)
     | None => old_cleanup Ap Bp GA_DEVSUP_ERROR
     end)))))).

Definition rgemmBatch_switch (o : cb_order) (transA transB : cb_transpose)
    (alpha beta : Z) (m n k lda ldb ldc elsize batchCount : Z)
    (Ap Bp : gaptr) (C : GpuArray) : run :=
  let a := deref Ap in
  let b := deref Bp in
  match precision_of (typecode C) with
  | Some p =>
      call_then
        (gpublas_gemm3D p o transA transB m n k (cast_for p alpha)
           (data a) (offset a / elsize) lda (to_size_t (stride a 0) / elsize)
           (data b) (offset b / elsize) ldb (to_size_t (stride b 0) / elsize)
           (cast_for p beta)
           (data C) (offset C / elsize) ldc (to_size_t (stride C 0) / elsize)
           batchCount 0)
        (fun err =>
           if is_devsup err then
             rgemmBatch_fallback o transA transB alpha beta m n k
               lda ldb ldc elsize batchCount Ap Bp C
           else cleanup opA Ap opB Bp err)
  | None => cleanup opA Ap opB Bp GA_NO_ERROR
  end.

(** The order of [B] (by [cB]) against [o], then setup and kernels. *)
Definition rgemmBatch_resolveB (o : cb_order) (transA transB : cb_transpose)
    (alpha beta : Z) (m n k lda ldc elsize batchCount cB : Z)
    (Ap Bp : gaptr) (C : GpuArray) : run :=
  let go (ldb : Z) (transB' : cb_transpose) : run :=
    setup_then (data (deref Ap)) (cleanup opA Ap opB Bp)
      (rgemmBatch_switch o transA transB' alpha beta m n k lda ldb ldc
         elsize batchCount Ap Bp C) in
  if cB =? 2 then
    go (ld_fortran (deref Bp) elsize)
       (if cb_order_eqb o cb_c then flip transB else transB)
  else if cB =? 1 then
    go (ld_c (deref Bp) elsize)
       (if cb_order_eqb o cb_fortran then flip transB else transB)
  else
    emit (EvError GA_MISC_ERROR msg_Invalid_internal_result_for_B [])
      (cleanup opA Ap opB Bp GA_MISC_ERROR).

Definition rgemmBatch_resolveA (o : cb_order) (transA transB : cb_transpose)
    (alpha beta : Z) (m n k ldc elsize batchCount cA cB : Z)
    (Ap Bp : gaptr) (C : GpuArray) : run :=
  if cA =? 2 then
    rgemmBatch_resolveB o
      (if cb_order_eqb o cb_c then flip transA else transA) transB
      alpha beta m n k (ld_fortran (deref Ap) elsize) ldc elsize batchCount
      cB Ap Bp C
  else if cA =? 1 then
    rgemmBatch_resolveB o
      (if cb_order_eqb o cb_fortran then flip transA else transA) transB
      alpha beta m n k (ld_c (deref Ap) elsize) ldc elsize batchCount
      cB Ap Bp C
  else
    emit (EvError GA_MISC_ERROR msg_Invalid_internal_result_for_A [])
      (cleanup opA Ap opB Bp GA_MISC_ERROR).

(** From the classification of [C] to the kernels. *)
Definition rgemmBatch_resolve (transA transB : cb_transpose) (alpha beta : Z)
    (m n k elsize batchCount cA cB : Z) (Ap Bp : gaptr) (C : GpuArray)
    : run :=
  let cC := is_last_2d_contiguous C in
  if cC =? 0 then
    emit (EvError GA_VALUE_ERROR msg_Noncontiguous_last_2d_C [])
      (cleanup opA Ap opB Bp GA_VALUE_ERROR)
  else if cC =? 2 then
    rgemmBatch_resolveA cb_fortran transA transB alpha beta m n k
      (ld_fortran C elsize) elsize batchCount cA cB Ap Bp C
  else if cC =? 1 then
    rgemmBatch_resolveA cb_c transA transB alpha beta m n k
      (ld_c C elsize) elsize batchCount cA cB Ap Bp C
  else
    emit (EvError GA_MISC_ERROR msg_Invalid_internal_result_for_C [])
      (cleanup opA Ap opB Bp GA_MISC_ERROR).

Definition rgemmBatch_copyB (transA transB : cb_transpose) (alpha beta : Z)
    (m n k elsize batchCount cA : Z) (Ap : gaptr) (B C : GpuArray)
    (nocopy : bool) : run :=
  let cB := is_last_2d_contiguous B in
  if cB =? 0 then
    if nocopy then error_set GA_COPY_ERROR msg_Need_copy_for_B
    else
      copy_then opB B GA_C_ORDER (fun err copyB =>
        if is_no_error err
        then rgemmBatch_resolve transA transB alpha beta m n k elsize
               batchCount cA 1 Ap (scratch copyB) C
        else cleanup opA Ap opB (arg B) err)
  else
    rgemmBatch_resolve transA transB alpha beta m n k elsize batchCount
      cA cB Ap (arg B) C.

Definition rgemmBatch_copyA (transA transB : cb_transpose) (alpha beta : Z)
    (m n k elsize batchCount : Z) (A B C : GpuArray) (nocopy : bool) : run :=
  let cA := is_last_2d_contiguous A in
  if cA =? 0 then
    if nocopy then error_set GA_COPY_ERROR msg_Need_copy_for_A
    else
      copy_then opA A GA_C_ORDER (fun err copyA =>
        if is_no_error err
        then rgemmBatch_copyB transA transB alpha beta m n k elsize
               batchCount 1 (scratch copyA) B C nocopy
        else cleanup opA (arg A) opB (arg B) err)
  else
    rgemmBatch_copyB transA transB alpha beta m n k elsize batchCount
      cA (arg A) B C nocopy.

Definition GpuArray_rgemmBatch_3d (transA transB : cb_transpose) (alpha : Z)
    (A B : GpuArray) (beta : Z) (C : GpuArray) (nocopy : bool) : run :=
  if negb (supported (typecode A)) then
    error_set GA_INVALID_ERROR msg_Unsupported_dtype
  else if negb (nd A =? 3) || negb (nd B =? 3) || negb (nd C =? 3) then
    error_fmt GA_VALUE_ERROR
      msg_rgemmBatch_ranks
      [nd A; nd B; nd C]
  else if negb (typecode_eqb (typecode B) (typecode A))
          || negb (typecode_eqb (typecode C) (typecode A)) then
    error_set GA_VALUE_ERROR msg_Inconsistent_dtypes
  else if unaligned3 A B C then
    error_set GA_UNALIGNED_ERROR msg_Unaligned_input
  else
    let batchCount := dim A 0 in
    if negb (dim B 0 =? batchCount) || negb (dim C 0 =? batchCount) then
      error_set GA_VALUE_ERROR msg_Mismatched_first_dimension
    else
      let m := if is_no_trans transA then dim A 1 else dim A 2 in
      let k := if is_no_trans transA then dim A 2 else dim A 1 in
      let n := if is_no_trans transB then dim B 2 else dim B 1 in
      if negb ((if is_no_trans transB then dim B 1 else dim B 2) =? k) then
        error_set GA_VALUE_ERROR msg_Mismatched_shape
      else if negb (dim C 1 =? m) || negb (dim C 2 =? n) then
        error_set GA_VALUE_ERROR msg_Mismatched_shape
      else
        rgemmBatch_copyA transA transB alpha beta m n k
          (gpuarray_get_elsize (typecode A)) batchCount A B C nocopy.

End EntryPoints.

(** ** Reading a trace *)

Fixpoint kernel_calls (t : list event) : list kernel_call :=
  match t with
  | [] => []
  | EvKernel k _ :: t' => k :: kernel_calls t'
  | _ :: t' => kernel_calls t'
  end.

(** The temporaries [GpuArray_copy] built for slot [s] (a failed copy
    builds none). *)
Fixpoint copies_made (s : slot) (t : list event) : nat :=
  match t with
  | [] => 0
  | EvCopy s' _ _ res :: t' =>
      ((if slot_eqb s s' && is_no_error res then 1 else 0)
       + copies_made s t')%nat
  | _ :: t' => copies_made s t'
  end.

(** The calls of [GpuArray_copy] on slot [s], failed or not. *)
Fixpoint copies_tried (s : slot) (t : list event) : nat :=
  match t with
  | [] => 0
  | EvCopy s' _ _ _ :: t' =>
      ((if slot_eqb s s' then 1 else 0) + copies_tried s t')%nat
  | _ :: t' => copies_tried s t'
  end.

(** The calls of [GpuArray_clear] on the temporary of slot [s]. *)
Fixpoint clears (s : slot) (t : list event) : nat :=
  match t with
  | [] => 0
  | EvClear s' :: t' => ((if slot_eqb s s' then 1 else 0) + clears s t')%nat
  | _ :: t' => clears s t'
  end.

Definition is_message (e : event) : bool :=
  match e with EvError _ _ _ => true | _ => false end.

(** A run that only left messages on the context: no copy, no setup, no
    kernel, no allocation, no release. *)
Definition only_messages (r : run) : bool := forallb is_message (trace r).



Definition succeeded (r : run) : bool :=
  match ret r with Return e => is_no_error e | Fault => false end.

(** The order, transpose flags and leading dimensions of a kernel call. *)
Definition call_order (c : kernel_call) : option cb_order :=
  match c with
  | gpublas_dot _ _ _ _ _ _ _ _ _ _ => None
  | gpublas_gemv _ o _ _ _ _ _ _ _ _ _ _ _ _ _ _ => Some o
  | gpublas_gemm _ o _ _ _ _ _ _ _ _ _ _ _ _ _ _ _ _ => Some o
  | gpublas_ger _ o _ _ _ _ _ _ _ _ _ _ _ _ => Some o
  | gpublas_gemm3D _ o _ _ _ _ _ _ _ _ _ _ _ _ _ _ _ _ _ _ _ _ _ => Some o
  | gpublas_gemmBatch _ o _ _ _ _ _ _ _ _ _ _ _ _ _ _ _ _ _ _ => Some o
  end.

Definition call_transA (c : kernel_call) : option cb_transpose :=
  match c with
  | gpublas_gemv _ _ t _ _ _ _ _ _ _ _ _ _ _ _ _ => Some t
  | gpublas_gemm _ _ t _ _ _ _ _ _ _ _ _ _ _ _ _ _ _ => Some t
  | gpublas_gemm3D _ _ t _ _ _ _ _ _ _ _ _ _ _ _ _ _ _ _ _ _ _ _ => Some t
  | gpublas_gemmBatch _ _ t _ _ _ _ _ _ _ _ _ _ _ _ _ _ _ _ _ => Some t
  | _ => None
  end.

Definition call_transB (c : kernel_call) : option cb_transpose :=
  match c with
  | gpublas_gemm _ _ _ t _ _ _ _ _ _ _ _ _ _ _ _ _ _ => Some t
  | gpublas_gemm3D _ _ _ t _ _ _ _ _ _ _ _ _ _ _ _ _ _ _ _ _ _ _ => Some t
  | gpublas_gemmBatch _ _ _ t _ _ _ _ _ _ _ _ _ _ _ _ _ _ _ _ => Some t
  | _ => None
  end.

Definition call_lda (c : kernel_call) : option Z :=
  match c with
  | gpublas_dot _ _ _ _ _ _ _ _ _ _ => None
  | gpublas_gemv _ _ _ _ _ _ _ _ lda _ _ _ _ _ _ _ => Some lda
  | gpublas_gemm _ _ _ _ _ _ _ _ _ _ lda _ _ _ _ _ _ _ => Some lda
  | gpublas_ger _ _ _ _ _ _ _ _ _ _ _ _ _ lda => Some lda
  | gpublas_gemm3D _ _ _ _ _ _ _ _ _ _ lda _ _ _ _ _ _ _ _ _ _ _ _ =>
      Some lda
  | gpublas_gemmBatch _ _ _ _ _ _ _ _ _ _ lda _ _ _ _ _ _ _ _ _ => Some lda
  end.

Definition call_ldb (c : kernel_call) : option Z :=
  match c with
  | gpublas_gemm _ _ _ _ _ _ _ _ _ _ _ _ _ ldb _ _ _ _ => Some ldb
  | gpublas_gemm3D _ _ _ _ _ _ _ _ _ _ _ _ _ _ ldb _ _ _ _ _ _ _ _ =>
      Some ldb
  | gpublas_gemmBatch _ _ _ _ _ _ _ _ _ _ _ _ _ ldb _ _ _ _ _ _ => Some ldb
  | _ => None
  end.

Definition call_ldc (c : kernel_call) : option Z :=
  match c with
  | gpublas_gemm _ _ _ _ _ _ _ _ _ _ _ _ _ _ _ _ _ ldc => Some ldc
  | gpublas_gemm3D _ _ _ _ _ _ _ _ _ _ _ _ _ _ _ _ _ _ _ ldc _ _ _ =>
      Some ldc
  | gpublas_gemmBatch _ _ _ _ _ _ _ _ _ _ _ _ _ _ _ _ _ ldc _ _ => Some ldc
  | _ => None
  end.

(** ** How the entry points read storage order *)

(** The order the flag tests of [rgemv], [rgemm] and [rger] give an
    operand: the Fortran bit is tested first. *)
Definition flag_order (a : GpuArray) : option cb_order :=
  if has_flags a GA_F_CONTIGUOUS then Some cb_fortran
  else if has_flags a GA_C_CONTIGUOUS then Some cb_c
  else None.

(** The order a classification of [is_last_2d_contiguous] stands for. *)
Definition class_order (c : Z) : option cb_order :=
  if c =? 2 then Some cb_fortran
  else if c =? 1 then Some cb_c
  else None.

(** The flag for an operand stored in order [oa] in a call made in order
    [o]: the caller's when the two agree, toggled when they do not. *)
Definition flag_against (o oa : cb_order) (t : cb_transpose) : cb_transpose :=
  if cb_order_eqb oa o then t else flip t.

(** The leading dimension the flag tests read off a matrix: the extent of
    its contiguous axis. *)
Definition flag_ld (oa : cb_order) (a : GpuArray) : Z :=
  match oa with
  | cb_fortran => dim a 0
  | cb_c => dim a 1
  end.

(** The leading dimension the batched entry point computes. *)
Definition batch_ld (oa : cb_order) (a : GpuArray) (elsize : Z) : Z :=
  match oa with
  | cb_fortran => ld_fortran a elsize
  | cb_c => ld_c a elsize
  end.

(** The matrix a kernel of [rgemv] or [rgemm] is given for an input: the
    argument, or its copy when the argument is not one segment. *)
Definition given (W : backend) (s : slot) (a : GpuArray) : GpuArray :=
  if GpuArray_ISONESEGMENT a then a
  else snd (GpuArray_copy W s a GA_F_ORDER).

(** The same for the batched entry point, with the classification that
    goes with it: a copy is taken as row-major. *)
Definition given3d (W : backend) (s : slot) (a : GpuArray) : GpuArray :=
  if is_last_2d_contiguous a =? 0
  then snd (GpuArray_copy W s a GA_C_ORDER)
  else a.

Definition class3d (a : GpuArray) : Z :=
  if is_last_2d_contiguous a =? 0 then 1 else is_last_2d_contiguous a.

(** ** The validator

    The checks every entry point makes before it looks at layout: the
    element type, the ranks, the dtypes, the alignment bits (the checks
    before the shapes), then the shapes.  The shape tests are written here
    as the specification words them, over effective row and column
    counts, and compared with the code in the entry lemmas below. *)

Definition aligned3 (a b c : GpuArray) : bool :=
  has_flags a GA_ALIGNED && has_flags b GA_ALIGNED && has_flags c GA_ALIGNED.

Definition same_dtype3 (a b c : GpuArray) : bool :=
  typecode_eqb (typecode b) (typecode a)
  && typecode_eqb (typecode c) (typecode a).

(** [GpuArray_rdot] has no dtype gate: its dtype test does not return. *)
Definition rdot_prior (X Y Zp : GpuArray) : bool :=
  supported (typecode X)
  && ((nd X =? 1) && (nd Y =? 1) && (nd Zp =? 0))
  && aligned3 X Y Zp.

Definition rgemv_prior (A X Y : GpuArray) : bool :=
  supported (typecode A)
  && ((nd A =? 2) && (nd X =? 1) && (nd Y =? 1))
  && same_dtype3 A X Y
  && aligned3 A X Y.

Definition rgemm_prior (A B C : GpuArray) : bool :=
  supported (typecode A)
  && ((nd A =? 2) && (nd B =? 2) && (nd C =? 2))
  && same_dtype3 A B C
  && aligned3 A B C.

Definition rger_prior (X Y A : GpuArray) : bool :=
  supported (typecode X)
  && ((nd X =? 1) && (nd Y =? 1) && (nd A =? 2))
  && same_dtype3 X Y A
  && aligned3 X Y A.

Definition rgemmBatch_prior (A B C : GpuArray) : bool :=
  supported (typecode A)
  && ((nd A =? 3) && (nd B =? 3) && (nd C =? 3))
  && same_dtype3 A B C
  && aligned3 A B C.

(** The effective row and column counts of the matrix whose row axis is
    axis [i] (0 for a matrix, 1 for a batch of matrices), under the
    caller's transpose flag. *)
Definition eff_rows (t : cb_transpose) (a : GpuArray) (i : nat) : Z :=
  if is_no_trans t then dim a i else dim a (S i).

Definition eff_cols (t : cb_transpose) (a : GpuArray) (i : nat) : Z :=
  if is_no_trans t then dim a (S i) else dim a i.

(** [y = op(A) x]: [op(A)] is [rows x cols], [y] has [rows] entries and
    [x] has [cols]. *)
Definition rgemv_shapes (tA : cb_transpose) (A X Y : GpuArray) : bool :=
  (dim Y 0 =? eff_rows tA A 0) && (dim X 0 =? eff_cols tA A 0).

(** [C = op(A) op(B)]: [op(A)] is [m x k], [op(B)] is [k x n], [C] is
    [m x n]. *)
Definition inner_dims_agree (tA tB : cb_transpose) (A B : GpuArray)
    (i : nat) : bool :=
  eff_rows tB B i =? eff_cols tA A i.

Definition rgemm_shapes (tA tB : cb_transpose) (A B C : GpuArray) : bool :=
  inner_dims_agree tA tB A B 0
  && ((dim C 0 =? eff_rows tA A 0) && (dim C 1 =? eff_cols tB B 0)).

Definition rger_shapes (X Y A : GpuArray) : bool :=
  (dim A 0 =? dim X 0) && (dim A 1 =? dim Y 0).

Definition batch_dims_equal (A B C : GpuArray) : bool :=
  (dim B 0 =? dim A 0) && (dim C 0 =? dim A 0).

Definition rgemmBatch_shapes (tA tB : cb_transpose) (A B C : GpuArray)
    : bool :=
  inner_dims_agree tA tB A B 1
  && ((dim C 1 =? eff_rows tA A 1) && (dim C 2 =? eff_cols tB B 1)).

(** A call stopped by one of the checks before the shapes. *)
Definition stopped_early (r : run) (shape_msgs : list string) : Prop :=
  exists code msg args,
    r = error_fmt code msg args
    /\ code <> GA_NO_ERROR
    /\ ~ In msg shape_msgs.

(** The layout each entry point requires of its inputs: a vector must not
    have a negative stride, a matrix must be one segment, and the slices
    of a batch must be classified by [is_last_2d_contiguous]. *)
Definition rdot_needs_copy (X Y : GpuArray) : bool :=
  (stride X 0 <? 0) || (stride Y 0 <? 0).

Definition rgemv_needs_copy (A X : GpuArray) : bool :=
  negb (GpuArray_ISONESEGMENT A) || (stride X 0 <? 0).

Definition rgemm_needs_copy (A B : GpuArray) : bool :=
  negb (GpuArray_ISONESEGMENT A) || negb (GpuArray_ISONESEGMENT B).

Definition rger_needs_copy (X Y : GpuArray) : bool :=
  (stride X 0 <? 0) || (stride Y 0 <? 0).

Definition rgemmBatch_needs_copy (A B : GpuArray) : bool :=
  (is_last_2d_contiguous A =? 0) || (is_last_2d_contiguous B =? 0).

(** A call that passes the whole validator. *)
Definition rdot_valid (X Y Zp : GpuArray) : bool :=
  rdot_prior X Y Zp && (dim X 0 =? dim Y 0).

Definition rgemv_valid (tA : cb_transpose) (A X Y : GpuArray) : bool :=
  rgemv_prior A X Y && rgemv_shapes tA A X Y.

Definition rgemm_valid (tA tB : cb_transpose) (A B C : GpuArray) : bool :=
  rgemm_prior A B C && rgemm_shapes tA tB A B C.

Definition rger_valid (X Y A : GpuArray) : bool :=
  rger_prior X Y A && rger_shapes X Y A.

Definition rgemmBatch_valid (tA tB : cb_transpose) (A B C : GpuArray)
    : bool :=
  rgemmBatch_prior A B C && batch_dims_equal A B C
  && rgemmBatch_shapes tA tB A B C.

(** ** The calls that reach a kernel

    What a call needs, past the validator, to get to its kernel: inputs
    that are usable as they are or that may be and can be copied, an
    output that can be written as it is, operands the flag tests (or
    [is_last_2d_contiguous]) can resolve, a [gpublas_setup] that
    succeeds, and an element type the [switch] has a case for.  The
    tests are listed in the order the code makes them. *)

(** An input that fails its layout test ([needs]) is copied, which takes
    [nocopy] unset and a [GpuArray_copy] that succeeds. *)
Definition usable (W : backend) (s : slot) (a : GpuArray) (ord : ga_order)
    (needs nocopy : bool) : bool :=
  negb needs
  || (negb nocopy && is_no_error (fst (GpuArray_copy W s a ord))).

(** The vector a kernel is given for an input: the argument, or its copy
    when its stride is negative. *)
Definition givenv (W : backend) (s : slot) (x : GpuArray) : GpuArray :=
  if stride x 0 <? 0 then snd (GpuArray_copy W s x GA_ANY_ORDER) else x.

(** One of the two contiguity bits is set. *)
Definition flagged_contiguous (a : GpuArray) : bool :=
  has_flags a GA_F_CONTIGUOUS || has_flags a GA_C_CONTIGUOUS.

Definition rgemv_layout_ok (W : backend) (ctx : Z) (A X Y : GpuArray)
    (nocopy : bool) : bool :=
  usable W opA A GA_F_ORDER (negb (GpuArray_ISONESEGMENT A)) nocopy
  && usable W opX X GA_ANY_ORDER (stride X 0 <? 0) nocopy
  && negb (stride Y 0 <? 0)
  && flagged_contiguous (given W opA A)
  && is_no_error (gpublas_setup W ctx)
  && supported (typecode (given W opA A)).

Definition rgemm_layout_ok (W : backend) (A B C : GpuArray) (nocopy : bool)
    : bool :=
  usable W opA A GA_F_ORDER (negb (GpuArray_ISONESEGMENT A)) nocopy
  && usable W opB B GA_F_ORDER (negb (GpuArray_ISONESEGMENT B)) nocopy
  && GpuArray_ISONESEGMENT C
  && flagged_contiguous C
  && flagged_contiguous (given W opA A)
  && flagged_contiguous (given W opB B)
  && is_no_error (gpublas_setup W (data (given W opA A)))
  && supported (typecode (given W opA A)).

Definition rger_layout_ok (W : backend) (X Y A : GpuArray) (nocopy : bool)
    : bool :=
  usable W opX X GA_ANY_ORDER (stride X 0 <? 0) nocopy
  && usable W opY Y GA_ANY_ORDER (stride Y 0 <? 0) nocopy
  && GpuArray_ISONESEGMENT A
  && flagged_contiguous A
  && is_no_error (gpublas_setup W (data (givenv W opX X)))
  && supported (typecode (givenv W opX X)).

Definition rgemmBatch_layout_ok (W : backend) (A B C : GpuArray)
    (nocopy : bool) : bool :=
  usable W opA A GA_C_ORDER (is_last_2d_contiguous A =? 0) nocopy
  && usable W opB B GA_C_ORDER (is_last_2d_contiguous B =? 0) nocopy
  && negb (is_last_2d_contiguous C =? 0)
  && is_no_error (gpublas_setup W (data (given3d W opA A)))
  && supported (typecode C).

(** A call that passes the validator and the tests above. *)
Definition rgemv_reaches_kernel (W : backend) (tA : cb_transpose)
    (A X Y : GpuArray) (nocopy : bool) : bool :=
  rgemv_valid tA A X Y && rgemv_layout_ok W (data A) A X Y nocopy.

Definition rgemm_reaches_kernel (W : backend) (tA tB : cb_transpose)
    (A B C : GpuArray) (nocopy : bool) : bool :=
  rgemm_valid tA tB A B C && rgemm_layout_ok W A B C nocopy.

Definition rger_reaches_kernel (W : backend) (X Y A : GpuArray)
    (nocopy : bool) : bool :=
  rger_valid X Y A && rger_layout_ok W X Y A nocopy.

Definition rgemmBatch_reaches_kernel (W : backend) (tA tB : cb_transpose)
    (A B C : GpuArray) (nocopy : bool) : bool :=
  rgemmBatch_valid tA tB A B C && rgemmBatch_layout_ok W A B C nocopy.

(** ** The properties stated of a run *)

(** The flag [passed] to the kernel for an operand stored in order [oa],
    in a call made in order [o] with the caller's flag [t]: the caller's
    flag when the orders agree, and the toggled flag, which differs from
    it, when they do not. *)
Definition toggled_iff_disagree (o oa : cb_order) (t : cb_transpose)
    (passed : option cb_transpose) : Prop :=
  (oa = o -> passed = Some t)
  /\ (oa <> o -> passed = Some (flip t) /\ flip t <> t).

(** The substitution rule for a matrix of [rows] by [cols] classified in
    order [o]: when the axis next to the contiguous one has extent 1 (the
    rows of a row-major matrix, the columns of a column-major one), the
    leading dimension is the extent of the other axis. *)
Definition degenerate_rule (o : cb_order) (rows cols : Z) (ld : option Z)
    : Prop :=
  (o = cb_c -> rows = 1 -> ld = Some cols)
  /\ (o = cb_fortran -> cols = 1 -> ld = Some rows).


Definition faulted (r : run) : bool :=
  match ret r with Fault => true | Return _ => false end.

(** What a refused call leaves behind: no kernel call, nothing but
    messages on the context (so no buffer is written), a failure status;
    and the status is [GA_COPY_ERROR] when the call is [valid]. *)
Definition refused_for_copy (valid : bool) (r : run) : Prop :=
  kernel_calls (trace r) = []
  /\ only_messages r = true
  /\ succeeded r = false
  /\ (valid = true -> ret r = Return GA_COPY_ERROR).

(** A call refused because of its output: no kernel is called, the status
    is a failure, and it is [GA_VALUE_ERROR] when [reached] (the call is
    valid and no input stops it first). *)
Definition refused_for_output (reached : bool) (r : run) : Prop :=
  kernel_calls (trace r) = []
  /\ succeeded r = false
  /\ (reached = true -> ret r = Return GA_VALUE_ERROR).

(** ** Sample operands and backends *)

Fixpoint c_strides (es : Z) (dims : list Z) : list Z :=
  match dims with
  | [] => []
  | _ :: ds => es * fold_right Z.mul 1 ds :: c_strides es ds
  end.

Fixpoint f_strides (es : Z) (dims : list Z) : list Z :=
  match dims with
  | [] => []
  | d :: ds => es :: f_strides (es * d) ds
  end.

(** A contiguous copy in the order asked for, in a fresh buffer. *)
Definition fresh_copy (a : GpuArray) (ord : ga_order) : GpuArray :=
  let es := gpuarray_get_elsize (typecode a) in
  match ord with
  | GA_C_ORDER =>
      mkGpuArray (data a + 1000) (dimensions a)
        (c_strides es (dimensions a)) 0 (nd a)
        (Z.lor GA_C_CONTIGUOUS GA_ALIGNED) (typecode a)
  | GA_F_ORDER | GA_ANY_ORDER =>
      mkGpuArray (data a + 1000) (dimensions a)
        (f_strides es (dimensions a)) 0 (nd a)
        (Z.lor GA_F_CONTIGUOUS GA_ALIGNED) (typecode a)
  end.

(** A backend where everything succeeds. *)
Definition calm : backend :=
  mkBackend (fun _ a ord => (GA_NO_ERROR, fresh_copy a ord))
    (fun _ => GA_NO_ERROR) (fun _ => GA_NO_ERROR) (fun _ => true).

(** A backend whose strided-batched kernel declines every call. *)
Definition declining : backend :=
  mkBackend (fun _ a ord => (GA_NO_ERROR, fresh_copy a ord))
    (fun _ => GA_NO_ERROR)
    (fun c =>
       match c with
       | gpublas_gemm3D _ _ _ _ _ _ _ _ _ _ _ _ _ _ _ _ _ _ _ _ _ _ _ =>
           GA_DEVSUP_ERROR
       | _ => GA_NO_ERROR
       end)
    (fun _ => true).

Definition flags_c : Z := Z.lor GA_C_CONTIGUOUS GA_ALIGNED.
Definition flags_f : Z := Z.lor GA_F_CONTIGUOUS GA_ALIGNED.
Definition flags_cf : Z :=
  Z.lor (Z.lor GA_C_CONTIGUOUS GA_F_CONTIGUOUS) GA_ALIGNED.

(** Float vectors, matrices and batches, by buffer, shape, strides, flags. *)
Definition fvec (h n st fl : Z) : GpuArray :=
  mkGpuArray h [n] [st] 0 1 fl GA_FLOAT.

Definition fmat (h r c sr sc fl : Z) : GpuArray :=
  mkGpuArray h [r; c] [sr; sc] 0 2 fl GA_FLOAT.

Definition fbatch (h b r c sb sr sc fl : Z) : GpuArray :=
  mkGpuArray h [b; r; c] [sb; sr; sc] 0 3 fl GA_FLOAT.

Definition fscalar (h : Z) : GpuArray :=
  mkGpuArray h [] [] 0 0 flags_cf GA_FLOAT.

(** A row-major [A] and a column-major [B] into a column-major [C]: the
    kernel is called in Fortran order, with [A] transposed and [B] as the
    caller gave it. *)
Definition c1_A : GpuArray := fmat 1 2 3 12 4 flags_c.
Definition c1_B : GpuArray := fmat 2 3 2 4 12 flags_f.
Definition c1_C : GpuArray := fmat 3 2 2 4 8 flags_f.
Definition c1_call : kernel_call :=
  gpublas_gemm Single cb_fortran cb_trans cb_no_trans 2 2 3 (as_float 1)
    1 0 3 2 0 3 (as_float 0) 3 0 2.

(** A batch of row-major [1 x 3] slices whose row stride (400 bytes) says
    nothing about the rows: the kernel gets 3, not 100. *)
Definition c8_A : GpuArray := fbatch 1 2 1 3 12 400 4 GA_ALIGNED.
Definition c8_B : GpuArray := fbatch 2 2 3 2 24 8 4 flags_c.
Definition c8_C : GpuArray := fbatch 3 2 1 2 8 8 4 flags_c.
Definition c8_call : kernel_call :=
  gpublas_gemm3D Single cb_c cb_no_trans cb_no_trans 1 2 3 (as_float 1)
    1 0 3 3 2 0 2 6 (as_float 0) 3 0 2 2 2 0.

(** A [3 x 1] matrix with both bits set, as the matrix of [rgemv] and as
    the output of [rgemm]. *)
Definition c10_A : GpuArray := fmat 1 3 1 4 12 flags_cf.
Definition c10_X : GpuArray := fvec 2 1 4 flags_cf.
Definition c10_Y : GpuArray := fvec 3 3 4 flags_cf.
Definition c10_call : kernel_call :=
  gpublas_gemv Single cb_fortran cb_no_trans 3 1 (as_float 1)
    1 0 3 2 0 1 (as_float 0) 3 0 1.

(** A batch whose slices are padded ([A], copied) against a backend whose
    kernel fails: the copy is cleared once on the way out. *)
Definition failing_kernels : backend :=
  mkBackend (fun _ a ord => (GA_NO_ERROR, fresh_copy a ord))
    (fun _ => GA_NO_ERROR) (fun _ => GA_BLAS_ERROR) (fun _ => true).


(** A valid [rgemm] call with [nocopy] set and a padded [A]. *)
Definition c6_A : GpuArray := fmat 1 2 3 24 8 GA_ALIGNED.

(** [A] is [2 x 3] and [B] is [4 x 2]. *)
Definition c7_B : GpuArray := fmat 2 4 2 4 16 flags_f.

(** A valid [rgemm] call whose output is padded. *)
Definition c4_C : GpuArray := fmat 3 2 2 16 8 GA_ALIGNED.

(** Outputs the claim as written would refuse and the code accepts: a
    strided vector [Y] (every other element, so neither contiguity bit)
    in [rgemv], and a row-major [1 x 2] output of [rgemm] whose stride
    along the axis of extent 1 is negative. *)
Definition c4_Y : GpuArray := fvec 3 3 8 GA_ALIGNED.
Definition c4_A1 : GpuArray := fmat 1 1 3 12 4 flags_c.
Definition c4_C1 : GpuArray := fmat 3 1 2 (-8) 4 flags_c.

(** A single-precision [X] and [Z] with a double-precision [Y]. *)
Definition c3_X : GpuArray := fvec 1 3 4 flags_cf.
Definition c3_Y : GpuArray := mkGpuArray 2 [3] [8] 0 1 flags_cf GA_DOUBLE.
Definition c3_Z : GpuArray := fscalar 3.

(** The only allocation outcome that gets past the test is the one where
    [C_offsets] alone is [NULL]; the fill loop then stores through it. *)
Definition no_C_offsets : backend :=
  mkBackend (fun _ a ord => (GA_NO_ERROR, fresh_copy a ord))
    (fun _ => GA_NO_ERROR)
    (fun c =>
       match c with
       | gpublas_gemm3D _ _ _ _ _ _ _ _ _ _ _ _ _ _ _ _ _ _ _ _ _ _ _ =>
           GA_DEVSUP_ERROR
       | _ => GA_NO_ERROR
       end)
    (fun h => match h with C_offsets => false | _ => true end).

(** Batches of 2 and of 3 matrices, the second operand unaligned. *)
Definition c5_B : GpuArray := fbatch 2 3 3 2 24 8 4 GA_C_CONTIGUOUS.

(** [A] of [2 x 3] against an unaligned [B] of [4 x 2]. *)
Definition c7_B_unaligned : GpuArray := fmat 2 4 2 4 16 GA_F_CONTIGUOUS.

(** With [transA] set, [A] of [3 x 2] counts as [2 x 3]: it fits [B] of
    [3 x 2] and [C] of [2 x 2], and does not fit without the flag. *)
Definition c5_At : GpuArray := fmat 1 3 2 4 12 flags_f.

(** A batch of column-major [2 x 3] slices [A] against row-major [B] and
    [C]: the strided kernel is called in C order with [A] transposed. *)
Definition c1_bA : GpuArray := fbatch 1 2 2 3 24 4 8 GA_ALIGNED.
Definition c1_bC : GpuArray := fbatch 3 2 2 2 16 8 4 flags_c.
Definition c1_bcall : kernel_call :=
  gpublas_gemm3D Single cb_c cb_trans cb_no_trans 2 2 3 (as_float 1)
    1 0 2 6 2 0 2 6 (as_float 0) 3 0 2 4 2 0.

(** Degenerate matrices in the three other entry points: a row-major
    [1 x 3] matrix in [rgemv] and in [rgemm] (into a row-major [1 x 2]
    output), a column-major [3 x 1] matrix in [rger]. *)
Definition c8_C1 : GpuArray := fmat 3 1 2 8 4 flags_c.
Definition c8_gemv_call : kernel_call :=
  gpublas_gemv Single cb_c cb_no_trans 1 3 (as_float 1)
    1 0 3 1 0 1 (as_float 0) 2 0 1.
Definition c8_gemm_call : kernel_call :=
  gpublas_gemm Single cb_c cb_no_trans cb_trans 1 2 3 (as_float 1)
    1 0 3 2 0 3 (as_float 0) 3 0 2.
Definition c8_ger_call : kernel_call :=
  gpublas_ger Single cb_fortran 3 1 (as_float 1) 1 0 1 2 0 1 1 0 3.

(** A [2 x 1] matrix [B] with both bits set, multiplied into the
    [3 x 1] output with both bits set. *)
Definition c10_B : GpuArray := fmat 2 2 1 4 8 flags_cf.
Definition c10_gemm_call : kernel_call :=
  gpublas_gemm Single cb_fortran cb_no_trans cb_no_trans 3 1 2 (as_float 1)
    1 0 3 2 0 2 (as_float 0) 1 0 3.

(** ** More readings of a trace and of a kernel call *)

(** The dimensions a kernel call is made with: [M] and [N] of the matrix
    kernels (the length [N] of [dot]), the inner dimension [K] of the
    products, and the number of slices of the batched kernels. *)
Definition call_M (c : kernel_call) : option Z :=
  match c with
  | gpublas_dot _ _ _ _ _ _ _ _ _ _ => None
  | gpublas_gemv _ _ _ M _ _ _ _ _ _ _ _ _ _ _ _ => Some M
  | gpublas_gemm _ _ _ _ M _ _ _ _ _ _ _ _ _ _ _ _ _ => Some M
  | gpublas_ger _ _ M _ _ _ _ _ _ _ _ _ _ _ => Some M
  | gpublas_gemm3D _ _ _ _ M _ _ _ _ _ _ _ _ _ _ _ _ _ _ _ _ _ _ => Some M
  | gpublas_gemmBatch _ _ _ _ M _ _ _ _ _ _ _ _ _ _ _ _ _ _ _ => Some M
  end.

Definition call_N (c : kernel_call) : option Z :=
  match c with
  | gpublas_dot _ N _ _ _ _ _ _ _ _ => Some N
  | gpublas_gemv _ _ _ _ N _ _ _ _ _ _ _ _ _ _ _ => Some N
  | gpublas_gemm _ _ _ _ _ N _ _ _ _ _ _ _ _ _ _ _ _ => Some N
  | gpublas_ger _ _ _ N _ _ _ _ _ _ _ _ _ _ => Some N
  | gpublas_gemm3D _ _ _ _ _ N _ _ _ _ _ _ _ _ _ _ _ _ _ _ _ _ _ => Some N
  | gpublas_gemmBatch _ _ _ _ _ N _ _ _ _ _ _ _ _ _ _ _ _ _ _ => Some N
  end.

Definition call_K (c : kernel_call) : option Z :=
  match c with
  | gpublas_gemm _ _ _ _ _ _ K _ _ _ _ _ _ _ _ _ _ _ => Some K
  | gpublas_gemm3D _ _ _ _ _ _ K _ _ _ _ _ _ _ _ _ _ _ _ _ _ _ _ => Some K
  | gpublas_gemmBatch _ _ _ _ _ _ K _ _ _ _ _ _ _ _ _ _ _ _ _ => Some K
  | _ => None
  end.

Definition call_batchCount (c : kernel_call) : option Z :=
  match c with
  | gpublas_gemm3D _ _ _ _ _ _ _ _ _ _ _ _ _ _ _ _ _ _ _ _ _ b _ => Some b
  | gpublas_gemmBatch _ _ _ _ _ _ _ _ _ _ _ _ _ _ _ _ _ _ b _ => Some b
  | _ => None
  end.

(** The [C_offsets] array of a pointer-array call, [None] when the call
    is of another kernel. *)
Definition call_C_offsets (c : kernel_call) : option (option (list Z)) :=
  match c with
  | gpublas_gemmBatch _ _ _ _ _ _ _ _ _ _ _ _ _ _ _ _ oC _ _ _ => Some oC
  | _ => None
  end.

Definition is_pointer_array (c : kernel_call) : bool :=
  match c with
  | gpublas_gemmBatch _ _ _ _ _ _ _ _ _ _ _ _ _ _ _ _ _ _ _ _ => true
  | _ => false
  end.

(** Every kernel call of the trace comes after a successful
    [gpublas_setup]; [ready] says whether one has been seen. *)
Fixpoint setup_guards_kernels (ready : bool) (t : list event) : bool :=
  match t with
  | [] => true
  | EvSetup _ res :: t' => setup_guards_kernels (ready || is_no_error res) t'
  | EvKernel _ _ :: t' => ready && setup_guards_kernels ready t'
  | _ :: t' => setup_guards_kernels ready t'
  end.

Definition is_clear (e : event) : bool :=
  match e with EvClear _ => true | _ => false end.

(** Once a temporary has been cleared, the run does nothing but clear:
    no kernel call, setup, copy, allocation or message comes after a
    [GpuArray_clear]. *)
Fixpoint released_last (t : list event) : bool :=
  match t with
  | [] => true
  | EvClear _ :: t' => forallb is_clear t'
  | _ :: t' => released_last t'
  end.

Definition host_array_eqb (g h : host_array) : bool :=
  match g, h with
  | A_datas, A_datas | B_datas, B_datas | C_datas, C_datas
  | A_offsets, A_offsets | B_offsets, B_offsets | C_offsets, C_offsets =>
      true
  | _, _ => false
  end.

(** The [malloc] calls and the [free] calls for host array [h]. *)
Fixpoint mallocs (h : host_array) (t : list event) : nat :=
  match t with
  | [] => 0
  | EvMalloc g _ :: t' =>
      ((if host_array_eqb h g then 1 else 0) + mallocs h t')%nat
  | _ :: t' => mallocs h t'
  end.

Fixpoint frees (h : host_array) (t : list event) : nat :=
  match t with
  | [] => 0
  | EvFree g :: t' =>
      ((if host_array_eqb h g then 1 else 0) + frees h t')%nat
  | _ :: t' => frees h t'
  end.

(** The layer itself raised [GA_MISC_ERROR] (one of the three
    [Invalid internal result] messages). *)
Definition is_misc_message (e : event) : bool :=
  match e with EvError GA_MISC_ERROR _ _ => true | _ => false end.

(** A backend whose copies have the element type of what they copy. *)
Definition copies_keep_dtype (W : backend) : Prop :=
  forall s a ord, typecode (snd (GpuArray_copy W s a ord)) = typecode a.

(** A backend whose [gpublas_setup] fails. *)
Definition no_blas : backend :=
  mkBackend (fun _ a ord => (GA_NO_ERROR, fresh_copy a ord))
    (fun _ => GA_UNSUPPORTED_ERROR) (fun _ => GA_NO_ERROR) (fun _ => true).

(** A backend that cannot copy. *)
Definition no_device_memory : backend :=
  mkBackend (fun _ a _ => (GA_MEMORY_ERROR, a))
    (fun _ => GA_NO_ERROR) (fun _ => GA_NO_ERROR) (fun _ => true).

(** A matrix of an element type the layer has no kernel for. *)
Definition int_A : GpuArray :=
  mkGpuArray 1 [2; 3] [12; 4] 0 2 flags_c (GA_OTHER 5).

(** An empty batch, and the pointer-array call made for it when the
    strided kernel declines and [C_offsets] is not allocated. *)
Definition empty_A : GpuArray := fbatch 1 0 1 3 12 12 4 flags_c.
Definition empty_B : GpuArray := fbatch 2 0 3 2 24 8 4 flags_c.
Definition empty_C : GpuArray := fbatch 3 0 1 2 8 8 4 flags_c.
Definition empty_call : kernel_call :=
  gpublas_gemmBatch Single cb_c cb_no_trans cb_no_trans 1 2 3 (as_float 1)
    (Some []) (Some []) 3 (Some []) (Some []) 2 (as_float 0)
    (Some []) None 2 0 0.

(** ** The five entry points as one family *)

(** A call of one of the entry points, with its arguments in the order
    of the C prototype ([nocopy] apart). *)
Inductive blas_call : Type :=
| call_rdot (X Y Zp : GpuArray)
| call_rgemv (transA : cb_transpose) (alpha : Z) (A X : GpuArray)
    (beta : Z) (Y : GpuArray)
| call_rgemm (transA transB : cb_transpose) (alpha : Z) (A B : GpuArray)
    (beta : Z) (C : GpuArray)
| call_rger (alpha : Z) (X Y A : GpuArray)
| call_rgemmBatch_3d (transA transB : cb_transpose) (alpha : Z)
    (A B : GpuArray) (beta : Z) (C : GpuArray).

Definition perform (W : backend) (c : blas_call) (nocopy : bool) : run :=
  match c with
  | call_rdot X Y Zp => GpuArray_rdot W X Y Zp nocopy
  | call_rgemv tA alpha A X beta Y =>
      GpuArray_rgemv W tA alpha A X beta Y nocopy
  | call_rgemm tA tB alpha A B beta C =>
      GpuArray_rgemm W tA tB alpha A B beta C nocopy
  | call_rger alpha X Y A => GpuArray_rger W alpha X Y A nocopy
  | call_rgemmBatch_3d tA tB alpha A B beta C =>
      GpuArray_rgemmBatch_3d W tA tB alpha A B beta C nocopy
  end.

(** The call passes the validator of its entry point. *)
Definition call_valid (c : blas_call) : bool :=
  match c with
  | call_rdot X Y Zp => rdot_valid X Y Zp
  | call_rgemv tA _ A X _ Y => rgemv_valid tA A X Y
  | call_rgemm tA tB _ A B _ C => rgemm_valid tA tB A B C
  | call_rger _ X Y A => rger_valid X Y A
  | call_rgemmBatch_3d tA tB _ A B _ C => rgemmBatch_valid tA tB A B C
  end.

Definition is_batched (c : blas_call) : bool :=
  match c with call_rgemmBatch_3d _ _ _ _ _ _ _ => true | _ => false end.

Definition is_copy (e : event) : bool :=
  match e with EvCopy _ _ _ _ => true | _ => false end.

Definition all_host_arrays : list host_array :=
  [A_datas; B_datas; C_datas; A_offsets; B_offsets; C_offsets].

(** The order a run keeps, as one check: kernels come after a successful
    setup, releases come last, the layer raises no [GA_MISC_ERROR], and a
    run that returns has called [free] once for each [malloc]. *)
Definition orderly (r : run) : bool :=
  setup_guards_kernels false (trace r)
  && released_last (trace r)
  && forallb (fun e => negb (is_misc_message e)) (trace r)
  && (forallb (fun h => Nat.eqb (frees h (trace r)) (mallocs h (trace r)))
        all_host_arrays
      || faulted r).

(** The statuses of the validator. *)
Definition is_refusal (code : ga_error) : bool :=
  match code with
  | GA_INVALID_ERROR | GA_VALUE_ERROR | GA_UNALIGNED_ERROR => true
  | _ => false
  end.

(** The layout test an input operand must pass to be used as it is; the
    output has none, and is in no slot that is copied. *)
Definition wants_copy (c : blas_call) (s : slot) : bool :=
  match c, s with
  | call_rdot X _ _, opX => stride X 0 <? 0
  | call_rdot _ Y _, opY => stride Y 0 <? 0
  | call_rgemv _ _ A _ _ _, opA => negb (GpuArray_ISONESEGMENT A)
  | call_rgemv _ _ _ X _ _, opX => stride X 0 <? 0
  | call_rgemm _ _ _ A _ _ _, opA => negb (GpuArray_ISONESEGMENT A)
  | call_rgemm _ _ _ _ B _ _, opB => negb (GpuArray_ISONESEGMENT B)
  | call_rger _ X _ _, opX => stride X 0 <? 0
  | call_rger _ _ Y _, opY => stride Y 0 <? 0
  | call_rgemmBatch_3d _ _ _ A _ _ _, opA => is_last_2d_contiguous A =? 0
  | call_rgemmBatch_3d _ _ _ _ B _ _, opB => is_last_2d_contiguous B =? 0
  | _, _ => false
  end.

(** The copies a stage may make: one of [sA] when [wA] and one of [sB]
    when [wB], and none when [nocopy] is set. *)
Definition copies_within (sA : slot) (wA : bool) (sB : slot) (wB : bool)
    (nocopy : bool) (r : run) : Prop :=
  forall s,
    (copies_tried s (trace r)
     <= if (slot_eqb s sA && wA || slot_eqb s sB && wB) && negb nocopy
        then 1 else 0)%nat.

Definition is_setup (e : event) : bool :=
  match e with EvSetup _ _ => true | _ => false end.

(** A copy or a setup that fails ends the run: its status is the one
    returned, and no kernel is called. *)
Definition failure_returned (r : run) : Prop :=
  (forall s a ord e,
     In (EvCopy s a ord e) (trace r) -> is_no_error e = false ->
     ret r = Return e /\ kernel_calls (trace r) = [])
  /\ (forall ctx e,
        In (EvSetup ctx e) (trace r) -> is_no_error e = false ->
        ret r = Return e /\ kernel_calls (trace r) = []).

(** The kernel is called at most once, and its answer is the status
    returned. *)
Definition kernel_answer_returned (W : backend) (r : run) : Prop :=
  forall K,
    In K (kernel_calls (trace r)) ->
    kernel_calls (trace r) = [K] /\ ret r = Return (gpublas W K).

(** What a call the validator stops leaves behind. *)
Definition refused_by_validator (r : run) : Prop :=
  exists code,
    ret r = Return code
    /\ is_refusal code = true
    /\ only_messages r = true
    /\ kernel_calls (trace r) = [].

(** The dimensions of a kernel call: [M], [N], [K] and the batch size,
    each where the kernel has it. *)
Definition call_dims (K : kernel_call)
    : option Z * option Z * option Z * option Z :=
  (call_M K, call_N K, call_K K, call_batchCount K).

(** The dimensions of the problem a call states: the length of the
    vectors of [rdot], the stored shape of the matrix of [rgemv] and of
    [rger], the shape of the output of the products with the inner
    dimension of [op(A)], and the number of slices of a batch. *)
Definition problem_dims (c : blas_call)
    : option Z * option Z * option Z * option Z :=
  match c with
  | call_rdot X _ _ => (None, Some (dim X 0), None, None)
  | call_rgemv _ _ A _ _ _ => (Some (dim A 0), Some (dim A 1), None, None)
  | call_rgemm tA _ _ A _ _ C =>
      (Some (dim C 0), Some (dim C 1), Some (eff_cols tA A 0), None)
  | call_rger _ _ _ A => (Some (dim A 0), Some (dim A 1), None, None)
  | call_rgemmBatch_3d tA _ _ A _ _ C =>
      (Some (dim C 1), Some (dim C 2), Some (eff_cols tA A 1),
       Some (dim C 0))
  end.

(** ** Proof tools *)

Lemma is_no_error_true (e : ga_error) :
  is_no_error e = true -> e = GA_NO_ERROR.
Proof. destruct e; simpl; congruence. Qed.

Lemma flip_changes (t : cb_transpose) : flip t <> t.
Proof. destruct t; unfold flip; simpl; congruence. Qed.

Lemma cb_order_eqb_eq (o p : cb_order) : cb_order_eqb o p = true <-> o = p.
Proof. destruct o, p; simpl; split; congruence. Qed.

(** Split on the scrutinee of a [match] or [if] of hypothesis [H]. *)
Ltac split_in H :=
  match type of H with
  | context [match ?x with _ => _ end] =>
      destruct x eqn:?;
      cbn [trace ret emit kernel_calls fst snd cb_order_eqb] in H
  end.

(** The same for the goal. *)
Ltac split_goal :=
  match goal with
  | |- context [match ?x with _ => _ end] => destruct x eqn:?
  end.

Create HintDb stages.

#[local] Hint Unfold
  GpuArray_rdot rdot_dtypes rdot_copyX rdot_copyY rdot_setup rdot_switch
  GpuArray_rgemv rgemv_copyA rgemv_copyX rgemv_resolve rgemv_switch
  GpuArray_rgemm rgemm_copyA rgemm_copyB rgemm_resolve rgemm_resolveA
  rgemm_resolveB rgemm_switch
  GpuArray_rger rger_copyX rger_copyY rger_resolve rger_switch
  GpuArray_rgemmBatch_3d rgemmBatch_copyA rgemmBatch_copyB
  rgemmBatch_resolve rgemmBatch_resolveA rgemmBatch_resolveB
  copy_then setup_then call_then cleanup clear_if_scratch
  error_set error_fmt : stages.

(** The two kernels of the batched entry point are walked on their own. *)
Create HintDb batch_kernels.

#[local] Hint Unfold
  rgemmBatch_switch rgemmBatch_fallback old_cleanup
  call_then cleanup clear_if_scratch : batch_kernels.

(** Bring the recorded tests to the form [test = true / false]. *)
Ltac tidy_tests :=
  cbn [deref fst snd] in *;
  repeat match goal with
  | H : negb _ = true |- _ => apply negb_true_iff in H
  | H : negb _ = false |- _ => apply negb_false_iff in H
  | H : is_no_error _ = true |- _ => apply is_no_error_true in H
  | H : cb_order_eqb _ _ = _ |- _ => simpl in H; try discriminate H; clear H
  end.

(** Replace every recorded test in the goal by its value. *)
Ltac use_tests :=
  repeat match goal with
  | H : ?x = _ |- context [?x] => rewrite H
  end.

(** Walk hypothesis [H] through the stages of an entry point, one case
    per path. *)
Ltac walk H :=
  repeat first [ split_in H | progress autounfold with stages in H ];
  cbn in H; try contradiction.

(** ** The kernel call of each entry point

    Whenever a kernel is called, its order, flags and leading dimensions
    are the ones resolved from the operands it is given. *)

Section KernelCalls.

Variable W : backend.
Variables tA tB : cb_transpose.
Variables alpha beta m n k elsize : Z.
Variable nocopy : bool.
Variable K : kernel_call.

Lemma rgemv_copyA_kernel (ctx : Z) (A X Y : GpuArray) :
  In K (kernel_calls
          (trace (rgemv_copyA W tA alpha beta ctx m n elsize A X Y nocopy)))
  ->
  exists o,
    flag_order (given W opA A) = Some o
    /\ call_order K = Some o
    /\ call_transA K = Some tA
    /\ call_lda K = Some (flag_ld o (given W opA A)).
Proof.
  intros H. unfold given, flag_order.
  walk H.
  all: destruct H as [<- | []]; tidy_tests; use_tests; cbn [snd].
  all: use_tests.
  all: eexists; repeat split; reflexivity.
Qed.

Lemma rgemm_copyA_kernel (A B C : GpuArray) :
  In K (kernel_calls
          (trace (rgemm_copyA W tA tB alpha beta m n k elsize A B C nocopy)))
  ->
  exists o oa ob,
    flag_order C = Some o
    /\ flag_order (given W opA A) = Some oa
    /\ flag_order (given W opB B) = Some ob
    /\ call_order K = Some o
    /\ call_transA K = Some (flag_against o oa tA)
    /\ call_transB K = Some (flag_against o ob tB)
    /\ call_lda K = Some (flag_ld oa (given W opA A))
    /\ call_ldb K = Some (flag_ld ob (given W opB B))
    /\ call_ldc K = Some (flag_ld o C).
Proof.
  intros H. unfold given, flag_order, flag_against.
  walk H.
  all: destruct H as [<- | []]; tidy_tests; use_tests; cbn [snd].
  all: use_tests.
  all: do 3 eexists; repeat split; reflexivity.
Qed.

Lemma rger_copyX_kernel (X Y A : GpuArray) :
  In K (kernel_calls
          (trace (rger_copyX W alpha m n elsize X Y A nocopy))) ->
  exists o,
    flag_order A = Some o
    /\ call_order K = Some o
    /\ call_lda K = Some (flag_ld o A).
Proof.
  intros H. unfold flag_order.
  walk H.
  all: destruct H as [<- | []]; tidy_tests; use_tests.
  all: eexists; repeat split; reflexivity.
Qed.

Lemma rgemmBatch_switch_kernel (o : cb_order) (lda ldb ldc batchCount : Z)
    (Ap Bp : gaptr) (C : GpuArray) :
  In K (kernel_calls
          (trace (rgemmBatch_switch W o tA tB alpha beta m n k lda ldb ldc
                    elsize batchCount Ap Bp C))) ->
  call_order K = Some o
  /\ call_transA K = Some tA
  /\ call_transB K = Some tB
  /\ call_lda K = Some lda
  /\ call_ldb K = Some ldb
  /\ call_ldc K = Some ldc.
Proof.
  intros H. destruct Ap, Bp.
  all: repeat first
         [ split_in H | progress autounfold with batch_kernels in H ];
       cbn in H; try contradiction.
  all: repeat match goal with
       | H : _ \/ _ |- _ => destruct H as [H | H]
       end; try contradiction; subst K.
  all: repeat split; reflexivity.
Qed.

End KernelCalls.

Lemma rgemmBatch_copyA_kernel (W : backend) (tA tB : cb_transpose)
    (alpha beta m n k elsize batchCount : Z) (A B C : GpuArray)
    (nocopy : bool) (K : kernel_call) :
  In K (kernel_calls
          (trace (rgemmBatch_copyA W tA tB alpha beta m n k elsize
                    batchCount A B C nocopy))) ->
  exists o oa ob,
    class_order (is_last_2d_contiguous C) = Some o
    /\ class_order (class3d A) = Some oa
    /\ class_order (class3d B) = Some ob
    /\ call_order K = Some o
    /\ call_transA K = Some (flag_against o oa tA)
    /\ call_transB K = Some (flag_against o ob tB)
    /\ call_lda K = Some (batch_ld oa (given3d W opA A) elsize)
    /\ call_ldb K = Some (batch_ld ob (given3d W opB B) elsize)
    /\ call_ldc K = Some (batch_ld o C elsize).
Proof.
  intros H. unfold given3d, class3d, class_order, flag_against.
  walk H.
  all: apply rgemmBatch_switch_kernel in H.
  all: destruct H as (-> & -> & -> & -> & -> & ->).
  all: tidy_tests; use_tests; cbn [snd].
  all: use_tests.
  all: do 3 eexists; repeat split; reflexivity.
Qed.

(** Split the recorded tests into their atoms. *)
Ltac atoms :=
  unfold unaligned3, aligned3, same_dtype3, inner_dims_agree,
    eff_rows, eff_cols in *;
  repeat match goal with
  | H : _ || _ = false |- _ => apply orb_false_iff in H; destruct H
  | H : _ && _ = true |- _ => apply andb_true_iff in H; destruct H
  | H : negb _ = true |- _ => apply negb_true_iff in H
  | H : negb _ = false |- _ => apply negb_false_iff in H
  end.

Create HintDb msgs.

#[local] Hint Unfold
  msg_Copy_required_for_Y
  msg_Copy_required_for_X
  msg_Inconsistent_dtypes
  msg_Data_type_not_supported
  msg_rdot_ranks
  msg_One_of_the_inputs_is_unaligned
  msg_rdot_shapes
  msg_Negative_strides_for_Y
  msg_Noncontiguous_A
  msg_Copy_required_for_A
  msg_Unsupported_dtype
  msg_rgemv_ranks
  msg_Unaligned_inputs
  msg_Inconsistent_shapes
  msg_Noncontiguous_B
  msg_Noncontiguous_C
  msg_Need_copy_for_B
  msg_Need_copy_for_A
  msg_rgemm_ranks
  msg_mismatched_shapes
  msg_Need_copy_for_Y
  msg_Need_copy_for_X
  msg_rger_ranks
  msg_Incompatible_shapes
  msg_malloc
  msg_Invalid_internal_result_for_B
  msg_Invalid_internal_result_for_A
  msg_Noncontiguous_last_2d_C
  msg_Invalid_internal_result_for_C
  msg_rgemmBatch_ranks
  msg_Unaligned_input
  msg_Mismatched_first_dimension
  msg_Mismatched_shape : msgs.

(** Two runs that differ in a message, a status or an event. *)
Ltac differ H := autounfold with msgs in H; discriminate H.

(** Split on the caller's transpose flags. *)
Ltac by_flags :=
  unfold inner_dims_agree, eff_rows, eff_cols;
  repeat match goal with
  | |- context [is_no_trans ?t] => destruct (is_no_trans t) eqn:?
  end.

(** Close [prior = true -> shapes = true -> entry = stage]. *)
Ltac checks_pass :=
  by_flags; intros; atoms; use_tests; reflexivity.

(** Close [prior = true -> shapes = false -> entry = error]. *)
Ltac shapes_fail :=
  by_flags; intros Hp Hs; atoms; use_tests; cbn [negb orb];
  repeat split_goal; try reflexivity;
  atoms; revert Hs; use_tests; discriminate.

(** Close [prior = false -> stopped_early entry msgs]. *)
Ltac prior_fails :=
  intros Hp; repeat split_goal;
  try (do 3 eexists; split; [reflexivity | split; [discriminate |]];
       cbn [In]; intros E;
       repeat match goal with
       | E : _ \/ _ |- _ => destruct E as [E | E]
       end; try contradiction; differ E);
  atoms; exfalso; revert Hp; use_tests; discriminate.

Section Entry.

Variable W : backend.
Variables tA tB : cb_transpose.
Variables alpha beta : Z.
Variable nocopy : bool.

(** *** [GpuArray_rgemv] *)

Lemma rgemv_entry (A X Y : GpuArray) :
  rgemv_prior A X Y = true ->
  rgemv_shapes tA A X Y = true ->
  GpuArray_rgemv W tA alpha A X beta Y nocopy =
  rgemv_copyA W tA alpha beta (data A) (dim A 0) (dim A 1)
    (gpuarray_get_elsize (typecode A)) A X Y nocopy.
Proof. unfold rgemv_prior, rgemv_shapes, GpuArray_rgemv. checks_pass. Qed.

Lemma rgemv_entry_shapes (A X Y : GpuArray) :
  rgemv_prior A X Y = true ->
  rgemv_shapes tA A X Y = false ->
  GpuArray_rgemv W tA alpha A X beta Y nocopy =
  error_set GA_VALUE_ERROR msg_Inconsistent_shapes.
Proof. unfold rgemv_prior, rgemv_shapes, GpuArray_rgemv. shapes_fail. Qed.

Lemma rgemv_entry_prior (A X Y : GpuArray) :
  rgemv_prior A X Y = false ->
  stopped_early (GpuArray_rgemv W tA alpha A X beta Y nocopy)
    [msg_Inconsistent_shapes].
Proof. unfold rgemv_prior, GpuArray_rgemv, stopped_early. prior_fails. Qed.

(** *** [GpuArray_rgemm] *)

Lemma rgemm_entry (A B C : GpuArray) :
  rgemm_prior A B C = true ->
  rgemm_shapes tA tB A B C = true ->
  GpuArray_rgemm W tA tB alpha A B beta C nocopy =
  rgemm_copyA W tA tB alpha beta
    (eff_rows tA A 0) (eff_cols tB B 0) (eff_cols tA A 0)
    (gpuarray_get_elsize (typecode A)) A B C nocopy.
Proof. unfold rgemm_prior, rgemm_shapes, GpuArray_rgemm. checks_pass. Qed.

Lemma rgemm_entry_shapes (A B C : GpuArray) :
  rgemm_prior A B C = true ->
  rgemm_shapes tA tB A B C = false ->
  GpuArray_rgemm W tA tB alpha A B beta C nocopy =
  error_set GA_VALUE_ERROR msg_mismatched_shapes.
Proof. unfold rgemm_prior, rgemm_shapes, GpuArray_rgemm. shapes_fail. Qed.

Lemma rgemm_entry_prior (A B C : GpuArray) :
  rgemm_prior A B C = false ->
  stopped_early (GpuArray_rgemm W tA tB alpha A B beta C nocopy)
    [msg_mismatched_shapes].
Proof. unfold rgemm_prior, GpuArray_rgemm, stopped_early. prior_fails. Qed.

(** *** [GpuArray_rger] *)

Lemma rger_entry (X Y A : GpuArray) :
  rger_prior X Y A = true ->
  rger_shapes X Y A = true ->
  GpuArray_rger W alpha X Y A nocopy =
  rger_copyX W alpha (dim X 0) (dim Y 0)
    (gpuarray_get_elsize (typecode X)) X Y A nocopy.
Proof. unfold rger_prior, rger_shapes, GpuArray_rger. checks_pass. Qed.

Lemma rger_entry_shapes (X Y A : GpuArray) :
  rger_prior X Y A = true ->
  rger_shapes X Y A = false ->
  GpuArray_rger W alpha X Y A nocopy =
  error_set GA_VALUE_ERROR msg_Incompatible_shapes.
Proof. unfold rger_prior, rger_shapes, GpuArray_rger. shapes_fail. Qed.

Lemma rger_entry_prior (X Y A : GpuArray) :
  rger_prior X Y A = false ->
  stopped_early (GpuArray_rger W alpha X Y A nocopy)
    [msg_Incompatible_shapes].
Proof. unfold rger_prior, GpuArray_rger, stopped_early. prior_fails. Qed.

(** *** [GpuArray_rgemmBatch_3d] *)

Lemma rgemmBatch_entry (A B C : GpuArray) :
  rgemmBatch_prior A B C = true ->
  batch_dims_equal A B C = true ->
  rgemmBatch_shapes tA tB A B C = true ->
  GpuArray_rgemmBatch_3d W tA tB alpha A B beta C nocopy =
  rgemmBatch_copyA W tA tB alpha beta
    (eff_rows tA A 1) (eff_cols tB B 1) (eff_cols tA A 1)
    (gpuarray_get_elsize (typecode A)) (dim A 0) A B C nocopy.
Proof.
  unfold rgemmBatch_prior, batch_dims_equal, rgemmBatch_shapes,
    GpuArray_rgemmBatch_3d.
  checks_pass.
Qed.

Lemma rgemmBatch_entry_batch (A B C : GpuArray) :
  rgemmBatch_prior A B C = true ->
  batch_dims_equal A B C = false ->
  GpuArray_rgemmBatch_3d W tA tB alpha A B beta C nocopy =
  error_set GA_VALUE_ERROR msg_Mismatched_first_dimension.
Proof.
  unfold rgemmBatch_prior, batch_dims_equal, GpuArray_rgemmBatch_3d.
  intros Hp Hs; atoms; use_tests; cbn [negb orb].
  split_goal; try reflexivity.
  atoms; revert Hs; use_tests; discriminate.
Qed.

Lemma rgemmBatch_entry_shapes (A B C : GpuArray) :
  rgemmBatch_prior A B C = true ->
  batch_dims_equal A B C = true ->
  rgemmBatch_shapes tA tB A B C = false ->
  GpuArray_rgemmBatch_3d W tA tB alpha A B beta C nocopy =
  error_set GA_VALUE_ERROR msg_Mismatched_shape.
Proof.
  unfold rgemmBatch_prior, batch_dims_equal, rgemmBatch_shapes,
    GpuArray_rgemmBatch_3d.
  by_flags; intros Hp Hb Hs; atoms; use_tests; cbn [negb orb].
  all: repeat split_goal; try reflexivity.
  all: atoms; revert Hs; use_tests; discriminate.
Qed.

Lemma rgemmBatch_entry_prior (A B C : GpuArray) :
  rgemmBatch_prior A B C = false ->
  stopped_early (GpuArray_rgemmBatch_3d W tA tB alpha A B beta C nocopy)
    [msg_Mismatched_first_dimension; msg_Mismatched_shape].
Proof.
  unfold rgemmBatch_prior, GpuArray_rgemmBatch_3d, stopped_early.
  prior_fails.
Qed.

End Entry.

(** What a call stopped at a check has done: nothing but leave its
    message. *)
Lemma error_fmt_facts (code : ga_error) (msg : string) (args : list Z) :
  code <> GA_NO_ERROR ->
  let r := error_fmt code msg args in
  kernel_calls (trace r) = []
  /\ only_messages r = true
  /\ succeeded r = false
  /\ ret r = Return code
  /\ (forall s, copies_tried s (trace r) = 0%nat)
  /\ (forall s, copies_made s (trace r) = 0%nat)
  /\ (forall s, clears s (trace r) = 0%nat).
Proof.
  intros Hc. cbn. repeat split; try reflexivity.
  destruct code; cbn; congruence.
Qed.

Lemma stopped_early_facts (r : run) (msgs : list string) :
  stopped_early r msgs ->
  kernel_calls (trace r) = []
  /\ only_messages r = true
  /\ succeeded r = false
  /\ ret r <> Fault
  /\ (forall s, copies_tried s (trace r) = 0%nat)
  /\ (forall s, copies_made s (trace r) = 0%nat)
  /\ (forall s, clears s (trace r) = 0%nat).
Proof.
  intros (code & msg & args & -> & Hc & _).
  destruct (error_fmt_facts code msg args Hc) as (? & ? & ? & ? & ? & ? & ?).
  repeat split; try assumption. cbn. discriminate.
Qed.

(** ** Kernel calls of the entry points *)

Section EntryKernels.

Variable W : backend.
Variables tA tB : cb_transpose.
Variables alpha beta : Z.
Variable nocopy : bool.
Variable K : kernel_call.

(** Close the two cases of a call that stops before the layout stage. *)
Ltac no_kernel H Hp :=
  first
    [ rewrite (rgemv_entry_shapes _ _ _ _ _ _ _ _ Hp) in H by assumption
    | rewrite (rgemm_entry_shapes _ _ _ _ _ _ _ _ _ Hp) in H by assumption
    | rewrite (rger_entry_shapes _ _ _ _ _ _ Hp) in H by assumption
    | rewrite (rgemmBatch_entry_batch _ _ _ _ _ _ _ _ _ Hp) in H
        by assumption
    | rewrite (rgemmBatch_entry_shapes _ _ _ _ _ _ _ _ _ Hp) in H
        by assumption
    | apply rgemv_entry_prior
        with (W := W) (tA := tA) (alpha := alpha) (beta := beta)
             (nocopy := nocopy) in Hp;
      apply stopped_early_facts in Hp; destruct Hp as (Hk & _);
      rewrite Hk in H
    | apply rgemm_entry_prior
        with (W := W) (tA := tA) (tB := tB) (alpha := alpha) (beta := beta)
             (nocopy := nocopy) in Hp;
      apply stopped_early_facts in Hp; destruct Hp as (Hk & _);
      rewrite Hk in H
    | apply rger_entry_prior
        with (W := W) (alpha := alpha) (nocopy := nocopy) in Hp;
      apply stopped_early_facts in Hp; destruct Hp as (Hk & _);
      rewrite Hk in H
    | apply rgemmBatch_entry_prior
        with (W := W) (tA := tA) (tB := tB) (alpha := alpha) (beta := beta)
             (nocopy := nocopy) in Hp;
      apply stopped_early_facts in Hp; destruct Hp as (Hk & _);
      rewrite Hk in H ];
  cbn in H; contradiction.

Lemma rgemv_kernel (A X Y : GpuArray) :
  In K (kernel_calls (trace (GpuArray_rgemv W tA alpha A X beta Y nocopy)))
  ->
  exists o,
    flag_order (given W opA A) = Some o
    /\ call_order K = Some o
    /\ call_transA K = Some tA
    /\ call_lda K = Some (flag_ld o (given W opA A)).
Proof.
  intros H.
  destruct (rgemv_prior A X Y) eqn:Hp; [ | no_kernel H Hp ].
  destruct (rgemv_shapes tA A X Y) eqn:Hs; [ | no_kernel H Hp ].
  rewrite rgemv_entry in H by assumption.
  now apply rgemv_copyA_kernel in H.
Qed.

Lemma rgemm_kernel (A B C : GpuArray) :
  In K (kernel_calls
          (trace (GpuArray_rgemm W tA tB alpha A B beta C nocopy))) ->
  exists o oa ob,
    flag_order C = Some o
    /\ flag_order (given W opA A) = Some oa
    /\ flag_order (given W opB B) = Some ob
    /\ call_order K = Some o
    /\ call_transA K = Some (flag_against o oa tA)
    /\ call_transB K = Some (flag_against o ob tB)
    /\ call_lda K = Some (flag_ld oa (given W opA A))
    /\ call_ldb K = Some (flag_ld ob (given W opB B))
    /\ call_ldc K = Some (flag_ld o C).
Proof.
  intros H.
  destruct (rgemm_prior A B C) eqn:Hp; [ | no_kernel H Hp ].
  destruct (rgemm_shapes tA tB A B C) eqn:Hs; [ | no_kernel H Hp ].
  rewrite rgemm_entry in H by assumption.
  now apply rgemm_copyA_kernel in H.
Qed.

Lemma rger_kernel (X Y A : GpuArray) :
  In K (kernel_calls (trace (GpuArray_rger W alpha X Y A nocopy))) ->
  exists o,
    flag_order A = Some o
    /\ call_order K = Some o
    /\ call_lda K = Some (flag_ld o A).
Proof.
  intros H.
  destruct (rger_prior X Y A) eqn:Hp; [ | no_kernel H Hp ].
  destruct (rger_shapes X Y A) eqn:Hs; [ | no_kernel H Hp ].
  rewrite rger_entry in H by assumption.
  now apply rger_copyX_kernel in H.
Qed.

Lemma rgemmBatch_kernel (A B C : GpuArray) :
  In K (kernel_calls
          (trace (GpuArray_rgemmBatch_3d W tA tB alpha A B beta C nocopy)))
  ->
  exists o oa ob,
    class_order (is_last_2d_contiguous C) = Some o
    /\ class_order (class3d A) = Some oa
    /\ class_order (class3d B) = Some ob
    /\ call_order K = Some o
    /\ call_transA K = Some (flag_against o oa tA)
    /\ call_transB K = Some (flag_against o ob tB)
    /\ call_lda K
       = Some (batch_ld oa (given3d W opA A)
                 (gpuarray_get_elsize (typecode A)))
    /\ call_ldb K
       = Some (batch_ld ob (given3d W opB B)
                 (gpuarray_get_elsize (typecode A)))
    /\ call_ldc K
       = Some (batch_ld o C (gpuarray_get_elsize (typecode A))).
Proof.
  intros H.
  destruct (rgemmBatch_prior A B C) eqn:Hp; [ | no_kernel H Hp ].
  destruct (batch_dims_equal A B C) eqn:Hb; [ | no_kernel H Hp ].
  destruct (rgemmBatch_shapes tA tB A B C) eqn:Hs; [ | no_kernel H Hp ].
  rewrite rgemmBatch_entry in H by assumption.
  now apply rgemmBatch_copyA_kernel in H.
Qed.

End EntryKernels.

(** ** Calls that reach their kernel *)

Lemma is_last_2d_contiguous_range (a : GpuArray) :
  is_last_2d_contiguous a = 0 \/ is_last_2d_contiguous a = 1
  \/ is_last_2d_contiguous a = 2.
Proof. unfold is_last_2d_contiguous. repeat split_goal; auto. Qed.

(** A classification that is none of 0, 1 and 2, or a test on a literal
    that went the wrong way. *)
Ltac no_such_class :=
  exfalso;
  first
    [ match goal with
      | H : (?x =? ?y) = _ |- _ =>
          is_ground x; is_ground y; cbn in H; discriminate H
      end
    | match goal with
      | H0 : (is_last_2d_contiguous ?a =? 0) = false,
        H1 : (is_last_2d_contiguous ?a =? 1) = false,
        H2 : (is_last_2d_contiguous ?a =? 2) = false |- _ =>
          destruct (is_last_2d_contiguous_range a) as [E | [E | E]];
          rewrite E in *; discriminate
      end ].

Lemma no_case_unsupported (t : ga_typecode) :
  precision_of t = None -> supported t = false.
Proof. destruct t; cbn; congruence. Qed.

(** A path that stops before the kernel fails one of the tests of [H]. *)
Ltac stops_short H :=
  exfalso; tidy_tests;
  repeat match goal with
  | Ho : precision_of _ = None |- _ => apply no_case_unsupported in Ho
  end;
  unfold usable, given, givenv, given3d, flagged_contiguous in H;
  repeat first
    [ progress cbn [deref fst snd negb andb orb is_no_error supported] in H
    | progress rewrite ?andb_false_r, ?andb_true_r, ?orb_false_r in H
    | match goal with
      | E : ?x = _ |- _ =>
          tryif constr_eq E H then fail else rewrite E in H
      end ];
  discriminate H.

Lemma rgemmBatch_switch_reaches (W : backend) (o : cb_order)
    (tA tB : cb_transpose)
    (alpha beta m n k lda ldb ldc elsize batchCount : Z)
    (Ap Bp : gaptr) (C : GpuArray) :
  supported (typecode C) = true ->
  exists K rest,
    kernel_calls
      (trace (rgemmBatch_switch W o tA tB alpha beta m n k lda ldb ldc
                elsize batchCount Ap Bp C)) = K :: rest
    /\ is_pointer_array K = false.
Proof.
  intros Hs. unfold rgemmBatch_switch.
  destruct (precision_of (typecode C)) eqn:Ho;
    [| apply no_case_unsupported in Ho; congruence ].
  unfold call_then. cbn. do 2 eexists. split; reflexivity.
Qed.

Section Reaches.

Variable W : backend.
Variables tA tB : cb_transpose.
Variables alpha beta m n k elsize : Z.
Variable nocopy : bool.

Lemma rgemv_copyA_reaches (ctx : Z) (A X Y : GpuArray) :
  rgemv_layout_ok W ctx A X Y nocopy = true ->
  exists K,
    kernel_calls
      (trace (rgemv_copyA W tA alpha beta ctx m n elsize A X Y nocopy))
    = [K].
Proof.
  unfold rgemv_layout_ok. intros H.
  repeat first [ split_goal | progress autounfold with stages ].
  all: cbn; first [ eexists; reflexivity | stops_short H ].
Qed.

Lemma rgemm_copyA_reaches (A B C : GpuArray) :
  rgemm_layout_ok W A B C nocopy = true ->
  exists K,
    kernel_calls
      (trace (rgemm_copyA W tA tB alpha beta m n k elsize A B C nocopy))
    = [K].
Proof.
  unfold rgemm_layout_ok. intros H.
  repeat first
    [ progress cbn [cb_order_eqb]
    | split_goal
    | progress autounfold with stages ].
  all: cbn; first [ eexists; reflexivity | stops_short H ].
Qed.

Lemma rger_copyX_reaches (X Y A : GpuArray) :
  rger_layout_ok W X Y A nocopy = true ->
  exists K,
    kernel_calls (trace (rger_copyX W alpha m n elsize X Y A nocopy)) = [K].
Proof.
  unfold rger_layout_ok. intros H.
  repeat first [ split_goal | progress autounfold with stages ].
  all: cbn; first [ eexists; reflexivity | stops_short H ].
Qed.

Lemma rgemmBatch_copyA_reaches_kernel (batchCount : Z) (A B C : GpuArray) :
  rgemmBatch_layout_ok W A B C nocopy = true ->
  exists K rest,
    kernel_calls
      (trace (rgemmBatch_copyA W tA tB alpha beta m n k elsize batchCount
                A B C nocopy)) = K :: rest
    /\ is_pointer_array K = false.
Proof.
  unfold rgemmBatch_layout_ok. intros H.
  assert (Hs : supported (typecode C) = true)
    by (apply andb_true_iff in H; apply H).
  repeat first
    [ progress cbn [cb_order_eqb]
    | split_goal
    | progress autounfold with stages ].
  all: cbn;
    first [ lazymatch goal with
            | |- context [rgemmBatch_switch] =>
                apply rgemmBatch_switch_reaches; exact Hs
            end
          | stops_short H
          | no_such_class ].
Qed.

End Reaches.

Section EntryReaches.

Variable W : backend.
Variables tA tB : cb_transpose.
Variables alpha beta : Z.
Variable nocopy : bool.

Lemma rgemv_reaches (A X Y : GpuArray) :
  rgemv_reaches_kernel W tA A X Y nocopy = true ->
  exists K,
    kernel_calls (trace (GpuArray_rgemv W tA alpha A X beta Y nocopy)) = [K].
Proof.
  unfold rgemv_reaches_kernel, rgemv_valid. intros H.
  apply andb_true_iff in H. destruct H as [Hv Hl].
  apply andb_true_iff in Hv. destruct Hv as [Hp Hs].
  rewrite rgemv_entry by assumption. now apply rgemv_copyA_reaches.
Qed.

Lemma rgemm_reaches (A B C : GpuArray) :
  rgemm_reaches_kernel W tA tB A B C nocopy = true ->
  exists K,
    kernel_calls (trace (GpuArray_rgemm W tA tB alpha A B beta C nocopy))
    = [K].
Proof.
  unfold rgemm_reaches_kernel, rgemm_valid. intros H.
  apply andb_true_iff in H. destruct H as [Hv Hl].
  apply andb_true_iff in Hv. destruct Hv as [Hp Hs].
  rewrite rgemm_entry by assumption. now apply rgemm_copyA_reaches.
Qed.

Lemma rger_reaches (X Y A : GpuArray) :
  rger_reaches_kernel W X Y A nocopy = true ->
  exists K,
    kernel_calls (trace (GpuArray_rger W alpha X Y A nocopy)) = [K].
Proof.
  unfold rger_reaches_kernel, rger_valid. intros H.
  apply andb_true_iff in H. destruct H as [Hv Hl].
  apply andb_true_iff in Hv. destruct Hv as [Hp Hs].
  rewrite rger_entry by assumption. now apply rger_copyX_reaches.
Qed.

Lemma rgemmBatch_reaches (A B C : GpuArray) :
  rgemmBatch_reaches_kernel W tA tB A B C nocopy = true ->
  exists K rest,
    kernel_calls
      (trace (GpuArray_rgemmBatch_3d W tA tB alpha A B beta C nocopy))
    = K :: rest
    /\ is_pointer_array K = false.
Proof.
  unfold rgemmBatch_reaches_kernel, rgemmBatch_valid. intros H.
  apply andb_true_iff in H. destruct H as [Hv Hl].
  apply andb_true_iff in Hv. destruct Hv as [Hv Hs].
  apply andb_true_iff in Hv. destruct Hv as [Hp Hb].
  rewrite rgemmBatch_entry by assumption.
  now apply rgemmBatch_copyA_reaches_kernel.
Qed.

End EntryReaches.

(** ** C1: transpose flags against the output's order *)

Lemma flag_against_toggled (o oa : cb_order) (t : cb_transpose) :
  toggled_iff_disagree o oa t (Some (flag_against o oa t)).
Proof.
  unfold toggled_iff_disagree, flag_against.
  destruct (cb_order_eqb oa o) eqn:E; split; intros H.
  - reflexivity.
  - apply cb_order_eqb_eq in E. contradiction.
  - apply cb_order_eqb_eq in H. congruence.
  - split; [reflexivity | apply flip_changes].
Qed.

Lemma rgemm_kernel_flags (W : backend) (tA tB : cb_transpose)
    (alpha beta : Z) (A B C : GpuArray) (nocopy : bool) (K : kernel_call) :
  In K (kernel_calls
          (trace (GpuArray_rgemm W tA tB alpha A B beta C nocopy))) ->
  exists o oa ob,
    flag_order C = Some o
    /\ flag_order (given W opA A) = Some oa
    /\ flag_order (given W opB B) = Some ob
    /\ call_order K = Some o
    /\ toggled_iff_disagree o oa tA (call_transA K)
    /\ toggled_iff_disagree o ob tB (call_transB K).
Proof.
  intros H. apply rgemm_kernel in H.
  destruct H as (o & oa & ob & HC & HA & HB & Ho & HtA & HtB & _).
  exists o, oa, ob. rewrite HtA, HtB.
  split; [exact HC |]. split; [exact HA |]. split; [exact HB |].
  split; [exact Ho |]. split; apply flag_against_toggled.
Qed.

Lemma rgemmBatch_kernel_flags (W : backend) (tA tB : cb_transpose)
    (alpha beta : Z) (A B C : GpuArray) (nocopy : bool) (K : kernel_call) :
  In K (kernel_calls
          (trace (GpuArray_rgemmBatch_3d W tA tB alpha A B beta C nocopy)))
  ->
  exists o oa ob,
    class_order (is_last_2d_contiguous C) = Some o
    /\ class_order (class3d A) = Some oa
    /\ class_order (class3d B) = Some ob
    /\ call_order K = Some o
    /\ toggled_iff_disagree o oa tA (call_transA K)
    /\ toggled_iff_disagree o ob tB (call_transB K).
Proof.
  intros H. apply rgemmBatch_kernel in H.
  destruct H as (o & oa & ob & HC & HA & HB & Ho & HtA & HtB & _).
  exists o, oa, ob. rewrite HtA, HtB.
  split; [exact HC |]. split; [exact HA |]. split; [exact HB |].
  split; [exact Ho |]. split; apply flag_against_toggled.
Qed.

(** C1.  In every call of [GpuArray_rgemm] and of
    [GpuArray_rgemmBatch_3d], a kernel is called in the order [o] that the
    output [C] resolves to (Fortran order when [C] is column-major, C
    order when it is row-major), and the transpose flag it receives for
    each of [A] and [B] is the caller's flag when the storage order of
    that operand is [o], and the caller's flag toggled, which is another
    flag, when it is not.  The storage order of an operand is the one the
    entry point reads off the operand it hands to the kernel: by the
    flag tests in [rgemm] ([flag_order]), by [is_last_2d_contiguous] in
    the batched entry point ([class_order]).  And the kernel is called:
    a call that passes the validator and the tests on layout, setup and
    element type ([rgemm_reaches_kernel], [rgemmBatch_reaches_kernel])
    makes exactly one call of the [gemm] kernel, and in the batched entry
    point a first call that is of the strided kernel, with these flags. *)
Theorem gemm_transpose_flags_follow_output_order
    (W : backend) (tA tB : cb_transpose) (alpha beta : Z)
    (A B C : GpuArray) (nocopy : bool) (K : kernel_call) :
  (In K (kernel_calls
           (trace (GpuArray_rgemm W tA tB alpha A B beta C nocopy))) ->
   exists o oa ob,
     flag_order C = Some o
     /\ flag_order (given W opA A) = Some oa
     /\ flag_order (given W opB B) = Some ob
     /\ call_order K = Some o
     /\ toggled_iff_disagree o oa tA (call_transA K)
     /\ toggled_iff_disagree o ob tB (call_transB K))
  /\
  (In K (kernel_calls
           (trace (GpuArray_rgemmBatch_3d W tA tB alpha A B beta C nocopy)))
   ->
   exists o oa ob,
     class_order (is_last_2d_contiguous C) = Some o
     /\ class_order (class3d A) = Some oa
     /\ class_order (class3d B) = Some ob
     /\ call_order K = Some o
     /\ toggled_iff_disagree o oa tA (call_transA K)
     /\ toggled_iff_disagree o ob tB (call_transB K))
  /\
  (rgemm_reaches_kernel W tA tB A B C nocopy = true ->
   exists K' o oa ob,
     kernel_calls (trace (GpuArray_rgemm W tA tB alpha A B beta C nocopy))
     = [K']
     /\ flag_order C = Some o
     /\ flag_order (given W opA A) = Some oa
     /\ flag_order (given W opB B) = Some ob
     /\ call_order K' = Some o
     /\ toggled_iff_disagree o oa tA (call_transA K')
     /\ toggled_iff_disagree o ob tB (call_transB K'))
  /\
  (rgemmBatch_reaches_kernel W tA tB A B C nocopy = true ->
   exists K' rest o oa ob,
     kernel_calls
       (trace (GpuArray_rgemmBatch_3d W tA tB alpha A B beta C nocopy))
     = K' :: rest
     /\ is_pointer_array K' = false
     /\ class_order (is_last_2d_contiguous C) = Some o
     /\ class_order (class3d A) = Some oa
     /\ class_order (class3d B) = Some ob
     /\ call_order K' = Some o
     /\ toggled_iff_disagree o oa tA (call_transA K')
     /\ toggled_iff_disagree o ob tB (call_transB K')).
Proof.
  split; [apply rgemm_kernel_flags |].
  split; [apply rgemmBatch_kernel_flags |].
  split; intros H.
  - destruct (rgemm_reaches W tA tB alpha beta nocopy A B C H) as (K' & HK).
    destruct (rgemm_kernel_flags W tA tB alpha beta A B C nocopy K')
      as (o & oa & ob & Hflags).
    { rewrite HK. left. reflexivity. }
    exists K', o, oa, ob. split; [exact HK | exact Hflags].
  - destruct (rgemmBatch_reaches W tA tB alpha beta nocopy A B C H)
      as (K' & rest & HK & Hp).
    destruct (rgemmBatch_kernel_flags W tA tB alpha beta A B C nocopy K')
      as (o & oa & ob & Hflags).
    { rewrite HK. left. reflexivity. }
    exists K', rest, o, oa, ob.
    split; [exact HK |]. split; [exact Hp | exact Hflags].
Qed.

Lemma gemm_transpose_flags_witness :
  let r := GpuArray_rgemm calm cb_no_trans cb_no_trans 1
             c1_A c1_B 0 c1_C false in
  let rb := GpuArray_rgemmBatch_3d calm cb_no_trans cb_no_trans 1
              c1_bA c8_B 0 c1_bC true in
  (rgemm_reaches_kernel calm cb_no_trans cb_no_trans c1_A c1_B c1_C false
   = true
   /\ kernel_calls (trace r) = [c1_call]
   /\ call_transA c1_call = Some cb_trans
   /\ call_transB c1_call = Some cb_no_trans
   /\ exists K' o oa ob,
        kernel_calls (trace r) = [K']
        /\ flag_order c1_C = Some o
        /\ flag_order (given calm opA c1_A) = Some oa
        /\ flag_order (given calm opB c1_B) = Some ob
        /\ call_order K' = Some o
        /\ toggled_iff_disagree o oa cb_no_trans (call_transA K')
        /\ toggled_iff_disagree o ob cb_no_trans (call_transB K'))
  /\
  (rgemmBatch_reaches_kernel calm cb_no_trans cb_no_trans c1_bA c8_B c1_bC
     true = true
   /\ kernel_calls (trace rb) = [c1_bcall]
   /\ call_transA c1_bcall = Some cb_trans
   /\ call_transB c1_bcall = Some cb_no_trans
   /\ exists K' rest o oa ob,
        kernel_calls (trace rb) = K' :: rest
        /\ is_pointer_array K' = false
        /\ class_order (is_last_2d_contiguous c1_bC) = Some o
        /\ class_order (class3d c1_bA) = Some oa
        /\ class_order (class3d c8_B) = Some ob
        /\ call_order K' = Some o
        /\ toggled_iff_disagree o oa cb_no_trans (call_transA K')
        /\ toggled_iff_disagree o ob cb_no_trans (call_transB K')).
Proof.
  cbv zeta. split.
  - split; [reflexivity |]. split; [reflexivity |].
    split; [reflexivity |]. split; [reflexivity |].
    exact (proj1 (proj2 (proj2
             (gemm_transpose_flags_follow_output_order calm cb_no_trans
                cb_no_trans 1 0 c1_A c1_B c1_C false c1_call))) eq_refl).
  - split; [reflexivity |]. split; [reflexivity |].
    split; [reflexivity |]. split; [reflexivity |].
    exact (proj2 (proj2 (proj2
             (gemm_transpose_flags_follow_output_order calm cb_no_trans
                cb_no_trans 1 0 c1_bA c8_B c1_bC true c1_bcall))) eq_refl).
Defined.

(** ** C8: the leading dimension of a degenerate matrix *)

Lemma flag_ld_degenerate (o : cb_order) (a : GpuArray) :
  degenerate_rule o (dim a 0) (dim a 1) (Some (flag_ld o a)).
Proof. split; intros -> _; reflexivity. Qed.

Lemma batch_ld_degenerate (o : cb_order) (a : GpuArray) (elsize : Z) :
  degenerate_rule o (dim a 1) (dim a 2) (Some (batch_ld o a elsize)).
Proof.
  split; intros -> H; cbn; unfold ld_c, ld_fortran; rewrite H; reflexivity.
Qed.

Section DegenerateAxis.

Variable W : backend.
Variables tA tB : cb_transpose.
Variables alpha beta : Z.
Variable nocopy : bool.
Variable K : kernel_call.

Lemma rgemv_kernel_ld (A X Y : GpuArray) :
  In K (kernel_calls (trace (GpuArray_rgemv W tA alpha A X beta Y nocopy)))
  ->
  let Ap := given W opA A in
  exists oa,
    flag_order Ap = Some oa
    /\ degenerate_rule oa (dim Ap 0) (dim Ap 1) (call_lda K).
Proof.
  intros H Ap. apply rgemv_kernel in H.
  destruct H as (o & Ho & _ & _ & Hl). exists o. rewrite Hl.
  split; [exact Ho | apply flag_ld_degenerate].
Qed.

Lemma rgemm_kernel_ld (A B C : GpuArray) :
  In K (kernel_calls
          (trace (GpuArray_rgemm W tA tB alpha A B beta C nocopy))) ->
  let Ap := given W opA A in
  let Bp := given W opB B in
  exists o oa ob,
    flag_order C = Some o /\ flag_order Ap = Some oa
    /\ flag_order Bp = Some ob
    /\ degenerate_rule oa (dim Ap 0) (dim Ap 1) (call_lda K)
    /\ degenerate_rule ob (dim Bp 0) (dim Bp 1) (call_ldb K)
    /\ degenerate_rule o (dim C 0) (dim C 1) (call_ldc K).
Proof.
  intros H Ap Bp. apply rgemm_kernel in H.
  destruct H as (o & oa & ob & HC & HA & HB & _ & _ & _ & Ha & Hb & Hc).
  exists o, oa, ob. rewrite Ha, Hb, Hc.
  split; [exact HC |]. split; [exact HA |]. split; [exact HB |].
  split; [| split]; apply flag_ld_degenerate.
Qed.

Lemma rger_kernel_ld (X Y A : GpuArray) :
  In K (kernel_calls (trace (GpuArray_rger W alpha X Y A nocopy))) ->
  exists oa,
    flag_order A = Some oa
    /\ degenerate_rule oa (dim A 0) (dim A 1) (call_lda K).
Proof.
  intros H. apply rger_kernel in H.
  destruct H as (o & Ho & _ & Hl). exists o. rewrite Hl.
  split; [exact Ho | apply flag_ld_degenerate].
Qed.

Lemma rgemmBatch_kernel_ld (A B C : GpuArray) :
  In K (kernel_calls
          (trace (GpuArray_rgemmBatch_3d W tA tB alpha A B beta C nocopy)))
  ->
  let Ap := given3d W opA A in
  let Bp := given3d W opB B in
  exists o oa ob,
    class_order (is_last_2d_contiguous C) = Some o
    /\ class_order (class3d A) = Some oa
    /\ class_order (class3d B) = Some ob
    /\ degenerate_rule oa (dim Ap 1) (dim Ap 2) (call_lda K)
    /\ degenerate_rule ob (dim Bp 1) (dim Bp 2) (call_ldb K)
    /\ degenerate_rule o (dim C 1) (dim C 2) (call_ldc K).
Proof.
  intros H Ap Bp. apply rgemmBatch_kernel in H.
  destruct H as (o & oa & ob & HC & HA & HB & _ & _ & _ & Ha & Hb & Hc).
  exists o, oa, ob. rewrite Ha, Hb, Hc.
  split; [exact HC |]. split; [exact HA |]. split; [exact HB |].
  split; [| split]; apply batch_ld_degenerate.
Qed.

End DegenerateAxis.

(** C8.  In each of the four entry points that resolve a leading
    dimension, every matrix handed to a kernel whose classification is
    row-major with one row, or column-major with one column, gets the
    extent of its other axis as leading dimension: [n] for a row-major
    [1 x n] operand and for a column-major [n x 1] operand.  The batched
    entry point reads the last two dimensions.  And the kernel is
    called: in each of the four, a call that passes the validator and
    the tests on layout, setup and element type makes a kernel call (one
    call in [rgemv], [rgemm] and [rger], a first call that is of the
    strided kernel in the batched entry point), with these leading
    dimensions. *)
Theorem degenerate_axis_leading_dimension
    (W : backend) (tA tB : cb_transpose) (alpha beta : Z) (nocopy : bool)
    (K : kernel_call) :
  (forall A X Y,
     In K (kernel_calls
             (trace (GpuArray_rgemv W tA alpha A X beta Y nocopy))) ->
     let Ap := given W opA A in
     exists oa,
       flag_order Ap = Some oa
       /\ degenerate_rule oa (dim Ap 0) (dim Ap 1) (call_lda K))
  /\
  (forall A B C,
     In K (kernel_calls
             (trace (GpuArray_rgemm W tA tB alpha A B beta C nocopy))) ->
     let Ap := given W opA A in
     let Bp := given W opB B in
     exists o oa ob,
       flag_order C = Some o /\ flag_order Ap = Some oa
       /\ flag_order Bp = Some ob
       /\ degenerate_rule oa (dim Ap 0) (dim Ap 1) (call_lda K)
       /\ degenerate_rule ob (dim Bp 0) (dim Bp 1) (call_ldb K)
       /\ degenerate_rule o (dim C 0) (dim C 1) (call_ldc K))
  /\
  (forall X Y A,
     In K (kernel_calls (trace (GpuArray_rger W alpha X Y A nocopy))) ->
     exists oa,
       flag_order A = Some oa
       /\ degenerate_rule oa (dim A 0) (dim A 1) (call_lda K))
  /\
  (forall A B C,
     In K (kernel_calls
             (trace (GpuArray_rgemmBatch_3d W tA tB alpha A B beta C
                       nocopy))) ->
     let Ap := given3d W opA A in
     let Bp := given3d W opB B in
     exists o oa ob,
       class_order (is_last_2d_contiguous C) = Some o
       /\ class_order (class3d A) = Some oa
       /\ class_order (class3d B) = Some ob
       /\ degenerate_rule oa (dim Ap 1) (dim Ap 2) (call_lda K)
       /\ degenerate_rule ob (dim Bp 1) (dim Bp 2) (call_ldb K)
       /\ degenerate_rule o (dim C 1) (dim C 2) (call_ldc K))
  /\
  (forall A X Y,
     rgemv_reaches_kernel W tA A X Y nocopy = true ->
     let Ap := given W opA A in
     exists K' oa,
       kernel_calls (trace (GpuArray_rgemv W tA alpha A X beta Y nocopy))
       = [K']
       /\ flag_order Ap = Some oa
       /\ degenerate_rule oa (dim Ap 0) (dim Ap 1) (call_lda K'))
  /\
  (forall A B C,
     rgemm_reaches_kernel W tA tB A B C nocopy = true ->
     let Ap := given W opA A in
     let Bp := given W opB B in
     exists K' o oa ob,
       kernel_calls (trace (GpuArray_rgemm W tA tB alpha A B beta C nocopy))
       = [K']
       /\ flag_order C = Some o /\ flag_order Ap = Some oa
       /\ flag_order Bp = Some ob
       /\ degenerate_rule oa (dim Ap 0) (dim Ap 1) (call_lda K')
       /\ degenerate_rule ob (dim Bp 0) (dim Bp 1) (call_ldb K')
       /\ degenerate_rule o (dim C 0) (dim C 1) (call_ldc K'))
  /\
  (forall X Y A,
     rger_reaches_kernel W X Y A nocopy = true ->
     exists K' oa,
       kernel_calls (trace (GpuArray_rger W alpha X Y A nocopy)) = [K']
       /\ flag_order A = Some oa
       /\ degenerate_rule oa (dim A 0) (dim A 1) (call_lda K'))
  /\
  (forall A B C,
     rgemmBatch_reaches_kernel W tA tB A B C nocopy = true ->
     let Ap := given3d W opA A in
     let Bp := given3d W opB B in
     exists K' rest o oa ob,
       kernel_calls
         (trace (GpuArray_rgemmBatch_3d W tA tB alpha A B beta C nocopy))
       = K' :: rest
       /\ is_pointer_array K' = false
       /\ class_order (is_last_2d_contiguous C) = Some o
       /\ class_order (class3d A) = Some oa
       /\ class_order (class3d B) = Some ob
       /\ degenerate_rule oa (dim Ap 1) (dim Ap 2) (call_lda K')
       /\ degenerate_rule ob (dim Bp 1) (dim Bp 2) (call_ldb K')
       /\ degenerate_rule o (dim C 1) (dim C 2) (call_ldc K')).
Proof.
  split; [intros A X Y; apply rgemv_kernel_ld |].
  split; [intros A B C; apply rgemm_kernel_ld |].
  split; [intros X Y A; apply rger_kernel_ld |].
  split; [intros A B C; apply rgemmBatch_kernel_ld |].
  split; [| split; [| split]].
  - intros A X Y H Ap.
    destruct (rgemv_reaches W tA alpha beta nocopy A X Y H) as (K' & HK).
    destruct (rgemv_kernel_ld W tA alpha beta nocopy K' A X Y)
      as (oa & Hld).
    { rewrite HK. left. reflexivity. }
    exists K', oa. split; [exact HK | exact Hld].
  - intros A B C H Ap Bp.
    destruct (rgemm_reaches W tA tB alpha beta nocopy A B C H) as (K' & HK).
    destruct (rgemm_kernel_ld W tA tB alpha beta nocopy K' A B C)
      as (o & oa & ob & Hld).
    { rewrite HK. left. reflexivity. }
    exists K', o, oa, ob. split; [exact HK | exact Hld].
  - intros X Y A H.
    destruct (rger_reaches W alpha nocopy X Y A H) as (K' & HK).
    destruct (rger_kernel_ld W alpha nocopy K' X Y A) as (oa & Hld).
    { rewrite HK. left. reflexivity. }
    exists K', oa. split; [exact HK | exact Hld].
  - intros A B C H Ap Bp.
    destruct (rgemmBatch_reaches W tA tB alpha beta nocopy A B C H)
      as (K' & rest & HK & Hp).
    destruct (rgemmBatch_kernel_ld W tA tB alpha beta nocopy K' A B C)
      as (o & oa & ob & Hld).
    { rewrite HK. left. reflexivity. }
    exists K', rest, o, oa, ob.
    split; [exact HK |]. split; [exact Hp | exact Hld].
Qed.

Lemma degenerate_axis_witness :
  let rv := GpuArray_rgemv calm cb_no_trans 1 c4_A1 c3_X 0 c10_X false in
  let rm := GpuArray_rgemm calm cb_no_trans cb_no_trans 1
              c4_A1 c1_B 0 c8_C1 false in
  let rg := GpuArray_rger calm 1 c3_X c10_X c10_A false in
  let rb := GpuArray_rgemmBatch_3d calm cb_no_trans cb_no_trans 1
              c8_A c8_B 0 c8_C true in
  (rgemv_reaches_kernel calm cb_no_trans c4_A1 c3_X c10_X false = true
   /\ kernel_calls (trace rv) = [c8_gemv_call]
   /\ call_lda c8_gemv_call = Some 3
   /\ exists K' oa,
        kernel_calls (trace rv) = [K']
        /\ flag_order (given calm opA c4_A1) = Some oa
        /\ degenerate_rule oa (dim (given calm opA c4_A1) 0)
             (dim (given calm opA c4_A1) 1) (call_lda K'))
  /\
  (rgemm_reaches_kernel calm cb_no_trans cb_no_trans c4_A1 c1_B c8_C1
     false = true
   /\ kernel_calls (trace rm) = [c8_gemm_call]
   /\ call_lda c8_gemm_call = Some 3
   /\ call_ldc c8_gemm_call = Some 2
   /\ exists K' o oa ob,
        kernel_calls (trace rm) = [K']
        /\ flag_order c8_C1 = Some o
        /\ flag_order (given calm opA c4_A1) = Some oa
        /\ flag_order (given calm opB c1_B) = Some ob
        /\ degenerate_rule oa (dim (given calm opA c4_A1) 0)
             (dim (given calm opA c4_A1) 1) (call_lda K')
        /\ degenerate_rule ob (dim (given calm opB c1_B) 0)
             (dim (given calm opB c1_B) 1) (call_ldb K')
        /\ degenerate_rule o (dim c8_C1 0) (dim c8_C1 1) (call_ldc K'))
  /\
  (rger_reaches_kernel calm c3_X c10_X c10_A false = true
   /\ kernel_calls (trace rg) = [c8_ger_call]
   /\ call_lda c8_ger_call = Some 3
   /\ exists K' oa,
        kernel_calls (trace rg) = [K']
        /\ flag_order c10_A = Some oa
        /\ degenerate_rule oa (dim c10_A 0) (dim c10_A 1) (call_lda K'))
  /\
  (rgemmBatch_reaches_kernel calm cb_no_trans cb_no_trans c8_A c8_B c8_C
     true = true
   /\ kernel_calls (trace rb) = [c8_call]
   /\ call_lda c8_call = Some 3
   /\ exists K' rest o oa ob,
        kernel_calls (trace rb) = K' :: rest
        /\ is_pointer_array K' = false
        /\ class_order (is_last_2d_contiguous c8_C) = Some o
        /\ class_order (class3d c8_A) = Some oa
        /\ class_order (class3d c8_B) = Some ob
        /\ degenerate_rule oa (dim (given3d calm opA c8_A) 1)
             (dim (given3d calm opA c8_A) 2) (call_lda K')
        /\ degenerate_rule ob (dim (given3d calm opB c8_B) 1)
             (dim (given3d calm opB c8_B) 2) (call_ldb K')
        /\ degenerate_rule o (dim c8_C 1) (dim c8_C 2) (call_ldc K')).
Proof.
  cbv zeta.
  pose proof (degenerate_axis_leading_dimension calm cb_no_trans
                cb_no_trans 1 0 false c8_call)
    as (_ & _ & _ & _ & Hv & Hm & Hg & _).
  pose proof (degenerate_axis_leading_dimension calm cb_no_trans
                cb_no_trans 1 0 true c8_call)
    as (_ & _ & _ & _ & _ & _ & _ & Hb).
  split; [| split; [| split]].
  - split; [reflexivity |]. split; [reflexivity |]. split; [reflexivity |].
    exact (Hv c4_A1 c3_X c10_X eq_refl).
  - split; [reflexivity |]. split; [reflexivity |]. split; [reflexivity |].
    split; [reflexivity |].
    exact (Hm c4_A1 c1_B c8_C1 eq_refl).
  - split; [reflexivity |]. split; [reflexivity |]. split; [reflexivity |].
    exact (Hg c3_X c10_X c10_A eq_refl).
  - split; [reflexivity |]. split; [reflexivity |]. split; [reflexivity |].
    exact (Hb c8_A c8_B c8_C eq_refl).
Defined.

Lemma f_contiguous_onesegment (a : GpuArray) :
  has_flags a GA_F_CONTIGUOUS = true -> GpuArray_ISONESEGMENT a = true.
Proof.
  unfold GpuArray_ISONESEGMENT, has_flags. intros H.
  apply negb_true_iff in H. apply negb_true_iff.
  apply Z.eqb_neq in H. apply Z.eqb_neq. intros E. apply H.
  replace GA_F_CONTIGUOUS
    with (Z.land (Z.lor GA_C_CONTIGUOUS GA_F_CONTIGUOUS) GA_F_CONTIGUOUS)
    by reflexivity.
  rewrite Z.land_assoc, E. reflexivity.
Qed.

Lemma f_contiguous_given (W : backend) (s : slot) (a : GpuArray) :
  has_flags a GA_F_CONTIGUOUS = true -> given W s a = a.
Proof.
  intros H. unfold given. now rewrite (f_contiguous_onesegment a H).
Qed.

Lemma f_contiguous_order (a : GpuArray) (o : cb_order) :
  has_flags a GA_F_CONTIGUOUS = true ->
  flag_order a = Some o -> o = cb_fortran.
Proof. unfold flag_order. intros ->. congruence. Qed.

(** ** C10: an operand that is both C- and F-contiguous *)

Section BothContiguous.

Variable W : backend.
Variables tA tB : cb_transpose.
Variables alpha beta : Z.
Variable nocopy : bool.
Variable K : kernel_call.

Lemma rgemv_kernel_both (A X Y : GpuArray) :
  has_flags A GA_F_CONTIGUOUS = true ->
  has_flags A GA_C_CONTIGUOUS = true ->
  In K (kernel_calls (trace (GpuArray_rgemv W tA alpha A X beta Y nocopy)))
  ->
  call_order K = Some cb_fortran /\ call_lda K = Some (dim A 0).
Proof.
  intros HF _ H. apply rgemv_kernel in H.
  destruct H as (o & Ho & Hk & _ & Hl).
  rewrite (f_contiguous_given W opA A HF) in Ho, Hl.
  apply (f_contiguous_order A o HF) in Ho. subst o.
  split; assumption.
Qed.

Lemma rger_kernel_both (X Y A : GpuArray) :
  has_flags A GA_F_CONTIGUOUS = true ->
  has_flags A GA_C_CONTIGUOUS = true ->
  In K (kernel_calls (trace (GpuArray_rger W alpha X Y A nocopy))) ->
  call_order K = Some cb_fortran /\ call_lda K = Some (dim A 0).
Proof.
  intros HF _ H. apply rger_kernel in H.
  destruct H as (o & Ho & Hk & Hl).
  apply (f_contiguous_order A o HF) in Ho. subst o.
  split; assumption.
Qed.

Lemma rgemm_kernel_both (A B C : GpuArray) :
  In K (kernel_calls
          (trace (GpuArray_rgemm W tA tB alpha A B beta C nocopy))) ->
  (has_flags C GA_F_CONTIGUOUS = true ->
   has_flags C GA_C_CONTIGUOUS = true ->
   call_order K = Some cb_fortran /\ call_ldc K = Some (dim C 0))
  /\
  (has_flags A GA_F_CONTIGUOUS = true ->
   has_flags A GA_C_CONTIGUOUS = true ->
   call_lda K = Some (dim A 0)
   /\ (call_order K = Some cb_fortran -> call_transA K = Some tA)
   /\ (call_order K = Some cb_c -> call_transA K = Some (flip tA)))
  /\
  (has_flags B GA_F_CONTIGUOUS = true ->
   has_flags B GA_C_CONTIGUOUS = true ->
   call_ldb K = Some (dim B 0)
   /\ (call_order K = Some cb_fortran -> call_transB K = Some tB)
   /\ (call_order K = Some cb_c -> call_transB K = Some (flip tB))).
Proof.
  intros H. apply rgemm_kernel in H.
  destruct H as (o & oa & ob & HC & HA & HB & Ho & HtA & HtB
                 & Ha & Hb & Hc).
  split; [| split].
  - intros HF _. apply (f_contiguous_order C o HF) in HC. subst o.
    split; assumption.
  - intros HF _. rewrite (f_contiguous_given W opA A HF) in HA, Ha.
    apply (f_contiguous_order A oa HF) in HA. subst oa.
    split; [exact Ha |]. rewrite Ho, HtA.
    split; intros E; injection E as ->; reflexivity.
  - intros HF _. rewrite (f_contiguous_given W opB B HF) in HB, Hb.
    apply (f_contiguous_order B ob HF) in HB. subst ob.
    split; [exact Hb |]. rewrite Ho, HtB.
    split; intros E; injection E as ->; reflexivity.
Qed.

End BothContiguous.

(** C10.  In [GpuArray_rgemv], [GpuArray_rgemm] and [GpuArray_rger], an
    operand whose flags carry both contiguity bits is read as
    column-major, because the Fortran bit is tested first: as the
    order-determining operand ([A] of [rgemv] and [rger], [C] of [rgemm])
    it makes the kernel order [cb_fortran] with the first dimension as
    leading dimension; as an input of [rgemm] it gets its first dimension
    as leading dimension and its flag is the caller's in a Fortran-order
    call and the toggled one in a C-order call.  And the kernel is
    called: in each of the three, a call that passes the validator and
    the tests on layout, setup and element type makes exactly one kernel
    call, which is made so. *)
Theorem both_contiguous_resolves_column_major
    (W : backend) (tA tB : cb_transpose) (alpha beta : Z) (nocopy : bool)
    (K : kernel_call) :
  (forall A X Y,
     has_flags A GA_F_CONTIGUOUS = true ->
     has_flags A GA_C_CONTIGUOUS = true ->
     In K (kernel_calls
             (trace (GpuArray_rgemv W tA alpha A X beta Y nocopy))) ->
     call_order K = Some cb_fortran /\ call_lda K = Some (dim A 0))
  /\
  (forall X Y A,
     has_flags A GA_F_CONTIGUOUS = true ->
     has_flags A GA_C_CONTIGUOUS = true ->
     In K (kernel_calls (trace (GpuArray_rger W alpha X Y A nocopy))) ->
     call_order K = Some cb_fortran /\ call_lda K = Some (dim A 0))
  /\
  (forall A B C,
     In K (kernel_calls
             (trace (GpuArray_rgemm W tA tB alpha A B beta C nocopy))) ->
     (has_flags C GA_F_CONTIGUOUS = true ->
      has_flags C GA_C_CONTIGUOUS = true ->
      call_order K = Some cb_fortran /\ call_ldc K = Some (dim C 0))
     /\
     (has_flags A GA_F_CONTIGUOUS = true ->
      has_flags A GA_C_CONTIGUOUS = true ->
      call_lda K = Some (dim A 0)
      /\ (call_order K = Some cb_fortran -> call_transA K = Some tA)
      /\ (call_order K = Some cb_c -> call_transA K = Some (flip tA)))
     /\
     (has_flags B GA_F_CONTIGUOUS = true ->
      has_flags B GA_C_CONTIGUOUS = true ->
      call_ldb K = Some (dim B 0)
      /\ (call_order K = Some cb_fortran -> call_transB K = Some tB)
      /\ (call_order K = Some cb_c -> call_transB K = Some (flip tB))))
  /\
  (forall A X Y,
     has_flags A GA_F_CONTIGUOUS = true ->
     has_flags A GA_C_CONTIGUOUS = true ->
     rgemv_reaches_kernel W tA A X Y nocopy = true ->
     exists K',
       kernel_calls (trace (GpuArray_rgemv W tA alpha A X beta Y nocopy))
       = [K']
       /\ call_order K' = Some cb_fortran
       /\ call_lda K' = Some (dim A 0))
  /\
  (forall X Y A,
     has_flags A GA_F_CONTIGUOUS = true ->
     has_flags A GA_C_CONTIGUOUS = true ->
     rger_reaches_kernel W X Y A nocopy = true ->
     exists K',
       kernel_calls (trace (GpuArray_rger W alpha X Y A nocopy)) = [K']
       /\ call_order K' = Some cb_fortran
       /\ call_lda K' = Some (dim A 0))
  /\
  (forall A B C,
     rgemm_reaches_kernel W tA tB A B C nocopy = true ->
     exists K',
       kernel_calls (trace (GpuArray_rgemm W tA tB alpha A B beta C nocopy))
       = [K']
       /\ (has_flags C GA_F_CONTIGUOUS = true ->
           has_flags C GA_C_CONTIGUOUS = true ->
           call_order K' = Some cb_fortran
           /\ call_ldc K' = Some (dim C 0))
       /\ (has_flags A GA_F_CONTIGUOUS = true ->
           has_flags A GA_C_CONTIGUOUS = true ->
           call_lda K' = Some (dim A 0)
           /\ (call_order K' = Some cb_fortran ->
               call_transA K' = Some tA)
           /\ (call_order K' = Some cb_c ->
               call_transA K' = Some (flip tA)))
       /\ (has_flags B GA_F_CONTIGUOUS = true ->
           has_flags B GA_C_CONTIGUOUS = true ->
           call_ldb K' = Some (dim B 0)
           /\ (call_order K' = Some cb_fortran ->
               call_transB K' = Some tB)
           /\ (call_order K' = Some cb_c ->
               call_transB K' = Some (flip tB)))).
Proof.
  split; [intros A X Y; apply rgemv_kernel_both |].
  split; [intros X Y A; apply rger_kernel_both |].
  split; [intros A B C; apply rgemm_kernel_both |].
  split; [| split].
  - intros A X Y HF HC H.
    destruct (rgemv_reaches W tA alpha beta nocopy A X Y H) as (K' & HK).
    exists K'. split; [exact HK |].
    apply (rgemv_kernel_both W tA alpha beta nocopy K' A X Y HF HC).
    rewrite HK. left. reflexivity.
  - intros X Y A HF HC H.
    destruct (rger_reaches W alpha nocopy X Y A H) as (K' & HK).
    exists K'. split; [exact HK |].
    apply (rger_kernel_both W alpha nocopy K' X Y A HF HC).
    rewrite HK. left. reflexivity.
  - intros A B C H.
    destruct (rgemm_reaches W tA tB alpha beta nocopy A B C H) as (K' & HK).
    exists K'. split; [exact HK |].
    apply (rgemm_kernel_both W tA tB alpha beta nocopy K' A B C).
    rewrite HK. left. reflexivity.
Qed.

Lemma both_contiguous_witness :
  let rv := GpuArray_rgemv calm cb_no_trans 1 c10_A c10_X 0 c10_Y false in
  let rg := GpuArray_rger calm 1 c3_X c10_X c10_A false in
  let rm := GpuArray_rgemm calm cb_no_trans cb_no_trans 1
              c5_At c10_B 0 c10_A false in
  (has_flags c10_A GA_F_CONTIGUOUS = true
   /\ has_flags c10_A GA_C_CONTIGUOUS = true
   /\ has_flags c10_B GA_F_CONTIGUOUS = true
   /\ has_flags c10_B GA_C_CONTIGUOUS = true)
  /\
  (rgemv_reaches_kernel calm cb_no_trans c10_A c10_X c10_Y false = true
   /\ kernel_calls (trace rv) = [c10_call]
   /\ exists K',
        kernel_calls (trace rv) = [K']
        /\ call_order K' = Some cb_fortran
        /\ call_lda K' = Some (dim c10_A 0))
  /\
  (rger_reaches_kernel calm c3_X c10_X c10_A false = true
   /\ kernel_calls (trace rg) = [c8_ger_call]
   /\ exists K',
        kernel_calls (trace rg) = [K']
        /\ call_order K' = Some cb_fortran
        /\ call_lda K' = Some (dim c10_A 0))
  /\
  (rgemm_reaches_kernel calm cb_no_trans cb_no_trans c5_At c10_B c10_A
     false = true
   /\ kernel_calls (trace rm) = [c10_gemm_call]
   /\ call_order c10_gemm_call = Some cb_fortran
   /\ call_ldb c10_gemm_call = Some (dim c10_B 0)
   /\ call_ldc c10_gemm_call = Some (dim c10_A 0)
   /\ call_transB c10_gemm_call = Some cb_no_trans).
Proof.
  cbv zeta.
  pose proof (both_contiguous_resolves_column_major calm cb_no_trans
                cb_no_trans 1 0 false c10_gemm_call)
    as (_ & _ & Hin & Hv & Hg & _).
  split; [repeat split; reflexivity |].
  split; [| split].
  - split; [reflexivity |]. split; [reflexivity |].
    exact (Hv c10_A c10_X c10_Y eq_refl eq_refl eq_refl).
  - split; [reflexivity |]. split; [reflexivity |].
    exact (Hg c3_X c10_X c10_A eq_refl eq_refl eq_refl).
  - split; [reflexivity |]. split; [reflexivity |].
    destruct (Hin c5_At c10_B c10_A (or_introl eq_refl))
      as (HC & _ & HB).
    destruct (HC eq_refl eq_refl) as (Ho & Hldc).
    destruct (HB eq_refl eq_refl) as (Hldb & HtB & _).
    split; [exact Ho |]. split; [exact Hldb |]. split; [exact Hldc |].
    exact (HtB Ho).
Defined.

(** ** C9: temporaries are released once *)


(** Walk the goal through the stages of an entry point, one case per
    path. *)
Ltac walk_goal :=
  repeat first [ split_goal | progress autounfold with stages ].

(** Close a path whose trace is known up to the recorded tests. *)
Ltac settle :=
  tidy_tests; subst; cbn; use_tests; try reflexivity.

Section Released.

Variable W : backend.
Variables tA tB : cb_transpose.
Variables alpha beta m n k elsize : Z.
Variable nocopy : bool.






End Released.






(** ** C6: an input that needs a copy when copies are refused *)

Lemma copy_error_refused (valid : bool) (msg : string) :
  refused_for_copy valid (error_set GA_COPY_ERROR msg).
Proof. repeat split. Qed.

Lemma shape_error_refused (msg : string) :
  refused_for_copy false (error_set GA_VALUE_ERROR msg).
Proof. repeat split. discriminate. Qed.

Lemma stopped_early_refused (r : run) (msgs : list string) :
  stopped_early r msgs -> refused_for_copy false r.
Proof.
  intros H. apply stopped_early_facts in H.
  destruct H as (? & ? & ? & _). repeat split; try assumption. discriminate.
Qed.

(** Recorded tests that contradict each other. *)
Ltac clash :=
  atoms;
  repeat match goal with
  | H : ?x = _, H' : context [?x] |- _ => rewrite H in H'
  end;
  cbn in *; congruence.

Section NoCopy.

Variable W : backend.
Variables tA tB : cb_transpose.
Variables alpha beta m n k elsize : Z.

Lemma rdot_copyX_nocopy (ctx : Z) (X Y Zp : GpuArray) :
  rdot_needs_copy X Y = true ->
  exists msg,
    rdot_copyX W ctx n elsize X Y Zp true = error_set GA_COPY_ERROR msg.
Proof.
  unfold rdot_needs_copy, rdot_copyX, rdot_copyY.
  destruct (stride X 0 <? 0), (stride Y 0 <? 0); intros H;
    try discriminate H; eexists; reflexivity.
Qed.

Lemma rgemv_copyA_nocopy (ctx : Z) (A X Y : GpuArray) :
  rgemv_needs_copy A X = true ->
  exists msg,
    rgemv_copyA W tA alpha beta ctx m n elsize A X Y true
    = error_set GA_COPY_ERROR msg.
Proof.
  unfold rgemv_needs_copy, rgemv_copyA, rgemv_copyX.
  destruct (GpuArray_ISONESEGMENT A), (stride X 0 <? 0); intros H;
    try discriminate H; eexists; reflexivity.
Qed.

Lemma rgemm_copyA_nocopy (A B C : GpuArray) :
  rgemm_needs_copy A B = true ->
  exists msg,
    rgemm_copyA W tA tB alpha beta m n k elsize A B C true
    = error_set GA_COPY_ERROR msg.
Proof.
  unfold rgemm_needs_copy, rgemm_copyA, rgemm_copyB.
  destruct (GpuArray_ISONESEGMENT A), (GpuArray_ISONESEGMENT B); intros H;
    try discriminate H; eexists; reflexivity.
Qed.

Lemma rger_copyX_nocopy (X Y A : GpuArray) :
  rger_needs_copy X Y = true ->
  exists msg,
    rger_copyX W alpha m n elsize X Y A true = error_set GA_COPY_ERROR msg.
Proof.
  unfold rger_needs_copy, rger_copyX, rger_copyY.
  destruct (stride X 0 <? 0), (stride Y 0 <? 0); intros H;
    try discriminate H; eexists; reflexivity.
Qed.

Lemma rgemmBatch_copyA_nocopy (batchCount : Z) (A B C : GpuArray) :
  rgemmBatch_needs_copy A B = true ->
  exists msg,
    rgemmBatch_copyA W tA tB alpha beta m n k elsize batchCount A B C true
    = error_set GA_COPY_ERROR msg.
Proof.
  unfold rgemmBatch_needs_copy, rgemmBatch_copyA, rgemmBatch_copyB.
  destruct (is_last_2d_contiguous A =? 0),
    (is_last_2d_contiguous B =? 0); intros H;
    try discriminate H; eexists; reflexivity.
Qed.

End NoCopy.

(** C6.  For every call with [nocopy] set in which an input fails the
    layout its entry point requires (a matrix that is not one segment, a
    vector with a negative stride, a batch whose slices are not
    classified), the call is stopped before any backend kernel is
    invoked: the run calls no kernel and does nothing but leave messages
    on the context, so the output buffer is as it was, and the status is a
    failure.  When the call passes the validator, which runs first, the
    status is [GA_COPY_ERROR]. *)
Theorem nocopy_input_needs_copy_refused
    (W : backend) (tA tB : cb_transpose) (alpha beta : Z) :
  (forall X Y Zp,
     rdot_needs_copy X Y = true ->
     refused_for_copy (rdot_valid X Y Zp) (GpuArray_rdot W X Y Zp true))
  /\ (forall A X Y,
        rgemv_needs_copy A X = true ->
        refused_for_copy (rgemv_valid tA A X Y)
          (GpuArray_rgemv W tA alpha A X beta Y true))
  /\ (forall A B C,
        rgemm_needs_copy A B = true ->
        refused_for_copy (rgemm_valid tA tB A B C)
          (GpuArray_rgemm W tA tB alpha A B beta C true))
  /\ (forall X Y A,
        rger_needs_copy X Y = true ->
        refused_for_copy (rger_valid X Y A)
          (GpuArray_rger W alpha X Y A true))
  /\ (forall A B C,
        rgemmBatch_needs_copy A B = true ->
        refused_for_copy (rgemmBatch_valid tA tB A B C)
          (GpuArray_rgemmBatch_3d W tA tB alpha A B beta C true)).
Proof.
  split; [| split; [| split; [| split]]].
  - intros X Y Zp Hn. unfold GpuArray_rdot, rdot_dtypes.
    repeat split_goal.
    all: try (destruct (rdot_copyX_nocopy W (dim X 0)
                          (gpuarray_get_elsize (typecode X)) (data X)
                          X Y Zp Hn) as [msg ->];
              repeat split).
    all: repeat split; intros Hv; exfalso;
      unfold rdot_valid, rdot_prior in Hv; clash.
  - intros A X Y Hn. unfold rgemv_valid.
    destruct (rgemv_prior A X Y) eqn:Hp;
      [| eapply stopped_early_refused, rgemv_entry_prior, Hp ].
    destruct (rgemv_shapes tA A X Y) eqn:Hs.
    + rewrite rgemv_entry by assumption.
      destruct (rgemv_copyA_nocopy W tA alpha beta (dim A 0) (dim A 1)
                  (gpuarray_get_elsize (typecode A)) (data A) A X Y Hn)
        as [msg ->].
      apply copy_error_refused.
    + rewrite rgemv_entry_shapes by assumption. apply shape_error_refused.
  - intros A B C Hn. unfold rgemm_valid.
    destruct (rgemm_prior A B C) eqn:Hp;
      [| eapply stopped_early_refused, rgemm_entry_prior, Hp ].
    destruct (rgemm_shapes tA tB A B C) eqn:Hs.
    + rewrite rgemm_entry by assumption.
      destruct (rgemm_copyA_nocopy W tA tB alpha beta (eff_rows tA A 0)
                  (eff_cols tB B 0) (eff_cols tA A 0)
                  (gpuarray_get_elsize (typecode A)) A B C Hn) as [msg ->].
      apply copy_error_refused.
    + rewrite rgemm_entry_shapes by assumption. apply shape_error_refused.
  - intros X Y A Hn. unfold rger_valid.
    destruct (rger_prior X Y A) eqn:Hp;
      [| eapply stopped_early_refused, rger_entry_prior, Hp ].
    destruct (rger_shapes X Y A) eqn:Hs.
    + rewrite rger_entry by assumption.
      destruct (rger_copyX_nocopy W alpha (dim X 0) (dim Y 0)
                  (gpuarray_get_elsize (typecode X)) X Y A Hn) as [msg ->].
      apply copy_error_refused.
    + rewrite rger_entry_shapes by assumption. apply shape_error_refused.
  - intros A B C Hn. unfold rgemmBatch_valid.
    destruct (rgemmBatch_prior A B C) eqn:Hp;
      [| eapply stopped_early_refused, rgemmBatch_entry_prior, Hp ].
    destruct (batch_dims_equal A B C) eqn:Hb;
      [| rewrite rgemmBatch_entry_batch by assumption;
         apply shape_error_refused ].
    destruct (rgemmBatch_shapes tA tB A B C) eqn:Hs.
    + rewrite rgemmBatch_entry by assumption.
      destruct (rgemmBatch_copyA_nocopy W tA tB alpha beta
                  (eff_rows tA A 1) (eff_cols tB B 1) (eff_cols tA A 1)
                  (gpuarray_get_elsize (typecode A)) (dim A 0) A B C Hn)
        as [msg ->].
      apply copy_error_refused.
    + rewrite rgemmBatch_entry_shapes by assumption.
      apply shape_error_refused.
Qed.

Lemma nocopy_refused_witness :
  rgemm_needs_copy c6_A c1_B = true
  /\ rgemm_valid cb_no_trans cb_no_trans c6_A c1_B c1_C = true
  /\ GpuArray_rgemm calm cb_no_trans cb_no_trans 1 c6_A c1_B 0 c1_C true
     = error_set GA_COPY_ERROR msg_Need_copy_for_A
  /\ refused_for_copy (rgemm_valid cb_no_trans cb_no_trans c6_A c1_B c1_C)
       (GpuArray_rgemm calm cb_no_trans cb_no_trans 1 c6_A c1_B 0 c1_C true).
Proof.
  split; [reflexivity |]. split; [reflexivity |]. split; [reflexivity |].
  exact (proj1 (proj2 (proj2
           (nocopy_input_needs_copy_refused calm cb_no_trans cb_no_trans
              1 0))) c6_A c1_B c1_C eq_refl).
Defined.

(** ** C5 and C7: the shape checks *)

(** The layout stage never ends the way a shape check does. *)
Section NotAShapeError.

Variable W : backend.
Variables tA tB : cb_transpose.
Variables alpha beta m n k elsize : Z.
Variable nocopy : bool.

Lemma rgemv_copyA_not_shapes (ctx : Z) (A X Y : GpuArray) :
  rgemv_copyA W tA alpha beta ctx m n elsize A X Y nocopy
  <> error_set GA_VALUE_ERROR msg_Inconsistent_shapes.
Proof. intros H. walk H; differ H. Qed.

Lemma rgemm_copyA_not_shapes (A B C : GpuArray) :
  rgemm_copyA W tA tB alpha beta m n k elsize A B C nocopy
  <> error_set GA_VALUE_ERROR msg_mismatched_shapes.
Proof. intros H. walk H; differ H. Qed.

Lemma rgemmBatch_copyA_not_shapes (batchCount : Z) (A B C : GpuArray)
    (msg : string) :
  In msg [msg_Mismatched_first_dimension; msg_Mismatched_shape] ->
  rgemmBatch_copyA W tA tB alpha beta m n k elsize batchCount A B C nocopy
  <> error_set GA_VALUE_ERROR msg.
Proof.
  intros [<- | [<- | []]] H; walk H; differ H.
Qed.

End NotAShapeError.

Lemma stopped_early_not_shapes (r : run) (msgs : list string) (msg : string) :
  stopped_early r msgs -> In msg msgs ->
  r <> error_set GA_VALUE_ERROR msg.
Proof.
  intros (code & msg' & args & -> & _ & Hnot) Hin E.
  unfold error_fmt, error_set in E. injection E as _ _ Hm _.
  subst msg'. contradiction.
Qed.

(** C5.  The shape check of [GpuArray_rgemv] and of [GpuArray_rgemm] is
    the check on effective row and column counts under the caller's
    transpose flags ([rgemv_shapes], [rgemm_shapes]: with [transA] set,
    [m] and [k] are the second and the first dimension of [A]), and
    [GpuArray_rgemmBatch_3d] requires in addition that the leading
    dimensions of [A], [B] and [C] be equal: a call ends at the shape
    check, with [GA_VALUE_ERROR] and the shape message and nothing else
    done, exactly when it passes the checks before it and the effective
    shapes (for the batch: the batch dimensions, then the effective
    shapes of the slices) do not fit. *)
Theorem shape_checks_use_effective_dimensions
    (W : backend) (tA tB : cb_transpose) (alpha beta : Z) (nocopy : bool) :
  (forall A X Y,
     GpuArray_rgemv W tA alpha A X beta Y nocopy
     = error_set GA_VALUE_ERROR msg_Inconsistent_shapes
     <-> rgemv_prior A X Y = true /\ rgemv_shapes tA A X Y = false)
  /\ (forall A B C,
        GpuArray_rgemm W tA tB alpha A B beta C nocopy
        = error_set GA_VALUE_ERROR msg_mismatched_shapes
        <-> rgemm_prior A B C = true /\ rgemm_shapes tA tB A B C = false)
  /\ (forall A B C,
        GpuArray_rgemmBatch_3d W tA tB alpha A B beta C nocopy
        = error_set GA_VALUE_ERROR msg_Mismatched_first_dimension
        <-> rgemmBatch_prior A B C = true
            /\ batch_dims_equal A B C = false)
  /\ (forall A B C,
        GpuArray_rgemmBatch_3d W tA tB alpha A B beta C nocopy
        = error_set GA_VALUE_ERROR msg_Mismatched_shape
        <-> rgemmBatch_prior A B C = true
            /\ batch_dims_equal A B C = true
            /\ rgemmBatch_shapes tA tB A B C = false).
Proof.
  split; [| split; [| split]].
  - intros A X Y. split.
    + intros H. destruct (rgemv_prior A X Y) eqn:Hp.
      * destruct (rgemv_shapes tA A X Y) eqn:Hs; [| now split ].
        rewrite rgemv_entry in H by assumption.
        now apply rgemv_copyA_not_shapes in H.
      * eapply stopped_early_not_shapes in H;
          [ contradiction | eapply rgemv_entry_prior, Hp | now left ].
    + intros [Hp Hs]. now apply rgemv_entry_shapes.
  - intros A B C. split.
    + intros H. destruct (rgemm_prior A B C) eqn:Hp.
      * destruct (rgemm_shapes tA tB A B C) eqn:Hs; [| now split ].
        rewrite rgemm_entry in H by assumption.
        now apply rgemm_copyA_not_shapes in H.
      * eapply stopped_early_not_shapes in H;
          [ contradiction | eapply rgemm_entry_prior, Hp | now left ].
    + intros [Hp Hs]. now apply rgemm_entry_shapes.
  - intros A B C. split.
    + intros H. destruct (rgemmBatch_prior A B C) eqn:Hp.
      * destruct (batch_dims_equal A B C) eqn:Hb; [| now split ].
        destruct (rgemmBatch_shapes tA tB A B C) eqn:Hs.
        -- rewrite rgemmBatch_entry in H by assumption.
           apply rgemmBatch_copyA_not_shapes in H; [contradiction |].
           now left.
        -- rewrite rgemmBatch_entry_shapes in H by assumption. differ H.
      * eapply stopped_early_not_shapes in H;
          [ contradiction | eapply rgemmBatch_entry_prior, Hp | now left ].
    + intros [Hp Hb]. now apply rgemmBatch_entry_batch.
  - intros A B C. split.
    + intros H. destruct (rgemmBatch_prior A B C) eqn:Hp.
      * destruct (batch_dims_equal A B C) eqn:Hb.
        -- destruct (rgemmBatch_shapes tA tB A B C) eqn:Hs;
             [| now repeat split ].
           rewrite rgemmBatch_entry in H by assumption.
           apply rgemmBatch_copyA_not_shapes in H; [contradiction |].
           right. now left.
        -- rewrite rgemmBatch_entry_batch in H by assumption. differ H.
      * eapply stopped_early_not_shapes in H;
          [ contradiction | eapply rgemmBatch_entry_prior, Hp
          | right; now left ].
    + intros (Hp & Hb & Hs). now apply rgemmBatch_entry_shapes.
Qed.

(** With a supported element type and aligned operands, every check that
    can stop a call with mismatched inner dimensions reports
    [GA_VALUE_ERROR]. *)
Lemma rgemm_inner_mismatch_value_error
    (W : backend) (tA tB : cb_transpose) (alpha beta : Z)
    (A B C : GpuArray) (nocopy : bool) :
  inner_dims_agree tA tB A B 0 = false ->
  supported (typecode A) = true ->
  aligned3 A B C = true ->
  ret (GpuArray_rgemm W tA tB alpha A B beta C nocopy)
  = Return GA_VALUE_ERROR.
Proof.
  intros Hk Hs Ha. unfold GpuArray_rgemm.
  repeat split_goal; try reflexivity; exfalso; clash.
Qed.

(** C7.  A [GpuArray_rgemm] call whose inner dimensions do not agree
    (effective [A] is [m x k], effective [B] is [j x n], [j <> k]) calls
    no backend entry point at all, neither a kernel nor the setup nor a
    copy, and returns a failure.  The status is [GA_VALUE_ERROR] when the
    element type is supported and the operands are aligned (the two
    checks that report another status run first), and the call returns
    at the shape check, with the message [mismatched shapes], when the
    rank and dtype checks pass as well. *)
Theorem gemm_inner_mismatch_no_kernel
    (W : backend) (tA tB : cb_transpose) (alpha beta : Z)
    (A B C : GpuArray) (nocopy : bool) :
  eff_rows tB B 0 <> eff_cols tA A 0 ->
  let r := GpuArray_rgemm W tA tB alpha A B beta C nocopy in
  kernel_calls (trace r) = []
  /\ only_messages r = true
  /\ succeeded r = false
  /\ (supported (typecode A) = true -> aligned3 A B C = true ->
      ret r = Return GA_VALUE_ERROR)
  /\ (rgemm_prior A B C = true ->
      r = error_set GA_VALUE_ERROR msg_mismatched_shapes).
Proof.
  intros Hk r.
  assert (Hi : inner_dims_agree tA tB A B 0 = false).
  { unfold inner_dims_agree. now apply Z.eqb_neq. }
  assert (Hs : rgemm_shapes tA tB A B C = false).
  { unfold rgemm_shapes. now rewrite Hi. }
  assert (Hv : supported (typecode A) = true -> aligned3 A B C = true ->
               ret r = Return GA_VALUE_ERROR).
  { intros. now apply rgemm_inner_mismatch_value_error. }
  subst r. destruct (rgemm_prior A B C) eqn:Hp.
  - rewrite rgemm_entry_shapes in * by assumption. now repeat split.
  - apply rgemm_entry_prior
      with (W := W) (tA := tA) (tB := tB) (alpha := alpha) (beta := beta)
           (nocopy := nocopy) in Hp.
    apply stopped_early_facts in Hp. destruct Hp as (? & ? & ? & _).
    repeat split; try assumption. discriminate.
Qed.

(** [A] is [2 x 3] and [B] is [4 x 2]. *)
Lemma gemm_inner_mismatch_witness :
  eff_rows cb_no_trans c7_B 0 <> eff_cols cb_no_trans c1_A 0
  /\ GpuArray_rgemm calm cb_no_trans cb_no_trans 1 c1_A c7_B 0 c1_C false
     = error_set GA_VALUE_ERROR msg_mismatched_shapes.
Proof.
  assert (Hk : eff_rows cb_no_trans c7_B 0 <> eff_cols cb_no_trans c1_A 0)
    by (vm_compute; discriminate).
  split; [exact Hk |].
  exact (proj2 (proj2 (proj2 (proj2
           (gemm_inner_mismatch_no_kernel calm cb_no_trans cb_no_trans 1 0
              c1_A c7_B c1_C false Hk)))) eq_refl).
Defined.

(** ** C4: an output operand that cannot be written as it is *)

Section BadOutput.

Variable W : backend.
Variables tA tB : cb_transpose.
Variables alpha beta m n k elsize : Z.
Variable nocopy : bool.

Lemma rgemv_resolve_bad_output (ctx : Z) (Ap Xp : gaptr) (Y : GpuArray) :
  (stride Y 0 <? 0) = true ->
  rgemv_resolve W tA alpha beta ctx m n elsize Ap Xp Y
  = emit (EvError GA_VALUE_ERROR msg_Negative_strides_for_Y [])
      (cleanup opA Ap opX Xp GA_VALUE_ERROR).
Proof. intros H. unfold rgemv_resolve. now rewrite H. Qed.

Lemma rgemm_resolve_bad_output (Ap Bp : gaptr) (C : GpuArray) :
  GpuArray_ISONESEGMENT C = false ->
  rgemm_resolve W tA tB alpha beta m n k elsize Ap Bp C
  = emit (EvError GA_VALUE_ERROR msg_Noncontiguous_C [])
      (cleanup opA Ap opB Bp GA_VALUE_ERROR).
Proof. intros H. unfold rgemm_resolve. now rewrite H. Qed.

Lemma rger_resolve_bad_output (Xp Yp : gaptr) (A : GpuArray) :
  GpuArray_ISONESEGMENT A = false ->
  rger_resolve W alpha m n elsize Xp Yp A
  = emit (EvError GA_VALUE_ERROR msg_Noncontiguous_A [])
      (cleanup opX Xp opY Yp GA_VALUE_ERROR).
Proof. intros H. unfold rger_resolve. now rewrite H. Qed.

(** Walk the two copy stages, then use the refusal of the output. *)
Ltac copies_then_refusal lem :=
  unfold refused_for_output, rgemv_needs_copy, rgemm_needs_copy,
    rger_needs_copy,
    rgemv_copyA, rgemv_copyX, rgemm_copyA, rgemm_copyB,
    rger_copyX, rger_copyY, copy_then;
  repeat split_goal; rewrite ?lem by assumption;
  unfold cleanup, clear_if_scratch, error_set; settle;
  repeat split; try reflexivity; intros; clash.

Lemma rgemv_copyA_bad_output (ctx : Z) (A X Y : GpuArray) :
  (stride Y 0 <? 0) = true ->
  refused_for_output (negb (rgemv_needs_copy A X))
    (rgemv_copyA W tA alpha beta ctx m n elsize A X Y nocopy).
Proof. intros Hy. copies_then_refusal rgemv_resolve_bad_output. Qed.

Lemma rgemm_copyA_bad_output (A B C : GpuArray) :
  GpuArray_ISONESEGMENT C = false ->
  refused_for_output (negb (rgemm_needs_copy A B))
    (rgemm_copyA W tA tB alpha beta m n k elsize A B C nocopy).
Proof. intros Hc. copies_then_refusal rgemm_resolve_bad_output. Qed.

Lemma rger_copyX_bad_output (X Y A : GpuArray) :
  GpuArray_ISONESEGMENT A = false ->
  refused_for_output (negb (rger_needs_copy X Y))
    (rger_copyX W alpha m n elsize X Y A nocopy).
Proof. intros Hc. copies_then_refusal rger_resolve_bad_output. Qed.

End BadOutput.

(** No entry point calls [GpuArray_copy] on its output. *)
Section OutputNeverCopied.

Variable W : backend.
Variables tA tB : cb_transpose.
Variables alpha beta m n k elsize : Z.
Variable nocopy : bool.

Lemma rgemv_copyA_output_kept (ctx : Z) (A X Y : GpuArray) :
  copies_tried opY
    (trace (rgemv_copyA W tA alpha beta ctx m n elsize A X Y nocopy))
  = 0%nat.
Proof. walk_goal; settle. Qed.

Lemma rgemm_copyA_output_kept (A B C : GpuArray) :
  copies_tried opC
    (trace (rgemm_copyA W tA tB alpha beta m n k elsize A B C nocopy))
  = 0%nat.
Proof. walk_goal; settle. Qed.

Lemma rger_copyX_output_kept (X Y A : GpuArray) :
  copies_tried opA (trace (rger_copyX W alpha m n elsize X Y A nocopy))
  = 0%nat.
Proof. walk_goal; settle. Qed.

End OutputNeverCopied.

Lemma shape_error_refused_for_output (msg : string) :
  refused_for_output false (error_set GA_VALUE_ERROR msg).
Proof. repeat split. Qed.

Lemma stopped_early_refused_for_output (r : run) (msgs : list string) :
  stopped_early r msgs -> refused_for_output false r.
Proof.
  intros H. apply stopped_early_facts in H.
  destruct H as (? & ? & ? & _). repeat split; try assumption. discriminate.
Qed.

(** C4, as the code has it.  A [GpuArray_rgemv] call whose output [Y] has
    a negative stride, a [GpuArray_rgemm] call whose output [C] is not one
    segment and a [GpuArray_rger] call whose output [A] is not one
    segment fail whatever [nocopy] is, and call no kernel; the status is
    [GA_VALUE_ERROR] when the call is valid and no input needs a copy.
    No call of the three ever copies its output operand. *)
Theorem output_operand_refused_never_copied
    (W : backend) (tA tB : cb_transpose) (alpha beta : Z) (nocopy : bool) :
  (forall A X Y,
     (stride Y 0 <? 0) = true ->
     refused_for_output
       (rgemv_valid tA A X Y && negb (rgemv_needs_copy A X))
       (GpuArray_rgemv W tA alpha A X beta Y nocopy))
  /\ (forall A B C,
        GpuArray_ISONESEGMENT C = false ->
        refused_for_output
          (rgemm_valid tA tB A B C && negb (rgemm_needs_copy A B))
          (GpuArray_rgemm W tA tB alpha A B beta C nocopy))
  /\ (forall X Y A,
        GpuArray_ISONESEGMENT A = false ->
        refused_for_output
          (rger_valid X Y A && negb (rger_needs_copy X Y))
          (GpuArray_rger W alpha X Y A nocopy))
  /\ (forall A X Y,
        copies_tried opY
          (trace (GpuArray_rgemv W tA alpha A X beta Y nocopy)) = 0%nat)
  /\ (forall A B C,
        copies_tried opC
          (trace (GpuArray_rgemm W tA tB alpha A B beta C nocopy)) = 0%nat)
  /\ (forall X Y A,
        copies_tried opA (trace (GpuArray_rger W alpha X Y A nocopy))
        = 0%nat).
Proof.
  split; [| split; [| split; [| split; [| split]]]].
  - intros A X Y Hy. unfold rgemv_valid.
    destruct (rgemv_prior A X Y) eqn:Hp;
      [| eapply stopped_early_refused_for_output, rgemv_entry_prior, Hp ].
    destruct (rgemv_shapes tA A X Y) eqn:Hs.
    + rewrite rgemv_entry by assumption.
      now apply rgemv_copyA_bad_output.
    + rewrite rgemv_entry_shapes by assumption.
      apply shape_error_refused_for_output.
  - intros A B C Hc. unfold rgemm_valid.
    destruct (rgemm_prior A B C) eqn:Hp;
      [| eapply stopped_early_refused_for_output, rgemm_entry_prior, Hp ].
    destruct (rgemm_shapes tA tB A B C) eqn:Hs.
    + rewrite rgemm_entry by assumption.
      now apply rgemm_copyA_bad_output.
    + rewrite rgemm_entry_shapes by assumption.
      apply shape_error_refused_for_output.
  - intros X Y A Hc. unfold rger_valid.
    destruct (rger_prior X Y A) eqn:Hp;
      [| eapply stopped_early_refused_for_output, rger_entry_prior, Hp ].
    destruct (rger_shapes X Y A) eqn:Hs.
    + rewrite rger_entry by assumption.
      now apply rger_copyX_bad_output.
    + rewrite rger_entry_shapes by assumption.
      apply shape_error_refused_for_output.
  - intros A X Y.
    destruct (rgemv_prior A X Y) eqn:Hp.
    + destruct (rgemv_shapes tA A X Y) eqn:Hs.
      * rewrite rgemv_entry by assumption. apply rgemv_copyA_output_kept.
      * now rewrite rgemv_entry_shapes by assumption.
    + eapply rgemv_entry_prior, stopped_early_facts in Hp.
      destruct Hp as (_ & _ & _ & _ & Ht & _). apply Ht.
  - intros A B C.
    destruct (rgemm_prior A B C) eqn:Hp.
    + destruct (rgemm_shapes tA tB A B C) eqn:Hs.
      * rewrite rgemm_entry by assumption. apply rgemm_copyA_output_kept.
      * now rewrite rgemm_entry_shapes by assumption.
    + eapply rgemm_entry_prior, stopped_early_facts in Hp.
      destruct Hp as (_ & _ & _ & _ & Ht & _). apply Ht.
  - intros X Y A.
    destruct (rger_prior X Y A) eqn:Hp.
    + destruct (rger_shapes X Y A) eqn:Hs.
      * rewrite rger_entry by assumption. apply rger_copyX_output_kept.
      * now rewrite rger_entry_shapes by assumption.
    + eapply rger_entry_prior, stopped_early_facts in Hp.
      destruct Hp as (_ & _ & _ & _ & Ht & _). apply Ht.
Qed.

Lemma output_operand_refused_witness :
  GpuArray_ISONESEGMENT c4_C = false
  /\ GpuArray_rgemm calm cb_no_trans cb_no_trans 1 c1_A c1_B 0 c4_C true
     = Run (Return GA_VALUE_ERROR)
         [EvError GA_VALUE_ERROR msg_Noncontiguous_C []]
  /\ refused_for_output
       (rgemm_valid cb_no_trans cb_no_trans c1_A c1_B c4_C
        && negb (rgemm_needs_copy c1_A c1_B))
       (GpuArray_rgemm calm cb_no_trans cb_no_trans 1 c1_A c1_B 0 c4_C
          true).
Proof.
  split; [reflexivity |]. split; [reflexivity |].
  exact (proj1 (proj2
           (output_operand_refused_never_copied calm cb_no_trans
              cb_no_trans 1 0 true)) c1_A c1_B c4_C eq_refl).
Defined.

(** C4 as written fails: with [nocopy] set or not, [rgemv] takes a
    noncontiguous output vector and [rgemm] takes an output with a
    negative stride; both calls reach their kernel and succeed. *)
Lemma noncontiguous_or_negative_output_accepted :
  (GpuArray_ISONESEGMENT c4_Y = false
   /\ forall nocopy,
        GpuArray_rgemv calm cb_no_trans 1 c10_A c10_X 0 c4_Y nocopy
        = Run (Return GA_NO_ERROR)
            [EvSetup 1 GA_NO_ERROR;
             EvKernel
               (gpublas_gemv Single cb_fortran cb_no_trans 3 1 (as_float 1)
                  1 0 3 2 0 1 (as_float 0) 3 0 2)
               GA_NO_ERROR])
  /\
  (stride c4_C1 0 < 0
   /\ forall nocopy,
        GpuArray_rgemm calm cb_no_trans cb_no_trans 1 c4_A1 c1_B 0 c4_C1
          nocopy
        = Run (Return GA_NO_ERROR)
            [EvSetup 1 GA_NO_ERROR;
             EvKernel
               (gpublas_gemm Single cb_c cb_no_trans cb_trans 1 2 3
                  (as_float 1) 1 0 3 2 0 3 (as_float 0) 3 0 2)
               GA_NO_ERROR]).
Proof.
  split; split; try reflexivity; intros []; reflexivity.
Qed.

(** ** C3: dtypes in [GpuArray_rdot] *)

(** C3 fails on the code.  [GpuArray_rdot] with operands of different
    element types leaves the message [Inconsistent dtypes] on the context
    and goes on: the single-precision kernel is called on the
    double-precision [Y] and the call returns success.  The same operands
    stop [GpuArray_rger] at its dtype check, with [GA_VALUE_ERROR] and no
    kernel call. *)
Theorem rdot_dtype_mismatch_not_stopped :
  typecode_eqb (typecode c3_X) (typecode c3_Y) = false
  /\ GpuArray_rdot calm c3_X c3_Y c3_Z false
     = Run (Return GA_NO_ERROR)
         [EvError GA_VALUE_ERROR msg_Inconsistent_dtypes [];
          EvSetup 1 GA_NO_ERROR;
          EvKernel (gpublas_dot Single 3 1 0 1 2 0 2 3 0) GA_NO_ERROR]
  /\ GpuArray_rger calm 1 c3_X c3_Y c1_C false
     = error_set GA_VALUE_ERROR msg_Inconsistent_dtypes.
Proof. repeat split. Qed.

(** Whatever the backend and the operands, the dtype test of
    [GpuArray_rdot] changes nothing but the messages: the status and the
    kernel calls are those of the call without the test. *)
Lemma rdot_dtypes_transparent (X Y Zp : GpuArray) (r : run) :
  ret (rdot_dtypes X Y Zp r) = ret r
  /\ kernel_calls (trace (rdot_dtypes X Y Zp r)) = kernel_calls (trace r).
Proof. unfold rdot_dtypes. split_goal; split; reflexivity. Qed.

(** ** C2: the pointer-array fallback *)

(** When the six host arrays are allocated, the fallback reports an
    allocation failure: the test on the last pointer is [C_offsets]
    instead of [C_offsets == NULL]. *)
Lemma fallback_allocated_is_sys_error (W : backend) (o : cb_order)
    (tA tB : cb_transpose)
    (alpha beta m n k lda ldb ldc elsize batchCount : Z)
    (Ap Bp : gaptr) (C : GpuArray) :
  (forall h, malloc W h = true) ->
  let r := rgemmBatch_fallback W o tA tB alpha beta m n k lda ldb ldc
             elsize batchCount Ap Bp C in
  ret r = Return GA_SYS_ERROR /\ kernel_calls (trace r) = [].
Proof.
  intros H. unfold rgemmBatch_fallback. rewrite !H.
  destruct Ap, Bp; split; reflexivity.
Qed.

(** C2 fails on the code.  A batched call on a backend whose strided
    kernel answers [GA_DEVSUP_ERROR] and whose allocator never fails:
    the six arrays are allocated, the call returns [GA_SYS_ERROR], and
    the pointer-array kernel is never called. *)
Theorem batched_fallback_fails_when_allocated :
  (forall h, malloc declining h = true)
  /\ GpuArray_rgemmBatch_3d declining cb_no_trans cb_no_trans 1
       c8_A c8_B 0 c8_C false
     = Run (Return GA_SYS_ERROR)
         [EvSetup 1 GA_NO_ERROR;
          EvKernel
            (gpublas_gemm3D Single cb_c cb_no_trans cb_no_trans 1 2 3
               (as_float 1) 1 0 3 3 2 0 2 6 (as_float 0) 3 0 2 2 2 0)
            GA_DEVSUP_ERROR;
          EvMalloc A_datas true; EvMalloc B_datas true;
          EvMalloc C_datas true; EvMalloc A_offsets true;
          EvMalloc B_offsets true; EvMalloc C_offsets true;
          EvError GA_SYS_ERROR msg_malloc [];
          EvFree A_datas; EvFree B_datas; EvFree C_datas;
          EvFree A_offsets; EvFree B_offsets; EvFree C_offsets].
Proof. split; [intros h; reflexivity | reflexivity]. Qed.

Lemma fallback_null_store :
  ret (GpuArray_rgemmBatch_3d no_C_offsets cb_no_trans cb_no_trans 1
         c8_A c8_B 0 c8_C false) = Fault.
Proof. reflexivity. Qed.

(** ** Calls stopped by an earlier check

    The validator runs its checks in order, so a call that fails two of
    them reports the first.  C5, C6 and C7, read for every call, name the
    status of a later check; these calls show an earlier one. *)

(** C5 as written fails: a batched call whose batch dimensions differ (2
    against 3) and whose second operand is unaligned is stopped by the
    alignment check, which comes first, and does not report a shape
    mismatch. *)
Lemma batch_mismatch_reports_alignment :
  batch_dims_equal c8_A c5_B c8_C = false
  /\ GpuArray_rgemmBatch_3d calm cb_no_trans cb_no_trans 1
       c8_A c5_B 0 c8_C false
     = error_set GA_UNALIGNED_ERROR msg_Unaligned_input
  /\ GA_UNALIGNED_ERROR <> GA_VALUE_ERROR.
Proof. repeat split. discriminate. Qed.

(** C6 as written fails: with [nocopy] set, a padded [A] of [2 x 3]
    (which needs a copy) against a [B] of [4 x 2] is stopped by the shape
    check, which comes before the layout of the inputs is looked at, and
    does not report [GA_COPY_ERROR]. *)
Lemma nocopy_shape_mismatch_reports_shapes :
  rgemm_needs_copy c6_A c7_B = true
  /\ GpuArray_rgemm calm cb_no_trans cb_no_trans 1 c6_A c7_B 0 c1_C true
     = error_set GA_VALUE_ERROR msg_mismatched_shapes
  /\ GA_VALUE_ERROR <> GA_COPY_ERROR.
Proof. repeat split. discriminate. Qed.

(** C7 as written fails: [A] of [2 x 3] against an unaligned [B] of
    [4 x 2] is stopped by the alignment check, which comes before the
    shapes, and does not report a shape mismatch. *)
Lemma inner_mismatch_reports_alignment :
  eff_rows cb_no_trans c7_B_unaligned 0 <> eff_cols cb_no_trans c1_A 0
  /\ GpuArray_rgemm calm cb_no_trans cb_no_trans 1
       c1_A c7_B_unaligned 0 c1_C false
     = error_set GA_UNALIGNED_ERROR msg_Unaligned_inputs
  /\ GA_UNALIGNED_ERROR <> GA_VALUE_ERROR.
Proof. repeat split; discriminate. Qed.

(** The shape check of [rgemm] under [transA]. *)
Lemma shape_checks_witness :
  rgemm_shapes cb_trans cb_no_trans c5_At c1_B c1_C = true
  /\ rgemm_shapes cb_no_trans cb_no_trans c5_At c1_B c1_C = false
  /\ GpuArray_rgemm calm cb_no_trans cb_no_trans 1 c5_At c1_B 0 c1_C false
     = error_set GA_VALUE_ERROR msg_mismatched_shapes
  /\ succeeded
       (GpuArray_rgemm calm cb_trans cb_no_trans 1 c5_At c1_B 0 c1_C false)
     = true.
Proof.
  split; [reflexivity |]. split; [reflexivity |]. split; [| reflexivity].
  apply (proj1 (proj2
           (shape_checks_use_effective_dimensions calm cb_no_trans
              cb_no_trans 1 0 false)) c5_At c1_B c1_C).
  split; reflexivity.
Defined.

(** ** The order of a run *)

(** Walk the goal through the stages, one case per path; a test on two
    known orders is decided on the way. *)
Ltac walk_stages :=
  repeat first
    [ progress cbn [cb_order_eqb]
    | split_goal
    | progress autounfold with stages ].

Section Orderly.

Variable W : backend.
Variables tA tB : cb_transpose.
Variables alpha beta m n k elsize : Z.
Variable nocopy : bool.

Lemma error_fmt_orderly (code : ga_error) (msg : string) (args : list Z) :
  is_refusal code = true -> orderly (error_fmt code msg args) = true.
Proof. destruct code; try discriminate; reflexivity. Qed.

Lemma rdot_orderly (X Y Zp : GpuArray) :
  orderly (GpuArray_rdot W X Y Zp nocopy) = true.
Proof. walk_stages; settle. Qed.

Lemma rgemv_copyA_orderly (ctx : Z) (A X Y : GpuArray) :
  orderly (rgemv_copyA W tA alpha beta ctx m n elsize A X Y nocopy) = true.
Proof. walk_stages; settle. Qed.

Lemma rgemm_copyA_orderly (A B C : GpuArray) :
  orderly (rgemm_copyA W tA tB alpha beta m n k elsize A B C nocopy) = true.
Proof. walk_stages; settle. Qed.

Lemma rger_copyX_orderly (X Y A : GpuArray) :
  orderly (rger_copyX W alpha m n elsize X Y A nocopy) = true.
Proof. walk_stages; settle. Qed.

Lemma rgemmBatch_copyA_orderly (batchCount : Z) (A B C : GpuArray) :
  orderly
    (rgemmBatch_copyA W tA tB alpha beta m n k elsize batchCount A B C
       nocopy) = true.
Proof.
  repeat first
    [ progress cbn [cb_order_eqb]
    | split_goal
    | progress autounfold with stages
    | progress autounfold with batch_kernels ];
  settle; no_such_class.
Qed.

End Orderly.

(** ** From the stages to the entry points *)

(** Close [prior = false -> entry = error_fmt code .. /\ is_refusal code]. *)
Ltac prior_refuses :=
  intros Hp; repeat split_goal;
  try (do 3 eexists; split; reflexivity);
  atoms; exfalso; revert Hp; use_tests; discriminate.

Section Refused.

Variable W : backend.
Variables tA tB : cb_transpose.
Variables alpha beta : Z.
Variable nocopy : bool.

Lemma rgemv_entry_refused (A X Y : GpuArray) :
  rgemv_prior A X Y = false ->
  exists code msg args,
    GpuArray_rgemv W tA alpha A X beta Y nocopy = error_fmt code msg args
    /\ is_refusal code = true.
Proof. unfold rgemv_prior, GpuArray_rgemv. prior_refuses. Qed.

Lemma rgemm_entry_refused (A B C : GpuArray) :
  rgemm_prior A B C = false ->
  exists code msg args,
    GpuArray_rgemm W tA tB alpha A B beta C nocopy = error_fmt code msg args
    /\ is_refusal code = true.
Proof. unfold rgemm_prior, GpuArray_rgemm. prior_refuses. Qed.

Lemma rger_entry_refused (X Y A : GpuArray) :
  rger_prior X Y A = false ->
  exists code msg args,
    GpuArray_rger W alpha X Y A nocopy = error_fmt code msg args
    /\ is_refusal code = true.
Proof. unfold rger_prior, GpuArray_rger. prior_refuses. Qed.

Lemma rgemmBatch_entry_refused (A B C : GpuArray) :
  rgemmBatch_prior A B C = false ->
  exists code msg args,
    GpuArray_rgemmBatch_3d W tA tB alpha A B beta C nocopy
    = error_fmt code msg args
    /\ is_refusal code = true.
Proof. unfold rgemmBatch_prior, GpuArray_rgemmBatch_3d. prior_refuses. Qed.

End Refused.

(** A property of every run: it holds of a call the validator stops, of
    [GpuArray_rdot] (whose dtype test does not stop it), and of the layout
    stage a valid call of the four others goes on to. *)
Lemma by_entry_point (W : backend) (nocopy : bool)
    (P : blas_call -> run -> Prop) :
  (forall c code msg args,
     is_refusal code = true -> call_valid c = false ->
     P c (error_fmt code msg args)) ->
  (forall X Y Zp, P (call_rdot X Y Zp) (GpuArray_rdot W X Y Zp nocopy)) ->
  (forall tA alpha A X beta Y,
     rgemv_valid tA A X Y = true ->
     P (call_rgemv tA alpha A X beta Y)
       (rgemv_copyA W tA alpha beta (data A) (dim A 0) (dim A 1)
          (gpuarray_get_elsize (typecode A)) A X Y nocopy)) ->
  (forall tA tB alpha A B beta C,
     rgemm_valid tA tB A B C = true ->
     P (call_rgemm tA tB alpha A B beta C)
       (rgemm_copyA W tA tB alpha beta
          (eff_rows tA A 0) (eff_cols tB B 0) (eff_cols tA A 0)
          (gpuarray_get_elsize (typecode A)) A B C nocopy)) ->
  (forall alpha X Y A,
     rger_valid X Y A = true ->
     P (call_rger alpha X Y A)
       (rger_copyX W alpha (dim X 0) (dim Y 0)
          (gpuarray_get_elsize (typecode X)) X Y A nocopy)) ->
  (forall tA tB alpha A B beta C,
     rgemmBatch_valid tA tB A B C = true ->
     P (call_rgemmBatch_3d tA tB alpha A B beta C)
       (rgemmBatch_copyA W tA tB alpha beta
          (eff_rows tA A 1) (eff_cols tB B 1) (eff_cols tA A 1)
          (gpuarray_get_elsize (typecode A)) (dim A 0) A B C nocopy)) ->
  forall c, P c (perform W c nocopy).
Proof.
  intros He Hdot Hgemv Hgemm Hger Hbatch c.
  destruct c; cbn [perform].
  - apply Hdot.
  - destruct (rgemv_prior A X Y) eqn:Hp.
    + destruct (rgemv_shapes transA A X Y) eqn:Hs.
      * rewrite rgemv_entry by assumption. apply Hgemv.
        unfold rgemv_valid. now rewrite Hp, Hs.
      * rewrite rgemv_entry_shapes by assumption. apply He; [reflexivity |].
        cbn. unfold rgemv_valid. now rewrite Hp, Hs.
    + destruct (rgemv_entry_refused W transA alpha beta nocopy A X Y Hp)
        as (code & msg & args & -> & Hc).
      apply He; [assumption |]. cbn. unfold rgemv_valid. now rewrite Hp.
  - destruct (rgemm_prior A B C) eqn:Hp.
    + destruct (rgemm_shapes transA transB A B C) eqn:Hs.
      * rewrite rgemm_entry by assumption. apply Hgemm.
        unfold rgemm_valid. now rewrite Hp, Hs.
      * rewrite rgemm_entry_shapes by assumption. apply He; [reflexivity |].
        cbn. unfold rgemm_valid. now rewrite Hp, Hs.
    + destruct (rgemm_entry_refused W transA transB alpha beta nocopy
                  A B C Hp) as (code & msg & args & -> & Hc).
      apply He; [assumption |]. cbn. unfold rgemm_valid. now rewrite Hp.
  - destruct (rger_prior X Y A) eqn:Hp.
    + destruct (rger_shapes X Y A) eqn:Hs.
      * rewrite rger_entry by assumption. apply Hger.
        unfold rger_valid. now rewrite Hp, Hs.
      * rewrite rger_entry_shapes by assumption. apply He; [reflexivity |].
        cbn. unfold rger_valid. now rewrite Hp, Hs.
    + destruct (rger_entry_refused W alpha nocopy X Y A Hp)
        as (code & msg & args & -> & Hc).
      apply He; [assumption |]. cbn. unfold rger_valid. now rewrite Hp.
  - destruct (rgemmBatch_prior A B C) eqn:Hp.
    + destruct (batch_dims_equal A B C) eqn:Hb.
      * destruct (rgemmBatch_shapes transA transB A B C) eqn:Hs.
        -- rewrite rgemmBatch_entry by assumption. apply Hbatch.
           unfold rgemmBatch_valid. now rewrite Hp, Hb, Hs.
        -- rewrite rgemmBatch_entry_shapes by assumption.
           apply He; [reflexivity |].
           cbn. unfold rgemmBatch_valid. now rewrite Hp, Hb, Hs.
      * rewrite rgemmBatch_entry_batch by assumption.
        apply He; [reflexivity |].
        cbn. unfold rgemmBatch_valid. now rewrite Hp, Hb.
    + destruct (rgemmBatch_entry_refused W transA transB alpha beta nocopy
                  A B C Hp) as (code & msg & args & -> & Hc).
      apply He; [assumption |]. cbn. unfold rgemmBatch_valid. now rewrite Hp.
Qed.

Lemma perform_orderly (W : backend) (c : blas_call) (nocopy : bool) :
  orderly (perform W c nocopy) = true.
Proof.
  apply (by_entry_point W nocopy (fun _ r => orderly r = true)); intros.
  - now apply error_fmt_orderly.
  - apply rdot_orderly.
  - apply rgemv_copyA_orderly.
  - apply rgemm_copyA_orderly.
  - apply rger_copyX_orderly.
  - apply rgemmBatch_copyA_orderly.
Qed.

(** X1. In every run of the five entry points, a BLAS kernel is called
    only after a [gpublas_setup] that answered [GA_NO_ERROR]. *)
Theorem kernels_only_after_setup (W : backend) (c : blas_call)
    (nocopy : bool) :
  setup_guards_kernels false (trace (perform W c nocopy)) = true.
Proof.
  pose proof (perform_orderly W c nocopy) as H. unfold orderly in H.
  repeat (apply andb_true_iff in H; destruct H as [H ?]). assumption.
Qed.

(** X2. Temporaries are released last: once a run has called
    [GpuArray_clear], it calls nothing but [GpuArray_clear] (no kernel,
    setup, copy, allocation or message uses a temporary after its
    release). *)
Theorem temporaries_released_last (W : backend) (c : blas_call)
    (nocopy : bool) :
  released_last (trace (perform W c nocopy)) = true.
Proof.
  pose proof (perform_orderly W c nocopy) as H. unfold orderly in H.
  repeat (apply andb_true_iff in H; destruct H as [H ?]). assumption.
Qed.

(** X3. No entry point ever raises [GA_MISC_ERROR] itself: the three
    [Invalid internal result] branches of [GpuArray_rgemmBatch_3d] are
    never taken, since [is_last_2d_contiguous] answers 0, 1 or 2 and a
    copy is classified 1. *)
Theorem invalid_internal_result_never_raised (W : backend) (c : blas_call)
    (nocopy : bool) :
  forallb (fun e => negb (is_misc_message e)) (trace (perform W c nocopy))
  = true.
Proof.
  pose proof (perform_orderly W c nocopy) as H. unfold orderly in H.
  repeat (apply andb_true_iff in H; destruct H as [H ?]). assumption.
Qed.

(** X4. A run that returns has called [free] for a host array as often
    as it called [malloc] for it (six of each in the pointer-array
    fallback, none anywhere else). *)
Theorem host_arrays_freed (W : backend) (c : blas_call) (nocopy : bool)
    (h : host_array) :
  faulted (perform W c nocopy) = false ->
  frees h (trace (perform W c nocopy))
  = mallocs h (trace (perform W c nocopy)).
Proof.
  intros Hf.
  pose proof (perform_orderly W c nocopy) as H. unfold orderly in H.
  apply andb_true_iff in H. destruct H as [_ H].
  rewrite Hf, orb_false_r in H.
  rewrite forallb_forall in H.
  apply Nat.eqb_eq, H. destruct h; cbn; tauto.
Qed.

Lemma host_arrays_freed_witness :
  let r := perform declining
             (call_rgemmBatch_3d cb_no_trans cb_no_trans 1 c8_A c8_B 0 c8_C)
             false in
  faulted r = false
  /\ mallocs C_offsets (trace r) = 1%nat
  /\ frees C_offsets (trace r) = mallocs C_offsets (trace r).
Proof.
  cbv zeta. split; [reflexivity |]. split; [reflexivity |].
  apply (host_arrays_freed declining
           (call_rgemmBatch_3d cb_no_trans cb_no_trans 1 c8_A c8_B 0 c8_C)
           false C_offsets).
  reflexivity.
Defined.

(** ** The copies a run makes *)

Lemma rgemmBatch_switch_no_copies (W : backend) (o : cb_order)
    (tA tB : cb_transpose)
    (alpha beta m n k lda ldb ldc elsize batchCount : Z)
    (Ap Bp : gaptr) (C : GpuArray) (s : slot) :
  copies_tried s
    (trace (rgemmBatch_switch W o tA tB alpha beta m n k lda ldb ldc elsize
              batchCount Ap Bp C)) = 0%nat.
Proof.
  destruct Ap, Bp.
  all: repeat first
         [ split_goal | progress autounfold with batch_kernels ];
       reflexivity.
Qed.

(** Close the budget of one path. *)
Ltac within_budget :=
  intros s; cbn; rewrite ?rgemmBatch_switch_no_copies;
  destruct s; cbn; try lia; repeat split_goal; lia.

Section Copies.

Variable W : backend.
Variables tA tB : cb_transpose.
Variables alpha beta m n k elsize : Z.
Variable nocopy : bool.

Lemma error_fmt_copies (code : ga_error) (msg : string) (args : list Z)
    (s : slot) :
  copies_tried s (trace (error_fmt code msg args)) = 0%nat.
Proof. reflexivity. Qed.

Lemma rdot_copies (X Y Zp : GpuArray) :
  copies_within opX (stride X 0 <? 0) opY (stride Y 0 <? 0) nocopy
    (GpuArray_rdot W X Y Zp nocopy).
Proof. unfold copies_within. walk_stages; within_budget. Qed.

Lemma rgemv_copyA_copies (ctx : Z) (A X Y : GpuArray) :
  copies_within opA (negb (GpuArray_ISONESEGMENT A)) opX (stride X 0 <? 0)
    nocopy (rgemv_copyA W tA alpha beta ctx m n elsize A X Y nocopy).
Proof. unfold copies_within. walk_stages; within_budget. Qed.

Lemma rgemm_copyA_copies (A B C : GpuArray) :
  copies_within opA (negb (GpuArray_ISONESEGMENT A))
    opB (negb (GpuArray_ISONESEGMENT B)) nocopy
    (rgemm_copyA W tA tB alpha beta m n k elsize A B C nocopy).
Proof. unfold copies_within. walk_stages; within_budget. Qed.

Lemma rger_copyX_copies (X Y A : GpuArray) :
  copies_within opX (stride X 0 <? 0) opY (stride Y 0 <? 0) nocopy
    (rger_copyX W alpha m n elsize X Y A nocopy).
Proof. unfold copies_within. walk_stages; within_budget. Qed.

Lemma rgemmBatch_copyA_copies (batchCount : Z) (A B C : GpuArray) :
  copies_within opA (is_last_2d_contiguous A =? 0)
    opB (is_last_2d_contiguous B =? 0) nocopy
    (rgemmBatch_copyA W tA tB alpha beta m n k elsize batchCount A B C
       nocopy).
Proof. unfold copies_within. walk_stages; within_budget. Qed.

End Copies.

(** Bring the budget of a stage to the one of the call. *)
Ltac fits_budget s H :=
  destruct s; cbn [wants_copy slot_eqb andb orb] in H |- *;
  rewrite ?orb_false_r in H; exact H.

(** X5. [GpuArray_copy] is called at most once for an operand, only for
    an input that fails its layout test (a vector with a negative stride,
    a matrix that is not one segment, a batch [is_last_2d_contiguous]
    classifies 0), never for the output, and never when [nocopy] is
    set. *)
Theorem copies_only_where_needed (W : backend) (c : blas_call)
    (nocopy : bool) (s : slot) :
  (copies_tried s (trace (perform W c nocopy))
   <= if wants_copy c s && negb nocopy then 1 else 0)%nat.
Proof.
  revert s.
  apply (by_entry_point W nocopy
           (fun c r => forall s,
              (copies_tried s (trace r)
               <= if wants_copy c s && negb nocopy then 1 else 0)%nat)).
  - intros; cbn; lia.
  - intros X Y Zp s. pose proof (rdot_copies W nocopy X Y Zp s) as H.
    fits_budget s H.
  - intros tA alpha A X beta Y _ s.
    pose proof (rgemv_copyA_copies W tA alpha beta (dim A 0) (dim A 1)
                  (gpuarray_get_elsize (typecode A)) nocopy (data A)
                  A X Y s) as H.
    fits_budget s H.
  - intros tA tB alpha A B beta C _ s.
    pose proof (rgemm_copyA_copies W tA tB alpha beta
                  (eff_rows tA A 0) (eff_cols tB B 0) (eff_cols tA A 0)
                  (gpuarray_get_elsize (typecode A)) nocopy A B C s) as H.
    fits_budget s H.
  - intros alpha X Y A _ s.
    pose proof (rger_copyX_copies W alpha (dim X 0) (dim Y 0)
                  (gpuarray_get_elsize (typecode X)) nocopy X Y A s) as H.
    fits_budget s H.
  - intros tA tB alpha A B beta C _ s.
    pose proof (rgemmBatch_copyA_copies W tA tB alpha beta
                  (eff_rows tA A 1) (eff_cols tB B 1) (eff_cols tA A 1)
                  (gpuarray_get_elsize (typecode A)) nocopy (dim A 0)
                  A B C s) as H.
    fits_budget s H.
Qed.

(** ** Calls the validator stops *)

Lemma error_fmt_refused (code : ga_error) (msg : string) (args : list Z) :
  is_refusal code = true -> refused_by_validator (error_fmt code msg args).
Proof. intros H. exists code. repeat split; assumption. Qed.

Lemma rdot_refused (W : backend) (X Y Zp : GpuArray) (nocopy : bool) :
  rdot_valid X Y Zp = false ->
  refused_by_validator (GpuArray_rdot W X Y Zp nocopy).
Proof.
  unfold rdot_valid, rdot_prior, GpuArray_rdot, rdot_dtypes.
  intros Hp; repeat split_goal;
    try (eexists; repeat split; reflexivity);
    atoms; exfalso; revert Hp; use_tests; discriminate.
Qed.

(** X6. A call that fails the validator of its entry point (element
    type, ranks, dtypes except in [GpuArray_rdot], alignment, shapes)
    returns [GA_INVALID_ERROR], [GA_VALUE_ERROR] or [GA_UNALIGNED_ERROR]
    and has done nothing but leave messages: no copy, no setup, no kernel
    call. *)
Theorem invalid_call_does_nothing (W : backend) (c : blas_call)
    (nocopy : bool) :
  call_valid c = false -> refused_by_validator (perform W c nocopy).
Proof.
  apply (by_entry_point W nocopy
           (fun c r => call_valid c = false -> refused_by_validator r)).
  - intros. now apply error_fmt_refused.
  - intros X Y Zp. apply rdot_refused.
  - cbn. congruence.
  - cbn. congruence.
  - cbn. congruence.
  - cbn. congruence.
Qed.

Lemma invalid_call_does_nothing_witness :
  let c := call_rgemm cb_no_trans cb_no_trans 1 int_A c1_B 0 c1_C in
  call_valid c = false
  /\ ret (perform calm c false) = Return GA_INVALID_ERROR
  /\ refused_by_validator (perform calm c false).
Proof.
  cbv zeta. split; [reflexivity |]. split; [reflexivity |].
  apply (invalid_call_does_nothing calm
           (call_rgemm cb_no_trans cb_no_trans 1 int_A c1_B 0 c1_C) false).
  reflexivity.
Defined.

(** ** The answers of the backend *)

Lemma rgemmBatch_switch_events (W : backend) (o : cb_order)
    (tA tB : cb_transpose)
    (alpha beta m n k lda ldb ldc elsize batchCount : Z)
    (Ap Bp : gaptr) (C : GpuArray) (e : event) :
  In e (trace (rgemmBatch_switch W o tA tB alpha beta m n k lda ldb ldc
                 elsize batchCount Ap Bp C)) ->
  is_copy e || is_setup e = false.
Proof.
  intros H. apply negb_true_iff. revert e H. apply forallb_forall.
  destruct Ap, Bp.
  all: repeat first
         [ split_goal | progress autounfold with batch_kernels ];
       reflexivity.
Qed.

(** Go through the events of a path for the one a hypothesis names. *)
Ltac find_event :=
  repeat match goal with
  | H : In _ (_ :: _) |- _ => cbn [In] in H
  | H : In _ [] |- _ => contradiction H
  | H : _ \/ _ |- _ => destruct H as [H | H]
  | H : False |- _ => contradiction H
  | H : In _ (trace (rgemmBatch_switch _ _ _ _ _ _ _ _ _ _ _ _ _ _ _ _ _))
    |- _ => apply rgemmBatch_switch_events in H; discriminate H
  | H : @eq event _ _ |- _ =>
      first [ discriminate H | injection H as; subst ]
  end.

(** Close [failure_returned] on one path. *)
Ltac failure_stops :=
  split; intros; cbn [trace emit ret deref] in *; find_event;
  first [ congruence | split; reflexivity ].

Section Answers.

Variable W : backend.
Variables tA tB : cb_transpose.
Variables alpha beta m n k elsize : Z.
Variable nocopy : bool.

Lemma error_fmt_failure_returned (code : ga_error) (msg : string)
    (args : list Z) :
  failure_returned (error_fmt code msg args).
Proof. unfold error_fmt. failure_stops. Qed.

Lemma rdot_failure_returned (X Y Zp : GpuArray) :
  failure_returned (GpuArray_rdot W X Y Zp nocopy).
Proof. unfold failure_returned. walk_stages; failure_stops. Qed.

Lemma rgemv_copyA_failure_returned (ctx : Z) (A X Y : GpuArray) :
  failure_returned
    (rgemv_copyA W tA alpha beta ctx m n elsize A X Y nocopy).
Proof. unfold failure_returned. walk_stages; failure_stops. Qed.

Lemma rgemm_copyA_failure_returned (A B C : GpuArray) :
  failure_returned
    (rgemm_copyA W tA tB alpha beta m n k elsize A B C nocopy).
Proof. unfold failure_returned. walk_stages; failure_stops. Qed.

Lemma rger_copyX_failure_returned (X Y A : GpuArray) :
  failure_returned (rger_copyX W alpha m n elsize X Y A nocopy).
Proof. unfold failure_returned. walk_stages; failure_stops. Qed.

Lemma rgemmBatch_copyA_failure_returned (batchCount : Z)
    (A B C : GpuArray) :
  failure_returned
    (rgemmBatch_copyA W tA tB alpha beta m n k elsize batchCount A B C
       nocopy).
Proof. unfold failure_returned. walk_stages; failure_stops. Qed.

Lemma rdot_kernel_answer (X Y Zp : GpuArray) :
  kernel_answer_returned W (GpuArray_rdot W X Y Zp nocopy).
Proof.
  unfold kernel_answer_returned. walk_stages.
  all: cbn; intros K H; find_event; subst; split; reflexivity.
Qed.

Lemma rgemv_copyA_kernel_answer (ctx : Z) (A X Y : GpuArray) :
  kernel_answer_returned W
    (rgemv_copyA W tA alpha beta ctx m n elsize A X Y nocopy).
Proof.
  unfold kernel_answer_returned. walk_stages.
  all: cbn; intros K H; find_event; subst; split; reflexivity.
Qed.

Lemma rgemm_copyA_kernel_answer (A B C : GpuArray) :
  kernel_answer_returned W
    (rgemm_copyA W tA tB alpha beta m n k elsize A B C nocopy).
Proof.
  unfold kernel_answer_returned. walk_stages.
  all: cbn; intros K H; find_event; subst; split; reflexivity.
Qed.

Lemma rger_copyX_kernel_answer (X Y A : GpuArray) :
  kernel_answer_returned W
    (rger_copyX W alpha m n elsize X Y A nocopy).
Proof.
  unfold kernel_answer_returned. walk_stages.
  all: cbn; intros K H; find_event; subst; split; reflexivity.
Qed.

End Answers.

Lemma perform_failure_returned (W : backend) (c : blas_call)
    (nocopy : bool) :
  failure_returned (perform W c nocopy).
Proof.
  apply (by_entry_point W nocopy (fun _ r => failure_returned r)); intros.
  - apply error_fmt_failure_returned.
  - apply rdot_failure_returned.
  - apply rgemv_copyA_failure_returned.
  - apply rgemm_copyA_failure_returned.
  - apply rger_copyX_failure_returned.
  - apply rgemmBatch_copyA_failure_returned.
Qed.

(** X7. When [GpuArray_copy] fails, its status is the one the entry
    point returns, and no kernel is called. *)
Theorem failed_copy_is_returned (W : backend) (c : blas_call)
    (nocopy : bool) (s : slot) (a : GpuArray) (ord : ga_order)
    (e : ga_error) :
  In (EvCopy s a ord e) (trace (perform W c nocopy)) ->
  is_no_error e = false ->
  ret (perform W c nocopy) = Return e
  /\ kernel_calls (trace (perform W c nocopy)) = [].
Proof. apply (proj1 (perform_failure_returned W c nocopy)). Qed.

Lemma failed_copy_is_returned_witness :
  let r := perform no_device_memory
             (call_rgemm cb_no_trans cb_no_trans 1 c6_A c1_B 0 c1_C)
             false in
  In (EvCopy opA c6_A GA_F_ORDER GA_MEMORY_ERROR) (trace r)
  /\ ret r = Return GA_MEMORY_ERROR
  /\ kernel_calls (trace r) = [].
Proof.
  cbv zeta. split; [left; reflexivity |].
  apply (failed_copy_is_returned no_device_memory
           (call_rgemm cb_no_trans cb_no_trans 1 c6_A c1_B 0 c1_C) false
           opA c6_A GA_F_ORDER GA_MEMORY_ERROR).
  - left; reflexivity.
  - reflexivity.
Defined.

(** X8. When [gpublas_setup] fails, its status is the one the entry
    point returns, and no kernel is called. *)
Theorem failed_setup_is_returned (W : backend) (c : blas_call)
    (nocopy : bool) (ctx : Z) (e : ga_error) :
  In (EvSetup ctx e) (trace (perform W c nocopy)) ->
  is_no_error e = false ->
  ret (perform W c nocopy) = Return e
  /\ kernel_calls (trace (perform W c nocopy)) = [].
Proof. apply (proj2 (perform_failure_returned W c nocopy)). Qed.

Lemma failed_setup_is_returned_witness :
  let r := perform no_blas
             (call_rgemm cb_no_trans cb_no_trans 1 c1_A c1_B 0 c1_C)
             false in
  In (EvSetup 1 GA_UNSUPPORTED_ERROR) (trace r)
  /\ ret r = Return GA_UNSUPPORTED_ERROR
  /\ kernel_calls (trace r) = [].
Proof.
  cbv zeta. split; [left; reflexivity |].
  apply (failed_setup_is_returned no_blas
           (call_rgemm cb_no_trans cb_no_trans 1 c1_A c1_B 0 c1_C) false
           1 GA_UNSUPPORTED_ERROR).
  - left; reflexivity.
  - reflexivity.
Defined.

(** X9. The four entry points that are not batched call their kernel at
    most once, and return what it answers, failure or not. *)
Theorem kernel_answer_is_returned (W : backend) (c : blas_call)
    (nocopy : bool) (K : kernel_call) :
  is_batched c = false ->
  In K (kernel_calls (trace (perform W c nocopy))) ->
  kernel_calls (trace (perform W c nocopy)) = [K]
  /\ ret (perform W c nocopy) = Return (gpublas W K).
Proof.
  intros Hb. revert K.
  change (kernel_answer_returned W (perform W c nocopy)).
  revert Hb.
  apply (by_entry_point W nocopy
           (fun c r => is_batched c = false -> kernel_answer_returned W r)).
  - intros _ code msg args _ _ _ K [].
  - intros X Y Zp _. apply rdot_kernel_answer.
  - intros tA alpha A X beta Y _ _. apply rgemv_copyA_kernel_answer.
  - intros tA tB alpha A B beta C _ _. apply rgemm_copyA_kernel_answer.
  - intros alpha X Y A _ _. apply rger_copyX_kernel_answer.
  - cbn. discriminate.
Qed.

Lemma kernel_answer_is_returned_witness :
  let r := perform failing_kernels
             (call_rgemm cb_no_trans cb_no_trans 1 c1_A c1_B 0 c1_C)
             false in
  In c1_call (kernel_calls (trace r))
  /\ kernel_calls (trace r) = [c1_call]
  /\ ret r = Return GA_BLAS_ERROR.
Proof.
  cbv zeta. split; [left; reflexivity |].
  apply (kernel_answer_is_returned failing_kernels
           (call_rgemm cb_no_trans cb_no_trans 1 c1_A c1_B 0 c1_C) false
           c1_call).
  - reflexivity.
  - left; reflexivity.
Defined.

(** ** The two kernels of the batched entry point *)

Section BatchSwitch.

Variable W : backend.
Variable o : cb_order.
Variables tA tB : cb_transpose.
Variables alpha beta m n k lda ldb ldc elsize batchCount : Z.
Variables Ap Bp : gaptr.
Variable C : GpuArray.

Let sw : run :=
  rgemmBatch_switch W o tA tB alpha beta m n k lda ldb ldc elsize
    batchCount Ap Bp C.

(** One case per path through the two kernels. *)
Ltac walk_switch :=
  destruct Ap, Bp;
  repeat first [ split_goal | progress autounfold with batch_kernels ];
  cbn [deref] in *; cbn.

(** What the two allocation tests of the fallback say, host array by
    host array. *)
Ltac allocations :=
  atoms;
  repeat match goal with
  | H : malloc W _ = _ |- _ => rewrite H in *
  end;
  cbn [negb andb orb] in *;
  rewrite ?andb_true_r, ?andb_false_r in *;
  repeat match goal with
  | H : (0 <? _) = false |- _ => apply Z.ltb_ge in H
  | H : (0 <? _) = true |- _ => apply Z.ltb_lt in H
  end.

Lemma rgemmBatch_switch_strided (K : kernel_call) :
  In K (kernel_calls (trace sw)) ->
  is_pointer_array K = false ->
  call_batchCount K = Some batchCount
  /\ (is_devsup (gpublas W K) = false ->
      ret sw = Return (gpublas W K) /\ kernel_calls (trace sw) = [K])
  /\ (is_devsup (gpublas W K) = true -> 0 < batchCount ->
      succeeded sw = false /\ kernel_calls (trace sw) = [K]).
Proof.
  subst sw. walk_switch.
  all: intros H Hp; find_event; subst; try discriminate Hp.
  all: split; [reflexivity |].
  all: split; [intros Hd; try congruence; split; reflexivity |].
  all: intros Hd Hpos; try congruence; try (split; reflexivity).
  all: exfalso; allocations; lia.
Qed.

Lemma rgemmBatch_switch_pointer_array (K : kernel_call) :
  In K (kernel_calls (trace sw)) ->
  is_pointer_array K = true ->
  call_C_offsets K = Some None
  /\ call_batchCount K = Some batchCount
  /\ batchCount <= 0
  /\ malloc W C_offsets = false
  /\ ret sw = Return (gpublas W K).
Proof.
  subst sw. walk_switch.
  all: intros H Hp; find_event; subst; try discriminate Hp.
  all: allocations; cbn.
  all: repeat split; try reflexivity; assumption.
Qed.

Lemma rgemmBatch_switch_fault :
  faulted sw = true ->
  0 < batchCount
  /\ malloc W C_offsets = false
  /\ (forall h, h <> C_offsets -> malloc W h = true).
Proof.
  subst sw. walk_switch.
  all: try discriminate.
  all: intros _; allocations.
  all: repeat split; try assumption.
  all: intros h Hh; destruct h; try assumption; congruence.
Qed.

Lemma rgemmBatch_switch_success :
  supported (typecode C) = true ->
  succeeded sw = true ->
  exists K,
    In K (kernel_calls (trace sw)) /\ gpublas W K = GA_NO_ERROR.
Proof.
  subst sw. intros Hs. walk_switch.
  all: try discriminate.
  all: try (intros H; apply is_no_error_true in H;
            eexists; split; [| exact H]; cbn; auto; fail).
  all: try (intros H; exfalso; apply is_no_error_true in H;
            rewrite H in *; discriminate).
  all: destruct (typecode C); discriminate.
Qed.

End BatchSwitch.

(** A valid batched call either stops before the kernels (no kernel
    call, a failure status) or is the run of the two kernels, after
    events that are neither kernel calls nor the status. *)
Lemma rgemmBatch_copyA_reaches (W : backend) (tA tB : cb_transpose)
    (alpha beta m n k elsize batchCount : Z) (A B C : GpuArray)
    (nocopy : bool) :
  let r := rgemmBatch_copyA W tA tB alpha beta m n k elsize batchCount
             A B C nocopy in
  (kernel_calls (trace r) = [] /\ succeeded r = false /\ faulted r = false)
  \/ (exists o tA' tB' lda ldb ldc Ap Bp,
        let sw := rgemmBatch_switch W o tA' tB' alpha beta m n k
                    lda ldb ldc elsize batchCount Ap Bp C in
        ret r = ret sw
        /\ kernel_calls (trace r) = kernel_calls (trace sw)).
Proof.
  cbv zeta. walk_stages.
  all: first
         [ left; cbn [deref] in *; cbn; use_tests; repeat split; reflexivity
         | right; do 8 eexists; split; reflexivity ].
Qed.

Lemma rgemmBatch_3d_reaches (W : backend) (tA tB : cb_transpose)
    (alpha : Z) (A B : GpuArray) (beta : Z) (C : GpuArray)
    (nocopy : bool) :
  let r := GpuArray_rgemmBatch_3d W tA tB alpha A B beta C nocopy in
  (kernel_calls (trace r) = [] /\ succeeded r = false /\ faulted r = false)
  \/ (rgemmBatch_valid tA tB A B C = true
      /\ exists o tA' tB' lda ldb ldc Ap Bp,
           let sw := rgemmBatch_switch W o tA' tB' alpha beta
                       (eff_rows tA A 1) (eff_cols tB B 1) (eff_cols tA A 1)
                       lda ldb ldc (gpuarray_get_elsize (typecode A))
                       (dim A 0) Ap Bp C in
           ret r = ret sw
           /\ kernel_calls (trace r) = kernel_calls (trace sw)).
Proof.
  cbv zeta.
  pose (P := fun (c : blas_call) (r : run) =>
    match c with
    | call_rgemmBatch_3d tA tB alpha A B beta C =>
        (kernel_calls (trace r) = [] /\ succeeded r = false
         /\ faulted r = false)
        \/ (rgemmBatch_valid tA tB A B C = true
            /\ exists o tA' tB' lda ldb ldc Ap Bp,
                 ret r
                 = ret (rgemmBatch_switch W o tA' tB' alpha beta
                          (eff_rows tA A 1) (eff_cols tB B 1)
                          (eff_cols tA A 1) lda ldb ldc
                          (gpuarray_get_elsize (typecode A))
                          (dim A 0) Ap Bp C)
                 /\ kernel_calls (trace r)
                    = kernel_calls
                        (trace
                           (rgemmBatch_switch W o tA' tB' alpha beta
                              (eff_rows tA A 1) (eff_cols tB B 1)
                              (eff_cols tA A 1) lda ldb ldc
                              (gpuarray_get_elsize (typecode A))
                              (dim A 0) Ap Bp C)))
    | _ => True
    end).
  change (P (call_rgemmBatch_3d tA tB alpha A B beta C)
            (perform W (call_rgemmBatch_3d tA tB alpha A B beta C) nocopy)).
  apply by_entry_point; subst P; cbv beta.
  - intros c code msg args Hc _. destruct c; try exact I.
    left. destruct code; try discriminate Hc; repeat split; reflexivity.
  - intros; exact I.
  - intros; exact I.
  - intros; exact I.
  - intros; exact I.
  - clear. intros tA tB alpha A B beta C Hv.
    destruct (rgemmBatch_copyA_reaches W tA tB alpha beta
                (eff_rows tA A 1) (eff_cols tB B 1) (eff_cols tA A 1)
                (gpuarray_get_elsize (typecode A)) (dim A 0) A B C nocopy)
      as [H | H]; [left; exact H | right; split; [exact Hv | exact H]].
Qed.

Section BatchAnswers.

Variable W : backend.
Variables tA tB : cb_transpose.
Variables alpha beta : Z.
Variables A B C : GpuArray.
Variable nocopy : bool.

Let r : run := GpuArray_rgemmBatch_3d W tA tB alpha A B beta C nocopy.

(** Name the run of the two kernels a batched call that calls a kernel,
    or faults, goes through. *)
Ltac to_switch H :=
  subst r;
  destruct (rgemmBatch_3d_reaches W tA tB alpha A B beta C nocopy)
    as [(Hk & Hs & Hf) | (Hv & o & tA' & tB' & lda & ldb & ldc & Ap & Bp
                           & Hr & Hk)];
  [ first [ rewrite Hk in H; contradiction H | congruence ]
  | cbv zeta in Hr, Hk ].

(** X10. The batched entry point calls the strided kernel
    [gpublas_gemm3D] with the batch size [A->dimensions[0]]; when its
    answer is not [GA_DEVSUP_ERROR] that answer is returned, failure or
    not, and no other kernel is called. *)
Theorem strided_batch_answer_is_returned (K : kernel_call) :
  In K (kernel_calls (trace r)) ->
  is_pointer_array K = false ->
  is_devsup (gpublas W K) = false ->
  call_batchCount K = Some (dim A 0)
  /\ ret r = Return (gpublas W K)
  /\ kernel_calls (trace r) = [K].
Proof.
  intros H Hp Hd. to_switch H.
  rewrite Hk in H. rewrite Hr, Hk.
  destruct (rgemmBatch_switch_strided _ _ _ _ _ _ _ _ _ _ _ _ _ _ _ _ _
              K H Hp) as (Hb & Hret & _).
  split; [exact Hb | exact (Hret Hd)].
Qed.

(** X11. Whenever the pointer-array kernel [gpublas_gemmBatch] is
    called, the allocation of [C_offsets] has failed, the kernel is
    given a [NULL] [C_offsets], and the batch is empty; its answer is
    returned. *)
Theorem pointer_array_call_without_C_offsets (K : kernel_call) :
  In K (kernel_calls (trace r)) ->
  is_pointer_array K = true ->
  call_C_offsets K = Some None
  /\ call_batchCount K = Some (dim A 0)
  /\ dim A 0 <= 0
  /\ malloc W C_offsets = false
  /\ ret r = Return (gpublas W K).
Proof.
  intros H Hp. to_switch H.
  rewrite Hk in H. rewrite Hr.
  exact (rgemmBatch_switch_pointer_array _ _ _ _ _ _ _ _ _ _ _ _ _ _ _ _ _
           K H Hp).
Qed.

(** X12. When the strided kernel answers [GA_DEVSUP_ERROR] for a batch
    that is not empty, the call does not succeed, whatever the
    allocator does, and the pointer-array kernel is not called. *)
Theorem fallback_never_multiplies (K : kernel_call) :
  In K (kernel_calls (trace r)) ->
  is_pointer_array K = false ->
  is_devsup (gpublas W K) = true ->
  0 < dim A 0 ->
  succeeded r = false /\ kernel_calls (trace r) = [K].
Proof.
  intros H Hp Hd Hpos. to_switch H.
  rewrite Hk in H. unfold succeeded. rewrite Hr, Hk.
  destruct (rgemmBatch_switch_strided _ _ _ _ _ _ _ _ _ _ _ _ _ _ _ _ _
              K H Hp) as (_ & _ & Hfall).
  exact (Hfall Hd Hpos).
Qed.

(** X13. The fill loop of the fallback stores through a [NULL] pointer
    only when the batch is not empty and the allocation of [C_offsets],
    and of no other host array, has failed. *)
Theorem null_store_only_without_C_offsets :
  faulted r = true ->
  0 < dim A 0
  /\ malloc W C_offsets = false
  /\ (forall h, h <> C_offsets -> malloc W h = true).
Proof.
  intros H. to_switch H.
  unfold faulted in H. rewrite Hr in H.
  exact (rgemmBatch_switch_fault _ _ _ _ _ _ _ _ _ _ _ _ _ _ _ _ _ H).
Qed.

End BatchAnswers.

Lemma strided_batch_answer_witness :
  let r := GpuArray_rgemmBatch_3d failing_kernels cb_no_trans cb_no_trans 1
             c8_A c8_B 0 c8_C false in
  In c8_call (kernel_calls (trace r))
  /\ call_batchCount c8_call = Some 2
  /\ ret r = Return GA_BLAS_ERROR
  /\ kernel_calls (trace r) = [c8_call].
Proof.
  cbv zeta. split; [left; reflexivity |].
  apply (strided_batch_answer_is_returned failing_kernels cb_no_trans
           cb_no_trans 1 0 c8_A c8_B c8_C false c8_call).
  - left; reflexivity.
  - reflexivity.
  - reflexivity.
Defined.

Lemma pointer_array_call_witness :
  let r := GpuArray_rgemmBatch_3d no_C_offsets cb_no_trans cb_no_trans 1
             empty_A empty_B 0 empty_C false in
  In empty_call (kernel_calls (trace r))
  /\ call_C_offsets empty_call = Some None
  /\ call_batchCount empty_call = Some 0
  /\ dim empty_A 0 <= 0
  /\ malloc no_C_offsets C_offsets = false
  /\ ret r = Return GA_NO_ERROR.
Proof.
  cbv zeta. split; [right; left; reflexivity |].
  apply (pointer_array_call_without_C_offsets no_C_offsets cb_no_trans
           cb_no_trans 1 0 empty_A empty_B empty_C false empty_call).
  - right; left; reflexivity.
  - reflexivity.
Defined.

Lemma fallback_never_multiplies_witness :
  let r := GpuArray_rgemmBatch_3d declining cb_no_trans cb_no_trans 1
             c8_A c8_B 0 c8_C false in
  In c8_call (kernel_calls (trace r))
  /\ gpublas declining c8_call = GA_DEVSUP_ERROR
  /\ succeeded r = false
  /\ kernel_calls (trace r) = [c8_call].
Proof.
  cbv zeta. split; [left; reflexivity |]. split; [reflexivity |].
  apply (fallback_never_multiplies declining cb_no_trans cb_no_trans 1 0
           c8_A c8_B c8_C false c8_call).
  - left; reflexivity.
  - reflexivity.
  - reflexivity.
  - reflexivity.
Defined.

Lemma null_store_witness :
  let r := GpuArray_rgemmBatch_3d no_C_offsets cb_no_trans cb_no_trans 1
             c8_A c8_B 0 c8_C false in
  faulted r = true
  /\ 0 < dim c8_A 0
  /\ malloc no_C_offsets C_offsets = false
  /\ (forall h, h <> C_offsets -> malloc no_C_offsets h = true).
Proof.
  cbv zeta. split; [reflexivity |].
  apply (null_store_only_without_C_offsets no_C_offsets cb_no_trans
           cb_no_trans 1 0 c8_A c8_B c8_C false).
  reflexivity.
Defined.

(** ** A call that reports success *)

Lemma typecode_eqb_eq (s t : ga_typecode) :
  typecode_eqb s t = true -> s = t.
Proof.
  destruct s, t; cbn; try discriminate; try reflexivity.
  intros H. apply Z.eqb_eq in H. now subst.
Qed.

(** The [switch] on the element type has a case for the operand given:
    the operand is the argument, whose type the validator accepted, or a
    copy of it. *)
Ltac has_case W Hkeep :=
  exfalso; cbn [deref] in *;
  repeat match goal with
  | Hc : GpuArray_copy W ?s ?a ?o = (_, ?c),
    Hp : precision_of (typecode ?c) = None |- _ =>
      let E := fresh "E" in
      pose proof (Hkeep s a o) as E; rewrite Hc in E; cbn [snd] in E;
      rewrite E in Hp
  end;
  match goal with
  | Hs : supported ?t = true, Hp : precision_of ?t = None |- _ =>
      destruct t; discriminate
  end.

(** Close one path of [succeeded r = true -> a kernel answered
    GA_NO_ERROR]. *)
Ltac success_means_kernel W Hkeep :=
  cbn [deref] in *; cbn;
  first
    [ discriminate
    | intros H; apply is_no_error_true in H;
      eexists; split; [left; reflexivity | exact H]
    | intros H; congruence
    | intros _; has_case W Hkeep ].

Section Success.

Variable W : backend.
Hypothesis Hkeep : copies_keep_dtype W.
Variables tA tB : cb_transpose.
Variables alpha beta m n k elsize : Z.
Variable nocopy : bool.

Lemma rdot_success (X Y Zp : GpuArray) :
  succeeded (GpuArray_rdot W X Y Zp nocopy) = true ->
  exists K,
    In K (kernel_calls (trace (GpuArray_rdot W X Y Zp nocopy)))
    /\ gpublas W K = GA_NO_ERROR.
Proof.
  walk_stages.
  all: tidy_tests; success_means_kernel W Hkeep.
Qed.

Lemma rgemv_copyA_success (ctx : Z) (A X Y : GpuArray) :
  supported (typecode A) = true ->
  let r := rgemv_copyA W tA alpha beta ctx m n elsize A X Y nocopy in
  succeeded r = true ->
  exists K, In K (kernel_calls (trace r)) /\ gpublas W K = GA_NO_ERROR.
Proof.
  intros Hs. cbv zeta. walk_stages.
  all: tidy_tests; success_means_kernel W Hkeep.
Qed.

Lemma rgemm_copyA_success (A B C : GpuArray) :
  supported (typecode A) = true ->
  let r := rgemm_copyA W tA tB alpha beta m n k elsize A B C nocopy in
  succeeded r = true ->
  exists K, In K (kernel_calls (trace r)) /\ gpublas W K = GA_NO_ERROR.
Proof.
  intros Hs. cbv zeta. walk_stages.
  all: tidy_tests; success_means_kernel W Hkeep.
Qed.

Lemma rger_copyX_success (X Y A : GpuArray) :
  supported (typecode X) = true ->
  let r := rger_copyX W alpha m n elsize X Y A nocopy in
  succeeded r = true ->
  exists K, In K (kernel_calls (trace r)) /\ gpublas W K = GA_NO_ERROR.
Proof.
  intros Hs. cbv zeta. walk_stages.
  all: tidy_tests; success_means_kernel W Hkeep.
Qed.

End Success.

(** X14. A call that returns [GA_NO_ERROR] has called a kernel that
    answered [GA_NO_ERROR]: the [switch] on the element type, which has
    no [default], always finds its case, provided a copy has the element
    type of what it copies. *)
Theorem success_means_a_kernel_succeeded (W : backend) (c : blas_call)
    (nocopy : bool) :
  copies_keep_dtype W ->
  succeeded (perform W c nocopy) = true ->
  exists K,
    In K (kernel_calls (trace (perform W c nocopy)))
    /\ gpublas W K = GA_NO_ERROR.
Proof.
  intros Hkeep.
  apply (by_entry_point W nocopy
           (fun _ r =>
              succeeded r = true ->
              exists K,
                In K (kernel_calls (trace r)) /\ gpublas W K = GA_NO_ERROR)).
  - intros _ code msg args Hc _. destruct code; discriminate.
  - intros X Y Zp. now apply rdot_success.
  - intros tA alpha A X beta Y Hv.
    apply rgemv_copyA_success; [assumption |].
    unfold rgemv_valid, rgemv_prior in Hv. atoms. assumption.
  - intros tA tB alpha A B beta C Hv.
    apply rgemm_copyA_success; [assumption |].
    unfold rgemm_valid, rgemm_prior in Hv. atoms. assumption.
  - intros alpha X Y A Hv.
    apply rger_copyX_success; [assumption |].
    unfold rger_valid, rger_prior in Hv. atoms. assumption.
  - intros tA tB alpha A B beta C Hv Hok.
    destruct (rgemmBatch_copyA_reaches W tA tB alpha beta
                (eff_rows tA A 1) (eff_cols tB B 1) (eff_cols tA A 1)
                (gpuarray_get_elsize (typecode A)) (dim A 0) A B C nocopy)
      as [(_ & Hs & _) | (o & tA' & tB' & lda & ldb & ldc & Ap & Bp
                          & Hr & Hk)]; [congruence |].
    cbv zeta in Hr, Hk. rewrite Hk.
    apply rgemmBatch_switch_success.
    + unfold rgemmBatch_valid, rgemmBatch_prior in Hv. atoms.
      match goal with
      | E : typecode_eqb (typecode C) (typecode A) = true |- _ =>
          apply typecode_eqb_eq in E; rewrite E
      end.
      assumption.
    + unfold succeeded in Hok |- *. now rewrite <- Hr.
Qed.

Lemma success_witness :
  let r := perform calm
             (call_rgemm cb_no_trans cb_no_trans 1 c6_A c1_B 0 c1_C)
             false in
  copies_keep_dtype calm
  /\ succeeded r = true
  /\ exists K,
       In K (kernel_calls (trace r)) /\ gpublas calm K = GA_NO_ERROR.
Proof.
  cbv zeta.
  assert (Hkeep : copies_keep_dtype calm)
    by (intros s a ord; destruct ord; reflexivity).
  split; [exact Hkeep |]. split; [reflexivity |].
  apply (success_means_a_kernel_succeeded calm
           (call_rgemm cb_no_trans cb_no_trans 1 c6_A c1_B 0 c1_C) false
           Hkeep).
  reflexivity.
Defined.

(** ** The dimensions a kernel is called with *)

Section Dimensions.

Variable W : backend.
Variables tA tB : cb_transpose.
Variables alpha beta m n k elsize : Z.
Variable nocopy : bool.
Variable K : kernel_call.

Lemma rdot_dims (X Y Zp : GpuArray) :
  In K (kernel_calls (trace (GpuArray_rdot W X Y Zp nocopy))) ->
  call_dims K = (None, Some (dim X 0), None, None).
Proof.
  revert K. walk_stages.
  all: cbn; intros K H; find_event; subst; reflexivity.
Qed.

Lemma rgemv_copyA_dims (ctx : Z) (A X Y : GpuArray) :
  In K (kernel_calls
          (trace (rgemv_copyA W tA alpha beta ctx m n elsize A X Y nocopy)))
  -> call_dims K = (Some m, Some n, None, None).
Proof.
  revert K. walk_stages.
  all: cbn; intros K H; find_event; subst; reflexivity.
Qed.

Lemma rgemm_copyA_dims (A B C : GpuArray) :
  In K (kernel_calls
          (trace (rgemm_copyA W tA tB alpha beta m n k elsize A B C nocopy)))
  -> call_dims K = (Some m, Some n, Some k, None).
Proof.
  revert K. walk_stages.
  all: cbn; intros K H; find_event; subst; reflexivity.
Qed.

Lemma rger_copyX_dims (X Y A : GpuArray) :
  In K (kernel_calls (trace (rger_copyX W alpha m n elsize X Y A nocopy)))
  -> call_dims K = (Some m, Some n, None, None).
Proof.
  revert K. walk_stages.
  all: cbn; intros K H; find_event; subst; reflexivity.
Qed.

Lemma rgemmBatch_switch_dims (o : cb_order)
    (lda ldb ldc batchCount : Z) (Ap Bp : gaptr) (C : GpuArray) :
  In K (kernel_calls
          (trace (rgemmBatch_switch W o tA tB alpha beta m n k lda ldb ldc
                    elsize batchCount Ap Bp C))) ->
  call_dims K = (Some m, Some n, Some k, Some batchCount).
Proof.
  revert K. destruct Ap, Bp.
  all: repeat first
         [ split_goal | progress autounfold with batch_kernels ].
  all: cbn; intros K H; find_event; subst; reflexivity.
Qed.

End Dimensions.

(** X15. Every kernel call is made with the dimensions of the problem
    the caller stated: [dot] with the length of [X]; [gemv] and [ger]
    with the stored shape of [A], whatever [transA]; the products with
    the shape of the output [C] and the inner dimension of [op(A)]; the
    two batched kernels with the number of slices of [C]. *)
Theorem kernel_gets_the_problem_dimensions (W : backend) (c : blas_call)
    (nocopy : bool) (K : kernel_call) :
  In K (kernel_calls (trace (perform W c nocopy))) ->
  call_dims K = problem_dims c.
Proof.
  revert K.
  apply (by_entry_point W nocopy
           (fun c r =>
              forall K, In K (kernel_calls (trace r)) ->
                        call_dims K = problem_dims c)).
  - intros _ code msg args _ _ K [].
  - intros X Y Zp K. apply rdot_dims.
  - intros tA alpha A X beta Y _ K. apply rgemv_copyA_dims.
  - intros tA tB alpha A B beta C Hv K H.
    apply rgemm_copyA_dims in H. rewrite H. cbn [problem_dims].
    unfold rgemm_valid, rgemm_shapes in Hv. atoms.
    repeat match goal with
    | E : (_ =? _) = true |- _ => apply Z.eqb_eq in E
    end.
    congruence.
  - intros alpha X Y A Hv K H.
    apply rger_copyX_dims in H. rewrite H. cbn [problem_dims].
    unfold rger_valid, rger_shapes in Hv. atoms.
    repeat match goal with
    | E : (_ =? _) = true |- _ => apply Z.eqb_eq in E
    end.
    congruence.
  - intros tA tB alpha A B beta C Hv K H.
    destruct (rgemmBatch_copyA_reaches W tA tB alpha beta
                (eff_rows tA A 1) (eff_cols tB B 1) (eff_cols tA A 1)
                (gpuarray_get_elsize (typecode A)) (dim A 0) A B C nocopy)
      as [(Hk & _) | (o & tA' & tB' & lda & ldb & ldc & Ap & Bp
                      & _ & Hk)];
      cbv zeta in Hk; rewrite Hk in H; [contradiction H |].
    apply rgemmBatch_switch_dims in H. rewrite H. cbn [problem_dims].
    unfold rgemmBatch_valid, rgemmBatch_shapes, batch_dims_equal in Hv.
    atoms.
    repeat match goal with
    | E : (_ =? _) = true |- _ => apply Z.eqb_eq in E
    end.
    congruence.
Qed.

Lemma kernel_dimensions_witness :
  In c1_call
    (kernel_calls
       (trace (perform calm
                 (call_rgemm cb_no_trans cb_no_trans 1 c1_A c1_B 0 c1_C)
                 false)))
  /\ call_dims c1_call = (Some 2, Some 2, Some 3, None).
Proof.
  split; [left; reflexivity |].
  apply (kernel_gets_the_problem_dimensions calm
           (call_rgemm cb_no_trans cb_no_trans 1 c1_A c1_B 0 c1_C) false
           c1_call).
  left; reflexivity.
Defined.

(** ** [nocopy] when no copy is wanted *)

Section NocopyIrrelevant.

Variable W : backend.
Variables tA tB : cb_transpose.
Variables alpha beta m n k elsize : Z.

Lemma rdot_copyX_either (ctx : Z) (X Y Zp : GpuArray) :
  (stride X 0 <? 0) = false -> (stride Y 0 <? 0) = false ->
  rdot_copyX W ctx n elsize X Y Zp true
  = rdot_copyX W ctx n elsize X Y Zp false.
Proof.
  intros HX HY. unfold rdot_copyX, rdot_copyY. now rewrite HX, HY.
Qed.

Lemma rgemv_copyA_either (ctx : Z) (A X Y : GpuArray) :
  negb (GpuArray_ISONESEGMENT A) = false -> (stride X 0 <? 0) = false ->
  rgemv_copyA W tA alpha beta ctx m n elsize A X Y true
  = rgemv_copyA W tA alpha beta ctx m n elsize A X Y false.
Proof.
  intros HA HX. unfold rgemv_copyA, rgemv_copyX. now rewrite HA, HX.
Qed.

Lemma rgemm_copyA_either (A B C : GpuArray) :
  negb (GpuArray_ISONESEGMENT A) = false ->
  negb (GpuArray_ISONESEGMENT B) = false ->
  rgemm_copyA W tA tB alpha beta m n k elsize A B C true
  = rgemm_copyA W tA tB alpha beta m n k elsize A B C false.
Proof.
  intros HA HB. unfold rgemm_copyA, rgemm_copyB. now rewrite HA, HB.
Qed.

Lemma rger_copyX_either (X Y A : GpuArray) :
  (stride X 0 <? 0) = false -> (stride Y 0 <? 0) = false ->
  rger_copyX W alpha m n elsize X Y A true
  = rger_copyX W alpha m n elsize X Y A false.
Proof.
  intros HX HY. unfold rger_copyX, rger_copyY. now rewrite HX, HY.
Qed.

Lemma rgemmBatch_copyA_either (batchCount : Z) (A B C : GpuArray) :
  (is_last_2d_contiguous A =? 0) = false ->
  (is_last_2d_contiguous B =? 0) = false ->
  rgemmBatch_copyA W tA tB alpha beta m n k elsize batchCount A B C true
  = rgemmBatch_copyA W tA tB alpha beta m n k elsize batchCount A B C false.
Proof.
  intros HA HB. unfold rgemmBatch_copyA, rgemmBatch_copyB. cbv zeta.
  now rewrite HA, HB.
Qed.

End NocopyIrrelevant.

(** X16. [nocopy] has no effect on a call none of whose inputs fails
    its layout test: the run is the same, event for event, with the flag
    set or not. *)
Theorem nocopy_only_matters_when_a_copy_is_wanted (W : backend)
    (c : blas_call) :
  (forall s, wants_copy c s = false) ->
  perform W c true = perform W c false.
Proof.
  intros H. destruct c; cbn [perform].
  - pose proof (H opX) as HX. pose proof (H opY) as HY. cbn in HX, HY.
    unfold GpuArray_rdot, rdot_dtypes.
    repeat split_goal; try reflexivity;
      first [ now apply rdot_copyX_either
            | unfold emit; f_equal; [ f_equal | f_equal; f_equal ];
              now apply rdot_copyX_either ].
  - pose proof (H opA) as HA. pose proof (H opX) as HX. cbn in HA, HX.
    unfold GpuArray_rgemv.
    repeat split_goal; try reflexivity; now apply rgemv_copyA_either.
  - pose proof (H opA) as HA. pose proof (H opB) as HB. cbn in HA, HB.
    unfold GpuArray_rgemm.
    repeat split_goal; try reflexivity; now apply rgemm_copyA_either.
  - pose proof (H opX) as HX. pose proof (H opY) as HY. cbn in HX, HY.
    unfold GpuArray_rger.
    repeat split_goal; try reflexivity; now apply rger_copyX_either.
  - pose proof (H opA) as HA. pose proof (H opB) as HB. cbn in HA, HB.
    unfold GpuArray_rgemmBatch_3d.
    repeat split_goal; try reflexivity; now apply rgemmBatch_copyA_either.
Qed.

Lemma nocopy_only_matters_witness :
  let c := call_rgemm cb_no_trans cb_no_trans 1 c1_A c1_B 0 c1_C in
  (forall s, wants_copy c s = false)
  /\ succeeded (perform calm c true) = true
  /\ perform calm c true = perform calm c false.
Proof.
  cbv zeta.
  assert (H : forall s,
             wants_copy
               (call_rgemm cb_no_trans cb_no_trans 1 c1_A c1_B 0 c1_C) s
             = false) by (intros s; destruct s; reflexivity).
  split; [exact H |]. split; [reflexivity |].
  exact (nocopy_only_matters_when_a_copy_is_wanted calm
           (call_rgemm cb_no_trans cb_no_trans 1 c1_A c1_B 0 c1_C) H).
Defined.

(** ** The classification of the slices of a batch *)

(** X17. [is_last_2d_contiguous] answers 0 exactly for an array that
    is not flagged C-contiguous and has a non-positive stride on one of
    its last two axes, or an element stride on neither; and 2
    (column-major) exactly for one that is not flagged C-contiguous and
    has positive strides on both axes, the element stride on the first
    of them: column-major is tried first, so slices that are both are
    taken as column-major. *)
Theorem last_2d_classification (a : GpuArray) :
  let s2 := stride a (Z.to_nat (nd a - 2)) in
  let s1 := stride a (Z.to_nat (nd a - 1)) in
  let size := gpuarray_get_elsize (typecode a) in
  (is_last_2d_contiguous a = 0
   <-> GpuArray_IS_C_CONTIGUOUS a = false
       /\ (s2 <= 0 \/ s1 <= 0 \/ (s2 <> size /\ s1 <> size)))
  /\ (is_last_2d_contiguous a = 2
      <-> GpuArray_IS_C_CONTIGUOUS a = false
          /\ 0 < s2 /\ 0 < s1 /\ s2 = size)
  /\ (is_last_2d_contiguous a = 0 \/ is_last_2d_contiguous a = 1
      \/ is_last_2d_contiguous a = 2).
Proof.
  cbv zeta. unfold is_last_2d_contiguous, GpuArray_ITEMSIZE.
  destruct (GpuArray_IS_C_CONTIGUOUS a).
  { repeat split; try (intros; discriminate); try tauto;
      intros (? & _); discriminate. }
  destruct (stride a (Z.to_nat (nd a - 2)) <=? 0) eqn:E2;
    destruct (stride a (Z.to_nat (nd a - 1)) <=? 0) eqn:E1;
    cbn [orb];
    try (destruct (stride a (Z.to_nat (nd a - 2))
                   =? gpuarray_get_elsize (typecode a)) eqn:F2;
         try destruct (stride a (Z.to_nat (nd a - 1))
                       =? gpuarray_get_elsize (typecode a)) eqn:F1).
  all: repeat match goal with
       | E : (_ <=? _) = true |- _ => apply Z.leb_le in E
       | E : (_ <=? _) = false |- _ => apply Z.leb_gt in E
       | E : (_ =? _) = true |- _ => apply Z.eqb_eq in E
       | E : (_ =? _) = false |- _ => apply Z.eqb_neq in E
       end.
  all: repeat split; try (intros; discriminate); try tauto; try lia.
  all: try (intros; repeat split; try reflexivity; lia).
Qed.
